(** * Schema reclassification and de-duplication of [convert_tag_to_field.py]

    A shallow embedding of [convert_measurement]
    (src/scripts/convert_tag_to_field.py, lines 85-173) and the properties of
    its collision-avoidance loop and of its tag/field classification.
    Its callers [convert] and [main] (lines 176-260) are embedded as well,
    by the calls they make on the outside world.

    Modelling conventions.
    - A raw point [pt] is a Python dict.  Its entry ['time'] is read once
      through [np.datetime64]; the model keeps the resulting instant as an
      integer count of microseconds ([pt_time]).  The other entries are
      kept as an association list in iteration order ([pt_items]), because
      the classification loop is sensitive to that order.
    - Python values are abstract: the code only tests them against [None],
      prints them with [str] and feeds them to the callables [int], [float],
      [str] of the field table.  These three uses form the interface
      [PyValue]; every general theorem holds for any implementation of it.
    - [series] is a Python list whose slot 0 is the timestamp and whose other
      slots are strings; it is a [list cell].
    - [dup_check] is a Python set of tuples: a [gset (list cell)].
    - [tags] and [fields] are Python dicts used as maps: [gmap string _].
    - [sys.exit] is a fatal error, and so is an exception that nothing
      catches: functions return [error + _].
    - Line 129 evaluates [np.timedelta64(1, 'u')].  ['u'] is not a unit of
      numpy (microseconds are ['us']), so this raises [TypeError] whenever
      it is reached: the code never changes a timestamp. *)

From stdpp Require Import base tactics option list strings gmap pretty.
From Stdlib Require Import ZArith Lia.

Local Open Scope string_scope.
Local Open Scope nat_scope.
Local Open Scope list_scope.

(** ** Python values *)

(** The callables stored in [field_keys]. *)
Inductive ftype := TInt | TFloat | TStr.

(** What the code needs from a Python value [v]: [v is None], [str(v)] and
    [ty(v)] for [ty] one of [int], [float], [str] ([None] when the call
    raises). *)
Class PyValue (value fieldval : Type) := {
  is_None : value → bool;
  py_str : value → string;
  coerce : ftype → value → option fieldval;
}.

(** ** The schema tables (lines 23-82) *)

Definition tag_keys : list (string * list string) := [
  ("active_streams", ["channel"; "server_id"]);
  ("backlog", ["channel"]);
  ("channel_status", ["channel"]);
  ("client_buffer", ["channel"; "server_id"]);
  ("client_error", []);
  ("client_sysinfo", ["server_id"]);
  ("decoder_info", ["channel"]);
  ("server_info", ["server_id"]);
  ("ssim", ["channel"; "format"]);
  ("video_acked", ["channel"; "server_id"]);
  ("video_sent", ["channel"; "server_id"]);
  ("video_size", ["channel"; "format"])
].

Definition field_keys : list (string * list (string * ftype)) := [
  ("active_streams", [("count", TInt); ("expt_id", TInt)]);
  ("backlog", [("canonical_cnt", TInt); ("working_cnt", TInt)]);
  ("channel_status", [("selected_rate", TFloat); ("snr", TFloat)]);
  ("client_buffer", [("buffer", TFloat); ("cum_rebuf", TFloat);
                     ("event", TStr); ("expt_id", TInt);
                     ("init_id", TInt); ("user", TStr)]);
  ("client_error", [("error", TStr); ("init_id", TInt); ("user", TStr)]);
  ("client_sysinfo", [("browser", TStr); ("expt_id", TInt);
                      ("init_id", TInt); ("ip", TStr); ("os", TStr);
                      ("screen_height", TInt); ("screen_width", TInt);
                      ("user", TStr)]);
  ("decoder_info", [("due", TInt); ("filler_fields", TInt);
                    ("timestamp", TInt)]);
  ("server_info", [("server_id_1", TInt)]);
  ("ssim", [("ssim_index", TFloat); ("timestamp", TInt)]);
  ("video_acked", [("buffer", TFloat); ("cum_rebuffer", TFloat);
                   ("expt_id", TInt); ("init_id", TInt);
                   ("ssim_index", TFloat); ("user", TStr);
                   ("video_ts", TInt)]);
  ("video_sent", [("buffer", TFloat); ("cum_rebuffer", TFloat);
                  ("cwnd", TInt); ("delivery_rate", TInt);
                  ("expt_id", TInt); ("format", TStr); ("in_flight", TInt);
                  ("init_id", TInt); ("min_rtt", TInt); ("rtt", TInt);
                  ("size", TInt); ("ssim_index", TFloat); ("user", TStr);
                  ("video_ts", TInt)]);
  ("video_size", [("size", TInt); ("timestamp", TInt)])
].

(** [d[k]] on a dict written as its list of entries; [None] is [KeyError]. *)
Fixpoint dict_get {A} (k : string) (d : list (string * A)) : option A :=
  match d with
  | [] => None
  | (k', a) :: d' => if decide (k = k') then Some a else dict_get k d'
  end.

Arguments dict_get : simpl never.

(** ** Data *)

Inductive error :=
  | UnknownMeasurement (m : string)      (* KeyError on a schema table *)
  | MissingDeclaredTag (k : string)      (* line 109 *)
  | UnresolvableCollision (m : string)   (* line 127 *)
  | InvalidTimedeltaUnit                 (* line 129, TypeError *)
  | TypeCoercionFailure (k : string)     (* line 157, the callable raises *)
  | UnclassifiableKey (k : string)       (* line 159 *)
  | LoopFuelExhausted.                   (* model only, never returned *)

Inductive cell := CTime (t : Z) | CStr (s : string).

Global Instance cell_eq_dec : EqDecision cell.
Proof. solve_decision. Defined.

Global Instance cell_countable : Countable cell.
Proof.
  refine (inj_countable' (λ c, match c with CTime t => inl t | CStr s => inr s end)
                         (λ x, match x with inl t => CTime t | inr s => CStr s end) _).
  by intros [].
Defined.

(** A raw point: [pt_time] is [np.datetime64(pt['time'])] in microseconds,
    [pt_items] the entries of [pt] other than ['time'], in iteration order.
    The code tests [tag_key in pt] for declared tag keys only, and none of
    them is ['time'] (see [tag_keys_wf]). *)
Record RawPoint (value : Type) := mkRawPoint {
  pt_time : Z;
  pt_items : list (string * value);
}.
Arguments mkRawPoint {value} _ _.
Arguments pt_time {value} _.
Arguments pt_items {value} _.

Record ReclassifiedPoint (fieldval : Type) := mkPoint {
  measurement : string;
  time : Z;
  tags : gmap string string;
  fields : gmap string fieldval;
}.
Arguments mkPoint {fieldval} _ _ _ _.
Arguments measurement {fieldval} _.
Arguments time {fieldval} _.
Arguments tags {fieldval} _.
Arguments fields {fieldval} _.

(** The three loop variables of the duplicate check.  [fake_server_id] and
    [fake_server_id_idx] are [None] together (lines 94-95) and assigned
    together (lines 111-113): one optional pair. *)
Record dedup_state := mkDedup {
  series : list cell;
  fake : option (Z * nat);
}.

(** ** The algorithm *)

(** Lines 104-107: the guard in front of [sys.exit]. *)
Definition missing_is_fatal (m tag_key : string) : bool :=
  bool_decide (tag_key ≠ "server_id")
  || (bool_decide (m ≠ "client_buffer") && bool_decide (m ≠ "video_sent")
      && bool_decide (m ≠ "video_acked")).

(** Lines 124-126: the measurements whose timestamp is not adjusted. *)
Definition restricted (m : string) : bool :=
  bool_decide (m = "client_buffer") || bool_decide (m = "video_sent")
  || bool_decide (m = "video_acked").

(** [k[-2:]] and [k[:-2]]. *)
Definition last2 (k : string) : string :=
  String.substring (String.length k - 2) 2 k.
Definition drop_last2 (k : string) : string :=
  String.substring 0 (String.length k - 2) k.

(** Lines 148-151. *)
Definition normalize_key (m pt_k : string) : string :=
  if bool_decide (m ≠ "server_info")
  then if bool_decide (last2 pt_k = "_1") then drop_last2 pt_k else pt_k
  else pt_k.

(** [series[0]] as read at line 134. *)
Definition series_time (s : list cell) : Z :=
  match s with
  | CTime t :: _ => t
  | _ => 0%Z
  end.

Section Convert.
Context {value fieldval : Type} `{!PyValue value fieldval}.

(** Lines 98-113, one pass of the [for tag_key] loop per list element. *)
Fixpoint build_series (m : string) (pt : RawPoint value)
    (tks : list string) (st : dedup_state) : error + dedup_state :=
  match tks with
  | [] => inr st
  | tag_key :: tks' =>
      match dict_get tag_key (pt_items pt) with
      | Some v =>
          build_series m pt tks' (mkDedup (series st ++ [CStr (py_str v)]) (fake st))
      | None =>
          if missing_is_fatal m tag_key then inl (MissingDeclaredTag tag_key)
          else
            let fake_server_id := 1%Z in
            let series' := series st ++ [CStr (pretty fake_server_id)] in
            build_series m pt tks'
              (mkDedup series' (Some (fake_server_id, length series' - 1)))
      end
  end.

(** Lines 116-129.  One unit of fuel per test of the [while] condition;
    [None] when the fuel runs out.  At line 129 the right-hand side
    [np.timedelta64(1, 'u')] raises before [series[0]] is assigned. *)
Fixpoint resolve (fuel : nat) (m : string) (dup_check : gset (list cell))
    (st : dedup_state) : option (error + dedup_state) :=
  match fuel with
  | O => None
  | S fuel' =>
      if decide (series st ∈ dup_check) then
        match fake st with
        | Some (fake_server_id, idx) =>
            let fake_server_id := (fake_server_id + 1)%Z in
            resolve fuel' m dup_check
              (mkDedup (<[idx := CStr (pretty fake_server_id)]> (series st))
                       (Some (fake_server_id, idx)))
        | None =>
            if restricted m then Some (inl (UnresolvableCollision m))
            else Some (inl InvalidTimedeltaUnit)
        end
      else Some (inr st)
  end.

(** Lines 141-159, one pass of the [for pt_k in pt] loop per list element. *)
Fixpoint classify (m : string) (tks : list string)
    (items : list (string * value))
    (tags : gmap string string) (fields : gmap string fieldval)
    : error + (gmap string string * gmap string fieldval) :=
  match items with
  | [] => inr (tags, fields)
  | (pt_k, v) :: items' =>
      if bool_decide (pt_k = "time") then classify m tks items' tags fields
      else if is_None v then classify m tks items' tags fields
      else
        let k := normalize_key m pt_k in
        if bool_decide (k ∈ tks) then
          classify m tks items' (<[k := py_str v]> tags) fields
        else
          match dict_get m field_keys with
          | None => inl (UnknownMeasurement m)
          | Some fks =>
              match dict_get k fks with
              | Some ty =>
                  match coerce ty v with
                  | Some x => classify m tks items' tags (<[k := x]> fields)
                  | None => inl (TypeCoercionFailure k)
                  end
              | None => inl (UnclassifiableKey k)
              end
          end
  end.

(** Lines 138-139. *)
Definition initial_tags (st : dedup_state) : gmap string string :=
  match fake st with
  | Some (fake_server_id, _) => {["server_id" := pretty fake_server_id]}
  | None => ∅
  end.

(** The body of the [for pt in results] loop up to line 166: the point to
    append to [json_body] and the new [dup_check]. *)
Definition convert_point (m : string) (pt : RawPoint value)
    (dup_check : gset (list cell))
    : error + (ReclassifiedPoint fieldval * gset (list cell)) :=
  match dict_get m tag_keys with
  | None => inl (UnknownMeasurement m)
  | Some tks =>
      match build_series m pt tks (mkDedup [CTime (pt_time pt)] None) with
      | inl e => inl e
      | inr st =>
          match resolve (S (size dup_check)) m dup_check st with
          | None => inl LoopFuelExhausted
          | Some (inl e) => inl e
          | Some (inr st') =>
              let dup_check' := {[series st']} ∪ dup_check in
              match classify m tks (pt_items pt) (initial_tags st') ∅ with
              | inl e => inl e
              | inr (tags, fields) =>
                  inr (mkPoint m (series_time (series st')) tags fields, dup_check')
              end
          end
      end
  end.

(** The state of [convert_measurement] between two points: the pending
    batch, the keys seen, and the batches handed to [write_points]
    (oldest first). *)
Record conv_state := mkConv {
  json_body : list (ReclassifiedPoint fieldval);
  dup_check : gset (list cell);
  written : list (list (ReclassifiedPoint fieldval));
}.

(** Lines 161-170. *)
Definition append_point (st : conv_state) (p : ReclassifiedPoint fieldval)
    (dup' : gset (list cell)) : conv_state :=
  let json_body' := json_body st ++ [p] in
  if bool_decide (1000 ≤ length json_body')%nat
  then mkConv [] dup' (written st ++ [json_body'])
  else mkConv json_body' dup' (written st).

(** Lines 92-170: the loop over the query result.  A fatal error keeps the
    state reached so far: batches already written stay written. *)
Fixpoint convert_loop (m : string) (pts : list (RawPoint value))
    (st : conv_state) : conv_state * option error :=
  match pts with
  | [] => (st, None)
  | pt :: pts' =>
      match convert_point m pt (dup_check st) with
      | inl e => (st, Some e)
      | inr (p, dup') => convert_loop m pts' (append_point st p dup')
      end
  end.

(** Lines 85-173.  The result is the list of batches passed to
    [write_points] and the fatal error, if any. *)
Definition convert_measurement (m : string) (pts : list (RawPoint value))
    : list (list (ReclassifiedPoint fieldval)) * option error :=
  match convert_loop m pts (mkConv [] ∅ []) with
  | (st, Some e) => (written st, Some e)
  | (st, None) =>
      if bool_decide (json_body st ≠ [])
      then (written st ++ [json_body st], None)
      else (written st, None)
  end.

(** All points written by a run, in order. *)
Definition emitted (r : list (list (ReclassifiedPoint fieldval)) * option error)
    : list (ReclassifiedPoint fieldval) :=
  concat (fst r).

End Convert.

(** ** Notions used to state the properties *)

(** The keys tried by the loop when a synthetic slot exists. *)
Definition fake_key (s : list cell) (idx : nat) (g : Z) : list cell :=
  <[idx := CStr (pretty g)]> s.

(** The dedup key of an emitted point: its time and its tag values in the
    declared order of the tag keys. *)
Definition dedup_key {fieldval} (tks : list string)
    (p : ReclassifiedPoint fieldval) : Z * list (option string) :=
  (time p, (λ k, tags p !! k) <$> tks).

Section Notions.
Context {value fieldval : Type} `{!PyValue value fieldval}.
Implicit Types (pt : RawPoint value) (st : dedup_state).
Implicit Types (items : list (string * value)).
Implicit Types (p : ReclassifiedPoint fieldval).

(** The candidate key of a point: the state after the [for tag_key] loop. *)
Definition candidate (m : string) pt (tks : list string) : error + dedup_state :=
  build_series m pt tks (mkDedup [CTime (pt_time pt)] None).

(** The slot of a declared tag key in the candidate key. *)
Definition tag_cell pt (k : string) : cell :=
  CStr (match dict_get k (pt_items pt) with
        | Some v => py_str v
        | None => pretty 1%Z
        end).

(** Shape of the loop variables that the [while] loop relies on: slot 0
    holds the timestamp and, when a synthetic value was assigned, its slot
    exists, is not slot 0 and holds the printed value. *)
Definition wf_dedup st : Prop :=
  (∃ t r, series st = CTime t :: r)
  ∧ match fake st with
    | Some (f, idx) =>
        0 < idx < length (series st)
        ∧ series st !! idx = Some (CStr (pretty f))
    | None => True
    end.

(** The entries that the classification loop does not skip. *)
Definition counted (pt_k : string) (v : value) : bool :=
  negb (bool_decide (pt_k = "time")) && negb (is_None v).

(** The value of the last counted entry whose normalised key is [k]. *)
Fixpoint last_raw (m k : string) items : option value :=
  match items with
  | [] => None
  | (pt_k, v) :: items' =>
      match last_raw m k items' with
      | Some v' => Some v'
      | None =>
          if counted pt_k v && bool_decide (normalize_key m pt_k = k)
          then Some v else None
      end
  end.

(** No entry of the point is classified under a declared tag key other than
    the entry of that very key: no [k_1] beside or instead of a tag key [k]. *)
Definition no_alias (m : string) (tks : list string) pt : Prop :=
  ∀ pt_k v, (pt_k, v) ∈ pt_items pt → counted pt_k v = true →
    normalize_key m pt_k ∈ tks → normalize_key m pt_k = pt_k.

(** The internal key that an emitted point stands for. *)
Definition key_of_emitted (tks : list string) p : list cell :=
  CTime (time p) :: map (λ k, CStr (default "None" (tags p !! k))) tks.

(** All points appended so far, written or pending. *)
Definition all_points (cs : conv_state (fieldval := fieldval))
    : list (ReclassifiedPoint fieldval) :=
  concat (written cs) ++ json_body cs.

(** The keys of the points appended so far are pairwise distinct and all
    seen. *)
Definition keys_tracked (tks : list string) (cs : conv_state) : Prop :=
  NoDup (key_of_emitted tks <$> all_points cs)
  ∧ ∀ key, key ∈ key_of_emitted tks <$> all_points cs → key ∈ dup_check cs.

End Notions.

(** ** A small implementation of [PyValue]

    [None], strings and integers, enough to run the code on concrete points.
    [int] accepts an integer; [float] accepts an integer [n] and yields the
    float equal to [n]; [str] accepts everything.  Conversions from strings
    to numbers are outside this instance. *)

Inductive pyval := PNone | PStr (s : string) | PInt (z : Z).
Inductive pyfield := FInt (z : Z) | FFloat (z : Z) | FStr (s : string).

Definition pyval_str (v : pyval) : string :=
  match v with
  | PNone => "None"
  | PStr s => s
  | PInt z => pretty z
  end.

Global Instance pyval_PyValue : PyValue pyval pyfield := {
  is_None v := match v with PNone => true | _ => false end;
  py_str := pyval_str;
  coerce ty v :=
    match ty, v with
    | TInt, PInt z => Some (FInt z)
    | TFloat, PInt z => Some (FFloat z)
    | TStr, _ => Some (FStr (pyval_str v))
    | _, _ => None
    end;
}.

(** ** Concrete points *)

Definition cb_row : RawPoint pyval :=
  mkRawPoint 0 [("channel", PStr "nbc"); ("buffer", PInt 3)].
Definition cb_key (n : string) : list cell := [CTime 0; CStr "nbc"; CStr n].

Definition cb_state (n : Z) : dedup_state :=
  mkDedup (cb_key (pretty n)) (Some (n, 2)).

(** A [client_buffer] row that has no [server_id] but a [server_id_1]. *)
Definition cb_alias_row : RawPoint pyval :=
  mkRawPoint 0 [("channel", PStr "nbc"); ("server_id_1", PStr "7")].

(** Two [backlog] rows of the same instant, as a query returns them when
    the source holds [channel] under the same name both as a tag and as a
    field: the result has the two columns [channel] and [channel_1], and
    each row has a value in one of them and null in the other. *)
Definition backlog_tag_row : RawPoint pyval :=
  mkRawPoint 0 [("channel", PNone); ("channel_1", PStr "nbc");
                ("working_cnt", PInt 1)].
Definition backlog_field_row : RawPoint pyval :=
  mkRawPoint 0 [("channel", PStr "nbc"); ("channel_1", PNone);
                ("working_cnt", PInt 2)].
Definition backlog_null_row : RawPoint pyval :=
  mkRawPoint 0 [("channel", PNone); ("working_cnt", PInt 1)].

Definition ssim_row : RawPoint pyval :=
  mkRawPoint 5 [("channel", PStr "nbc"); ("format", PStr "1280x720-20");
                ("timestamp", PInt 90000)].
Definition ssim_row_later : RawPoint pyval :=
  mkRawPoint 6 [("channel", PStr "nbc"); ("format", PStr "1280x720-20");
                ("timestamp", PInt 180000)].
Definition ssim_key (t : Z) : list cell :=
  [CTime t; CStr "nbc"; CStr "1280x720-20"].
Definition ssim_no_format : RawPoint pyval :=
  mkRawPoint 5 [("channel", PStr "nbc"); ("timestamp", PInt 90000)].

Definition vs_row : RawPoint pyval :=
  mkRawPoint 0 [("channel", PStr "nbc"); ("server_id", PInt 1);
                ("cwnd_1", PInt 10)].
Definition vs_unknown : RawPoint pyval :=
  mkRawPoint 0 [("channel", PStr "nbc"); ("server_id", PInt 1);
                ("bogus", PInt 10)].

Definition cb_point1 : ReclassifiedPoint pyfield :=
  mkPoint "client_buffer" 0 {["server_id" := "1"; "channel" := "nbc"]}
    {["buffer" := FFloat 3]}.
Definition cb_point2 : ReclassifiedPoint pyfield :=
  mkPoint "client_buffer" 0 {["server_id" := "2"; "channel" := "nbc"]}
    {["buffer" := FFloat 3]}.
Definition backlog_null_point : ReclassifiedPoint pyfield :=
  mkPoint "backlog" 0 ∅ {["working_cnt" := FInt 1]}.

(** A [backlog] row with a value in both columns [channel] and
    [channel_1]. *)
Definition backlog_both_row : RawPoint pyval :=
  mkRawPoint 0 [("channel", PStr "abc"); ("channel_1", PStr "nbc");
                ("working_cnt", PInt 1)].

(** The reading of C8 that the code does not satisfy: in a converted
    point, every entry other than [time] with a non-null value is placed,
    with its value, under its normalised key in the tags or in the fields,
    and the normalised key of an entry with a null value is in neither. *)
Definition every_entry_placed (m : string) (pt : RawPoint pyval)
    (dup : gset (list cell)) : Prop :=
  ∀ p dup' pt_k v,
    convert_point m pt dup = inr (p, dup') →
    (pt_k, v) ∈ pt_items pt → pt_k ≠ "time" →
    if is_None v
    then tags p !! normalize_key m pt_k = None
         ∧ fields p !! normalize_key m pt_k = None
    else tags p !! normalize_key m pt_k = Some (py_str v)
         ∨ ∃ ty, is_Some (coerce ty v)
                 ∧ fields p !! normalize_key m pt_k = coerce ty v.

(** The reading of C10 that the code does not satisfy: a declared tag key
    present with a null value is always missing from the emitted tags. *)
Definition null_tag_omitted (m : string) (pt : RawPoint pyval)
    (dup : gset (list cell)) : Prop :=
  ∀ tks k v p dup',
    dict_get m tag_keys = Some tks → k ∈ tks →
    dict_get k (pt_items pt) = Some v → is_None v = true →
    convert_point m pt dup = inr (p, dup') →
    tags p !! k = None.

(** ** Further notions *)

(** The candidate key of a point in closed form (see [candidate_inr]). *)
Definition candidate_key {value fieldval} `{!PyValue value fieldval}
    (tks : list string) (pt : RawPoint value) : list cell :=
  CTime (pt_time pt) :: map (tag_cell pt) tks.


(** The seen keys are the first [k] keys of an enumeration. *)
Definition first_keys (key : nat → list cell) (k : nat)
    (dup : gset (list cell)) : Prop :=
  ∀ x, x ∈ dup ↔ ∃ j, j < k ∧ x = key j.

(** ** Further concrete points *)

Definition ssim_point5 : ReclassifiedPoint pyfield :=
  mkPoint "ssim" 5 {["format" := "1280x720-20"; "channel" := "nbc"]}
    {["timestamp" := FInt 90000]}.

(** A [client_buffer] row that carries the [server_id] 1. *)
Definition cb_row_id1 : RawPoint pyval :=
  mkRawPoint 0 [("channel", PStr "nbc"); ("server_id", PInt 1);
                ("buffer", PInt 3)].

(** ** One day of data, and the days of a range (lines 176-260)

    [convert] and [main] act on the outside world only: InfluxDB, the
    shell, the file system.  A run is modelled by the calls it makes, in
    order, and by how it ends.  What the world answers is given by a
    [world]: for every call, after the calls made before it, whether it
    raises, and what it returns.  Messages on stderr are left out, and so
    are the parsing of the arguments and the connection to InfluxDB (lines
    224-236), which come before the first call made here. *)

Definition backup_hour : Z := 11.
Definition SRC_DB : string := "puffer".
Definition TMP_DB : string := "puffer_converting".
Definition DST_DB : string := "puffer".

(** The calls made by [convert] and by [convert_measurement]. *)
Inductive event (fieldval : Type) :=
  | download_untar (f : string)
  | drop_database (db : string)
  | create_database (db : string)
  | check_call (cmd : string) (cwd : option string)
  | switch_database (db : string)
  | sleep (seconds : Z)
  | get_list_measurements
  | query (q : string)
  | write_points (points : list (ReclassifiedPoint fieldval)) (database : string)
  | makedirs (name : string).
Arguments download_untar {fieldval} _.
Arguments drop_database {fieldval} _.
Arguments create_database {fieldval} _.
Arguments check_call {fieldval} _ _.
Arguments switch_database {fieldval} _.
Arguments sleep {fieldval} _.
Arguments get_list_measurements {fieldval}.
Arguments query {fieldval} _.
Arguments write_points {fieldval} _ _.
Arguments makedirs {fieldval} _.

(** How a run ends when it does not return. *)
Inductive failure (fieldval : Type) :=
  | Raised (ev : event fieldval)        (* the call raised an exception *)
  | Exit (e : error)                    (* convert_measurement ended early *)
  | ValueError (date_string : string)   (* strptime, lines 242-243 *)
  | EndPrecedesStart                    (* sys.exit, line 246 *)
  | OverflowError                       (* line 250, beyond datetime.max *)
  | DayFuelExhausted.                   (* model only, never returned *)
Arguments Raised {fieldval} _.
Arguments Exit {fieldval} _.
Arguments ValueError {fieldval} _.
Arguments EndPrecedesStart {fieldval}.
Arguments OverflowError {fieldval}.
Arguments DayFuelExhausted {fieldval}.

(** The answers of the world.  The first argument is the list of the calls
    made so far; for [raises] the call asked about comes second, for the
    others it is the last call of the list.  [measurements] gives the names
    in the list returned by [get_list_measurements], [results] the points
    of [results[measurement_name]] for the query just made, [isdir] the
    answer of [path.isdir]. *)
Record world (value fieldval : Type) := mkWorld {
  raises : list (event fieldval) → event fieldval → bool;
  measurements : list (event fieldval) → list string;
  results : list (event fieldval) → list (RawPoint value);
  isdir : list (event fieldval) → string → bool;
}.
Arguments mkWorld {value fieldval} _ _ _ _.
Arguments raises {value fieldval} _ _ _.
Arguments measurements {value fieldval} _ _.
Arguments results {value fieldval} _ _.
Arguments isdir {value fieldval} _ _ _.

(** Datetimes are whole hours since 0001-01-01T00, the only datetimes that
    the format [%Y-%m-%dT%H] produces; [datetime.max] falls in the hour
    9999-12-31T23. *)
Definition date_format : string := "%Y-%m-%dT%H".
Definition datetime_max : Z := 3652059 * 24 - 1.

(** [s + timedelta(days=1)]. *)
Definition add_day (s : Z) : option Z :=
  if (s + 24 <=? datetime_max)%Z then Some (s + 24)%Z else None.

Definition archive (d : string) : string := d +:+ ".tar.gz".
Definition upload_cmd (d : string) : string :=
  "gsutil cp " +:+ d +:+ ".tar.gz gs://puffer-influxdb-analytics".

(** Whether the string [s] starts with [p]. *)
Fixpoint starts_with (p s : string) : bool :=
  match p, s with
  | "", _ => true
  | String a p', String b s' => Ascii.eqb a b && starts_with p' s'
  | String _ _, "" => false
  end.

(** The archives downloaded and the upload commands issued in a list of
    calls, and the points written. *)
Definition downloads {fieldval} (evs : list (event fieldval)) : list string :=
  omap (λ ev, match ev with download_untar f => Some f | _ => None end) evs.
Definition uploads {fieldval} (evs : list (event fieldval)) : list string :=
  omap (λ ev, match ev with
              | check_call cmd (Some _) =>
                  if starts_with "gsutil cp " cmd then Some cmd else None
              | _ => None
              end) evs.
Definition points_written {fieldval} (evs : list (event fieldval)) : nat :=
  sum_list_with (λ ev, match ev with
                       | write_points points _ => length points
                       | _ => 0
                       end) evs.

(** The calls of [convert] before the loop over the measurements. *)
Definition restore_calls {fieldval} (d : string) : list (event fieldval) :=
  [download_untar (d +:+ ".tar.gz"); drop_database TMP_DB;
   drop_database DST_DB; create_database DST_DB;
   check_call ("influxd restore -portable -db " +:+ SRC_DB +:+ " -newdb "
               +:+ TMP_DB +:+ " " +:+ d) None;
   switch_database TMP_DB; sleep 3; get_list_measurements].

(** A write goes to the destination database, in a batch of 1 to 1000
    points. *)
Definition writes_ok {fieldval} (ev : event fieldval) : Prop :=
  match ev with
  | write_points points database =>
      database = DST_DB ∧ 0 < length points ≤ 1000
  | _ => True
  end.

(** A run of [c] after the calls [tr] makes calls and ends as [P] says. *)
Definition runs {fieldval A}
    (c : list (event fieldval) → list (event fieldval) * (failure fieldval + A))
    (tr : list (event fieldval))
    (P : list (event fieldval) → failure fieldval + A → Prop) : Prop :=
  P (c tr).1 (c tr).2.

Section Driver.
Context {value fieldval : Type} `{!PyValue value fieldval}.
Variable w : world value fieldval.
Variable strptime : string → string → option Z.
Variable strftime : Z → string → string.

(** A computation reads the calls made so far and gives the calls it makes
    and its outcome. *)
Definition io (A : Type) : Type :=
  list (event fieldval) → list (event fieldval) * (failure fieldval + A).

Definition io_ret {A} (a : A) : io A := λ tr, ([], inr a).

Definition io_bind {A B} (c : io A) (k : A → io B) : io B := λ tr,
  match c tr with
  | (evs, inl e) => (evs, inl e)
  | (evs, inr a) =>
      match k a (tr ++ evs) with
      | (evs', r) => (evs ++ evs', r)
      end
  end.

Definition raise {A} (e : failure fieldval) : io A := λ tr, ([], inl e).

(** A call that returns nothing, or raises. *)
Definition call (ev : event fieldval) : io unit := λ tr,
  ([ev], if raises w tr ev then inl (Raised ev) else inr ()).

(** The value returned by the call just made. *)
Definition answer {A} (f : list (event fieldval) → A) : io A := λ tr,
  ([], inr (f tr)).

Fixpoint for_each {A} (l : list A) (body : A → io unit) : io unit :=
  match l with
  | [] => io_ret ()
  | a :: l' => io_bind (body a) (λ _, for_each l' body)
  end.

(** Lines 85-173 with their calls.  The points are converted as by
    [convert_measurement] above, whose batches are handed to
    [write_points] in order; the batches written before a [sys.exit] or
    the [TypeError] of line 129 are the ones that [convert_measurement]
    returns with the error. *)
Definition convert_measurement_calls (measurement_name : string) : io unit :=
  io_bind (call (query ("SELECT * FROM " +:+ measurement_name))) (λ _,
  io_bind (answer (results w)) (λ pts,
  let r := convert_measurement measurement_name pts in
  io_bind (for_each (fst r) (λ json_body, call (write_points json_body DST_DB)))
    (λ _,
  match snd r with
  | Some e => raise (Exit e)
  | None => io_ret ()
  end))).

(** Lines 176-220. *)
Definition convert (s_str e_str : string) : io unit :=
  let d := s_str +:+ "_" +:+ e_str in
  let f := d +:+ ".tar.gz" in
  io_bind (call (download_untar f)) (λ _,
  io_bind (call (drop_database TMP_DB)) (λ _,
  io_bind (call (drop_database DST_DB)) (λ _,
  io_bind (call (create_database DST_DB)) (λ _,
  io_bind (call (check_call
    ("influxd restore -portable -db " +:+ SRC_DB +:+ " -newdb " +:+ TMP_DB
       +:+ " " +:+ d) None)) (λ _,
  io_bind (call (switch_database TMP_DB)) (λ _,
  io_bind (call (sleep 3)) (λ _,
  io_bind (call get_list_measurements) (λ _,
  io_bind (answer (measurements w)) (λ measurement_names,
  io_bind (for_each measurement_names convert_measurement_calls) (λ _,
  let complete := "complete" in
  io_bind (answer (λ tr, isdir w tr complete)) (λ exists_complete,
  io_bind (if exists_complete then io_ret () else call (makedirs complete))
    (λ _,
  io_bind (call (check_call
    ("influxd backup -portable -database " +:+ DST_DB +:+ " -start " +:+ s_str
       +:+ " -end " +:+ e_str +:+ " " +:+ d) (Some complete))) (λ _,
  io_bind (call (check_call ("tar czvf " +:+ d +:+ ".tar.gz " +:+ d)
                   (Some complete))) (λ _,
  call (check_call ("gsutil cp " +:+ d +:+ ".tar.gz gs://puffer-influxdb-analytics")
          (Some complete)))))))))))))))).

(** Lines 248-260, the [while True] loop. *)
Fixpoint main_loop (fuel : nat) (s end_date : Z) : io unit :=
  match fuel with
  | 0 => raise DayFuelExhausted
  | S fuel' =>
      match add_day s with
      | None => raise OverflowError
      | Some e =>
          if (end_date <? e)%Z then io_ret ()
          else
            io_bind (convert (strftime s date_format) (strftime e date_format))
              (λ _, main_loop fuel' e end_date)
      end
  end.

(** Lines 238-260, after the arguments are parsed and the client is
    connected. *)
Definition main (args_start_date args_end_date : string) : io unit :=
  let start_date := args_start_date +:+ "T" +:+ pretty backup_hour in
  let end_date := args_end_date +:+ "T" +:+ pretty backup_hour in
  match strptime start_date date_format with
  | None => raise (ValueError start_date)
  | Some start_date =>
      match strptime end_date date_format with
      | None => raise (ValueError end_date)
      | Some end_date =>
          if (end_date <=? start_date)%Z then raise EndPrecedesStart
          else
            main_loop (S (Z.to_nat ((end_date - start_date) / 24)))
              start_date end_date
      end
  end.

(** *** Notions used to state the properties of the driver *)

(** The directory of the [i]-th day after [start]: [d] in [convert]. *)
Definition day_dir (start : Z) (i : nat) : string :=
  strftime (start + 24 * Z.of_nat i)%Z date_format +:+ "_"
  +:+ strftime (start + 24 * (Z.of_nat i + 1))%Z date_format.

(** The number of points handed to the world, and returned by it, in the
    calls [evs] made after [tr]. *)
Fixpoint points_read (tr evs : list (event fieldval)) : nat :=
  match evs with
  | [] => 0
  | ev :: evs' =>
      match ev with
      | query _ => length (results w (tr ++ [ev]))
      | _ => 0
      end + points_read (tr ++ [ev]) evs'
  end.

(** How the calls of [convert_measurement] for some measurements look:
    no download, no upload, well-formed writes; a failure is a raising call
    or [convert_measurement] ending early; on return, every point read was
    written. *)
Definition conversion_outcome (tr evs : list (event fieldval))
    (r : failure fieldval + unit) : Prop :=
  downloads evs = [] ∧ uploads evs = [] ∧ Forall writes_ok evs
  ∧ match r with
    | inr _ => points_written evs = points_read tr evs
    | inl (Raised _) | inl (Exit _) => True
    | inl _ => False
    end.

(** How the calls of [convert] for the directory [d] look. *)
Definition day_outcome (d : string) (tr evs : list (event fieldval))
    (r : failure fieldval + unit) : Prop :=
  head evs = Some (download_untar (archive d))
  ∧ downloads evs = [archive d]
  ∧ Forall writes_ok evs
  ∧ match r with
    | inr _ =>
        uploads evs = [upload_cmd d]
        ∧ last evs = Some (check_call (upload_cmd d) (Some "complete"))
        ∧ points_written evs = points_read tr evs
    | inl (Raised ev) =>
        uploads evs = []
        ∨ (ev = check_call (upload_cmd d) (Some "complete")
           ∧ uploads evs = [upload_cmd d])
    | inl (Exit _) => uploads evs = []
    | inl _ => False
    end.

(** How the calls of [main] look for a range of [n] whole days from
    [start]: [k] days are converted and uploaded, all of them when [main]
    returns, which needs the day after the last one to be a datetime. *)
Definition days_outcome (start : Z) (n : nat) (evs : list (event fieldval))
    (r : failure fieldval + unit) : Prop :=
  ∃ k, k ≤ n
    ∧ match r with
      | inr _ =>
          k = n
          ∧ (start + 24 * (Z.of_nat n + 1) ≤ datetime_max)%Z
          ∧ downloads evs = (λ i, archive (day_dir start i)) <$> seq 0 k
          ∧ uploads evs = (λ i, upload_cmd (day_dir start i)) <$> seq 0 k
      | inl OverflowError =>
          (datetime_max < start + 24 * (Z.of_nat k + 1))%Z
          ∧ downloads evs = (λ i, archive (day_dir start i)) <$> seq 0 k
          ∧ uploads evs = (λ i, upload_cmd (day_dir start i)) <$> seq 0 k
      | inl (Raised ev) =>
          k < n
          ∧ downloads evs = (λ i, archive (day_dir start i)) <$> seq 0 (S k)
          ∧ (uploads evs = (λ i, upload_cmd (day_dir start i)) <$> seq 0 k
             ∨ (ev = check_call (upload_cmd (day_dir start k)) (Some "complete")
                ∧ uploads evs
                  = (λ i, upload_cmd (day_dir start i)) <$> seq 0 (S k)))
      | inl (Exit _) =>
          k < n
          ∧ downloads evs = (λ i, archive (day_dir start i)) <$> seq 0 (S k)
          ∧ uploads evs = (λ i, upload_cmd (day_dir start i)) <$> seq 0 k
      | inl _ => False
      end.

End Driver.


(** ** A small implementation of [strptime] and [strftime]

    Enough to run [main] on concrete dates: the format [%Y-%m-%dT%H] only,
    on strings of the form [YYYY-MM-DDTHH] with all digits written out,
    in the proleptic Gregorian calendar of [datetime]. *)

Definition digit (a : Ascii.ascii) : option Z :=
  let n := Z.of_N (Ascii.N_of_ascii a) in
  if (48 <=? n)%Z && (n <=? 57)%Z then Some (n - 48)%Z else None.

Fixpoint number (s : string) (acc : Z) : option Z :=
  match s with
  | "" => Some acc
  | String a s' =>
      match digit a with
      | Some d => number s' (10 * acc + d)%Z
      | None => None
      end
  end.

Definition is_leap (y : Z) : bool :=
  (y mod 4 =? 0)%Z && (negb (y mod 100 =? 0)%Z || (y mod 400 =? 0)%Z).

Definition days_in_month (y m : Z) : Z :=
  if (m =? 2)%Z then (if is_leap y then 29 else 28)%Z
  else if bool_decide (m ∈ [4; 6; 9; 11]%Z) then 30%Z else 31%Z.

(** Days from 0001-01-01 to the first day of year [y], of month [m]. *)
Definition days_before_year (y : Z) : Z :=
  (365 * (y - 1) + (y - 1) / 4 - (y - 1) / 100 + (y - 1) / 400)%Z.

Definition days_before_month (y m : Z) : Z :=
  foldr Z.add 0%Z (days_in_month y <$> (Z.of_nat <$> seq 1 (Z.to_nat (m - 1)))).

Definition strptime_hours (date_string format : string) : option Z :=
  if bool_decide (format = date_format
                  ∧ String.length date_string = 13
                  ∧ String.substring 4 1 date_string = "-"
                  ∧ String.substring 7 1 date_string = "-"
                  ∧ String.substring 10 1 date_string = "T")
  then
    match number (String.substring 0 4 date_string) 0,
          number (String.substring 5 2 date_string) 0,
          number (String.substring 8 2 date_string) 0,
          number (String.substring 11 2 date_string) 0 with
    | Some y, Some m, Some d, Some h =>
        if (1 <=? y)%Z && (1 <=? m)%Z && (m <=? 12)%Z && (1 <=? d)%Z
           && (d <=? days_in_month y m)%Z && (h <=? 23)%Z
        then Some ((days_before_year y + days_before_month y m + (d - 1)) * 24
                   + h)%Z
        else None
    | _, _, _, _ => None
    end
  else None.

(** The year of the day [n] after 0001-01-01, found from below. *)
Fixpoint year_of (fuel : nat) (y n : Z) : Z :=
  match fuel with
  | 0 => y
  | S fuel' =>
      if (days_before_year (y + 1) <=? n)%Z then year_of fuel' (y + 1) n else y
  end.

Fixpoint month_of (fuel : nat) (y m n : Z) : Z :=
  match fuel with
  | 0 => m
  | S fuel' =>
      if (days_before_month y (m + 1) <=? n)%Z
      then month_of fuel' y (m + 1) n else m
  end.

Definition pad (width : nat) (n : Z) : string :=
  let s := pretty n in
  String.concat "" (replicate (width - String.length s) "0") +:+ s.

Definition strftime_hours (t : Z) (format : string) : string :=
  let n := (t / 24)%Z in
  let y0 := (n / 366 + 1)%Z in
  let y := year_of 30 y0 n in
  let n' := (n - days_before_year y)%Z in
  let m := month_of 11 y 1 n' in
  let d := (n' - days_before_month y m + 1)%Z in
  pad 4 y +:+ "-" +:+ pad 2 m +:+ "-" +:+ pad 2 d +:+ "T" +:+ pad 2 (t mod 24).

(** A world in which no call raises, the restored database holds the one
    measurement [ssim] with two rows at different times, and the directory
    [complete] does not exist. *)
Definition calm_world : world pyval pyfield :=
  mkWorld (λ _ _, false) (λ _, ["ssim"]) (λ _, [ssim_row; ssim_row_later])
    (λ _ _, false).

(** ** Tactics *)

(** Closed equations between runs of the code and their results are checked
    by evaluation. *)
Ltac vm_refl :=
  lazymatch goal with |- ?x = ?y => vm_cast_no_check (@eq_refl _ y) end.

(** Case analysis on a membership in a list given by its elements. *)
Ltac in_list H :=
  repeat (apply elem_of_cons in H as [H|H];
          [first [discriminate H | injection H as H; try subst | subst]|]);
  [..|exfalso; exact (proj1 (elem_of_nil _) H)].

(** ** Key normalisation *)

Lemma substring_0_app (a b : string) :
  String.substring 0 (String.length a) (a +:+ b) = a.
Proof. induction a as [|c a IH]; simpl; [by destruct b|by rewrite IH]. Qed.

Lemma substring_skip_app (a b : string) n :
  String.substring (String.length a) n (a +:+ b) = String.substring 0 n b.
Proof. induction a as [|c a IH]; simpl; [done|apply IH]. Qed.

Lemma length_app_2 (a : string) :
  String.length (a +:+ "_1") - 2 = String.length a.
Proof. induction a as [|c a IH]; simpl; [done|]. destruct a; simpl in *; lia. Qed.

Lemma last2_app (a : string) : last2 (a +:+ "_1") = "_1".
Proof. unfold last2. by rewrite length_app_2, substring_skip_app. Qed.

Lemma drop_last2_app (a : string) : drop_last2 (a +:+ "_1") = a.
Proof. unfold drop_last2. by rewrite length_app_2, substring_0_app. Qed.

Lemma substring_0_all (k : string) : String.substring 0 (String.length k) k = k.
Proof. induction k as [|c k IH]; simpl; [done|by rewrite IH]. Qed.

Lemma substring_split (k : string) n :
  n ≤ String.length k →
  k = String.substring 0 n k +:+ String.substring n (String.length k - n) k.
Proof.
  revert n. induction k as [|c k IH]; intros [|n] Hn; simpl in *; try lia.
  - done.
  - by rewrite substring_0_all.
  - change (String c k = String c (String.substring 0 n k +:+
                                     String.substring n (String.length k - n) k)).
    f_equal. apply IH. lia.
Qed.

Lemma last2_inv (k : string) : last2 k = "_1" → k = drop_last2 k +:+ "_1".
Proof.
  unfold last2, drop_last2. intros H.
  destruct (decide (2 ≤ String.length k)) as [Hl|Hl].
  - rewrite (substring_split k (String.length k - 2)) at 1 by lia.
    replace (String.length k - (String.length k - 2)) with 2 by lia.
    by rewrite H.
  - destruct k as [|a [|b [|c k]]]; simpl in *; try done; lia.
Qed.

Lemma normalize_key_server_info pt_k : normalize_key "server_info" pt_k = pt_k.
Proof. done. Qed.

Lemma normalize_key_strip m k :
  m ≠ "server_info" → normalize_key m (k +:+ "_1") = k.
Proof.
  intros Hm. unfold normalize_key.
  rewrite bool_decide_eq_true_2 by done.
  rewrite bool_decide_eq_true_2 by apply last2_app.
  apply drop_last2_app.
Qed.

Lemma normalize_key_keep m pt_k :
  last2 pt_k ≠ "_1" → normalize_key m pt_k = pt_k.
Proof.
  intros H. unfold normalize_key. case_bool_decide; [|done].
  by rewrite bool_decide_eq_false_2.
Qed.

(** ** Candidate keys (lines 97-113) *)

Lemma missing_is_fatal_false m k :
  missing_is_fatal m k = false ↔ k = "server_id" ∧ restricted m = true.
Proof.
  unfold missing_is_fatal, restricted.
  repeat case_bool_decide; simpl; split; try done; try (intros [? ?]; done).
Qed.

Lemma restricted_true m :
  restricted m = true ↔ m ∈ ["client_buffer"; "video_sent"; "video_acked"].
Proof.
  unfold restricted. rewrite !orb_true_iff, !bool_decide_eq_true.
  rewrite !elem_of_cons, elem_of_nil. tauto.
Qed.

Section Candidate.
Context {value fieldval : Type} `{!PyValue value fieldval}.
Implicit Types (pt : RawPoint value) (st : dedup_state).

Lemma build_series_ok m pt tks st :
  (∀ k, k ∈ tks → dict_get k (pt_items pt) = None → missing_is_fatal m k = false) →
  ∃ fk, build_series m pt tks st
          = inr (mkDedup (series st ++ map (tag_cell pt) tks) fk)
    ∧ ((fk = fake st ∧ ∀ k, k ∈ tks → is_Some (dict_get k (pt_items pt)))
       ∨ (∃ j k, fk = Some (1%Z, length (series st) + j)
                 ∧ tks !! j = Some k ∧ dict_get k (pt_items pt) = None)).
Proof.
  revert st. induction tks as [|tag_key tks IH]; intros st Hok; simpl.
  - exists (fake st). rewrite app_nil_r. destruct st; simpl.
    split; [done|]. left; split; [done|]. by intros k ?%elem_of_nil.
  - destruct (dict_get tag_key (pt_items pt)) as [v|] eqn:Hget.
    + destruct (IH (mkDedup (series st ++ [CStr (py_str v)]) (fake st)))
        as (fk & Hb & Hfk).
      { intros k Hk. apply Hok. by right. }
      exists fk. rewrite Hb. simpl. split.
      { rewrite <- app_assoc. simpl. unfold tag_cell at 2. by rewrite Hget. }
      destruct Hfk as [[-> Hall]|(j & k & -> & Hj & Hk)].
      * left. split; [done|]. intros k [->|Hk]%elem_of_cons; [by rewrite Hget|auto].
      * right. exists (S j), k. simpl. rewrite length_app. simpl.
        repeat split; [f_equal; f_equal; lia|done..].
    + rewrite (Hok tag_key) by (done || by left).
      destruct (IH (mkDedup (series st ++ [CStr (pretty 1%Z)])
                      (Some (1%Z, length (series st ++ [CStr (pretty 1%Z)]) - 1))))
        as (fk & Hb & Hfk).
      { intros k Hk. apply Hok. by right. }
      exists fk. rewrite Hb. simpl. split.
      { rewrite <- app_assoc. simpl. unfold tag_cell at 2. by rewrite Hget. }
      right. destruct Hfk as [[-> Hall]|(j & k & -> & Hj & Hk)].
      * exists 0, tag_key. simpl. rewrite length_app. simpl.
        repeat split; [f_equal; f_equal; lia|done..].
      * exists (S j), k. simpl. rewrite length_app. simpl.
        repeat split; [f_equal; f_equal; lia|done..].
Qed.

Lemma build_series_inl m pt tks st e :
  build_series m pt tks st = inl e →
  ∃ k, e = MissingDeclaredTag k ∧ k ∈ tks
       ∧ dict_get k (pt_items pt) = None ∧ missing_is_fatal m k = true.
Proof.
  revert st. induction tks as [|tag_key tks IH]; intros st; simpl; [done|].
  destruct (dict_get tag_key (pt_items pt)) as [v|] eqn:Hget.
  - intros (k & ? & ? & ?)%IH. exists k. split_and!; [done|by right|tauto..].
  - destruct (missing_is_fatal m tag_key) eqn:Hf.
    + intros [= <-]. exists tag_key. split_and!; [done|by left|done..].
    + intros (k & ? & ? & ?)%IH. exists k. split_and!; [done|by right|tauto..].
Qed.

Lemma build_series_err m pt tks st k :
  k ∈ tks → dict_get k (pt_items pt) = None → missing_is_fatal m k = true →
  ∃ k', build_series m pt tks st = inl (MissingDeclaredTag k')
        ∧ k' ∈ tks ∧ dict_get k' (pt_items pt) = None
        ∧ missing_is_fatal m k' = true.
Proof.
  intros Hk Hget Hf.
  destruct (build_series m pt tks st) as [e|st'] eqn:Hb.
  - destruct (build_series_inl _ _ _ _ _ Hb) as (k' & -> & ?). by exists k'.
  - exfalso. revert st Hb.
    induction tks as [|tag_key tks IH]; intros st; simpl;
      [by apply elem_of_nil in Hk|].
    apply elem_of_cons in Hk as [<-|Hk].
    + by rewrite Hget, Hf.
    + destruct (dict_get tag_key (pt_items pt)); [by eauto|].
      destruct (missing_is_fatal m tag_key); [done|by eauto].
Qed.

Lemma candidate_wf m pt tks st : candidate m pt tks = inr st → wf_dedup st.
Proof.
  unfold candidate. intros Hb.
  destruct (build_series_ok m pt tks (mkDedup [CTime (pt_time pt)] None))
    as (fk & Hb' & Hfk).
  { intros k Hk Hget.
    destruct (missing_is_fatal m k) eqn:Hf; [|done].
    destruct (build_series_err m pt tks (mkDedup [CTime (pt_time pt)] None) k)
      as (? & ? & _); congruence. }
  rewrite Hb in Hb'. injection Hb' as ->. split; simpl; [by eauto|].
  destruct Hfk as [[-> _]|(j & k & -> & Hj & Hk)]; simpl; [done|].
  split.
  - rewrite length_map. apply lookup_lt_Some in Hj. lia.
  - rewrite list_lookup_fmap, Hj. simpl. unfold tag_cell. by rewrite Hk.
Qed.

(** The candidate key in closed form, and where its synthetic slot is. *)
Lemma candidate_inr m pt tks st :
  candidate m pt tks = inr st →
  series st = CTime (pt_time pt) :: map (tag_cell pt) tks
  ∧ (∀ k, k ∈ tks → dict_get k (pt_items pt) = None →
       k = "server_id" ∧ restricted m = true)
  ∧ match fake st with
    | None => ∀ k, k ∈ tks → is_Some (dict_get k (pt_items pt))
    | Some (f, idx) =>
        f = 1%Z ∧ restricted m = true
        ∧ dict_get "server_id" (pt_items pt) = None
        ∧ ∃ j, idx = S j ∧ tks !! j = Some "server_id"
    end.
Proof.
  unfold candidate. intros Hb.
  assert (∀ k, k ∈ tks → dict_get k (pt_items pt) = None →
               missing_is_fatal m k = false) as Hok.
  { intros k Hk Hget.
    destruct (missing_is_fatal m k) eqn:Hf; [|done].
    destruct (build_series_err m pt tks (mkDedup [CTime (pt_time pt)] None) k)
      as (? & ? & _); congruence. }
  destruct (build_series_ok m pt tks (mkDedup [CTime (pt_time pt)] None) Hok)
    as (fk & Hb' & Hfk).
  rewrite Hb in Hb'. injection Hb' as ->. simpl. split_and!; [done| |].
  { intros k Hk Hget. by apply missing_is_fatal_false, Hok. }
  destruct Hfk as [[-> Hall]|(j & k & -> & Hj & Hk)]; simpl; [done|].
  destruct (proj1 (missing_is_fatal_false m k)) as [-> Hm].
  { apply Hok; [|done]. by eapply list_elem_of_lookup_2. }
  split_and!; [done..|]. by exists j.
Qed.

End Candidate.

(** ** The collision loop (lines 116-129) *)

(** An injective enumeration leaves every finite set after at most as many
    steps as the set has elements. *)
Lemma least_fresh `{Countable K} (dup : gset K) (key : nat → K) :
  Inj (=) (=) key →
  ∃ d, d ≤ size dup ∧ (key d ∉ dup) ∧ ∀ j, j < d → key j ∈ dup.
Proof.
  remember (size dup) as n eqn:Hn. assert (Hle : size dup ≤ n) by lia. clear Hn.
  revert dup key Hle. induction n as [|n IH]; intros dup key Hle Hinj.
  - exists 0. split; [lia|]. split; [|lia].
    assert (Hemp : dup = ∅) by (apply leibniz_equiv, size_empty_inv; lia).
    subst dup.
    set_solver.
  - destruct (decide (key 0 ∈ dup)) as [Hin|Hout].
    + destruct (IH (dup ∖ {[key 0]}) (λ j, key (S j))) as (d & Hd & Hfresh & Hbelow).
      { assert (size dup = size ({[key 0]} : gset K) + size (dup ∖ {[key 0]})) as Hsz.
        { rewrite <- size_union.
          - f_equal. apply leibniz_equiv, union_difference.
            by apply singleton_subseteq_l.
          - intros x Hx%elem_of_singleton [_ Hx']%elem_of_difference.
            by apply Hx', elem_of_singleton. }
        rewrite size_singleton in Hsz. lia. }
      { intros a b Hab. apply Hinj in Hab. lia. }
      exists (S d). split; [lia|]. split.
      * intros Hd'. apply Hfresh. apply elem_of_difference. split; [done|].
        intros Heq%elem_of_singleton. apply Hinj in Heq. lia.
      * intros [|j] Hj; [done|]. assert (j < d) as Hj' by lia.
        apply Hbelow in Hj'. by apply elem_of_difference in Hj' as [? _].
    + exists 0. split; [lia|]. split; [done|lia].
Qed.

Lemma fake_key_inj s idx :
  idx < length s → Inj (=) (=) (fake_key s idx).
Proof.
  intros Hidx g g' Heq. unfold fake_key in Heq.
  assert (<[idx := CStr (pretty g)]> s !! idx = Some (CStr (pretty g'))) as Hl.
  { rewrite Heq. by apply list_lookup_insert_eq. }
  rewrite list_lookup_insert_eq in Hl by done.
  injection Hl as Hl. by apply (inj pretty) in Hl.
Qed.

Lemma resolve_mono fuel fuel' m dup st r :
  resolve fuel m dup st = Some r → fuel ≤ fuel' →
  resolve fuel' m dup st = Some r.
Proof.
  revert fuel' st. induction fuel as [|fuel IH]; intros [|fuel'] st; simpl;
    try done; try lia.
  intros Hr Hle. destruct (decide (series st ∈ dup)); [|done].
  destruct (fake st) as [[f idx]|].
  - apply IH; [done|lia].
  - by destruct (restricted m).
Qed.

Lemma resolve_fresh fuel m dup st :
  series st ∉ dup → resolve (S fuel) m dup st = Some (inr st).
Proof. intros Hout. simpl. by rewrite decide_False. Qed.

(** The loop with a synthetic slot walks [fake_key] upwards. *)
Lemma resolve_fake_steps m dup s idx d :
  ∀ fuel f, d < fuel →
    (∀ j, j < d → fake_key s idx (f + Z.of_nat j) ∈ dup) →
    fake_key s idx (f + Z.of_nat d) ∉ dup →
    resolve fuel m dup (mkDedup (fake_key s idx f) (Some (f, idx)))
    = Some (inr (mkDedup (fake_key s idx (f + Z.of_nat d))
                         (Some ((f + Z.of_nat d)%Z, idx)))).
Proof.
  induction d as [|d IH]; intros [|fuel] f Hfuel Hbelow Hfresh; try lia.
  - replace (f + Z.of_nat 0)%Z with f in * by lia. by apply resolve_fresh.
  - simpl. rewrite decide_True.
    2:{ specialize (Hbelow 0). replace (f + Z.of_nat 0)%Z with f in Hbelow by lia.
        apply Hbelow. lia. }
    unfold fake_key at 1. rewrite list_insert_insert_eq.
    fold (fake_key s idx (f + 1)).
    replace (f + Z.of_nat (S d))%Z with (f + 1 + Z.of_nat d)%Z in * by lia.
    apply IH; [lia| |done].
    intros j Hj. replace (f + 1 + Z.of_nat j)%Z with (f + Z.of_nat (S j))%Z by lia.
    apply Hbelow. lia.
Qed.

Lemma resolve_fake m dup st f idx :
  wf_dedup st → fake st = Some (f, idx) →
  ∃ d, d ≤ size dup
    ∧ (∀ fuel, d < fuel →
         resolve fuel m dup st
         = Some (inr (mkDedup (fake_key (series st) idx (f + Z.of_nat d))
                              (Some ((f + Z.of_nat d)%Z, idx)))))
    ∧ (fake_key (series st) idx (f + Z.of_nat d) ∉ dup)
    ∧ ∀ j, j < d → fake_key (series st) idx (f + Z.of_nat j) ∈ dup.
Proof.
  intros [_ Hwf] Hfake. rewrite Hfake in Hwf. destruct Hwf as [Hidx Hslot].
  destruct (least_fresh dup (λ j, fake_key (series st) idx (f + Z.of_nat j)))
    as (d & Hd & Hfresh & Hbelow).
  { intros a b Hab. apply fake_key_inj in Hab; lia. }
  exists d. split_and!; [done| |done..].
  intros fuel Hfuel.
  assert (st = mkDedup (fake_key (series st) idx f) (Some (f, idx))) as Hst.
  { destruct st as [s fk]. simpl in *. subst fk. f_equal.
    unfold fake_key. symmetry. by apply list_insert_id. }
  rewrite Hst at 1. by apply resolve_fake_steps.
Qed.

(** The loop without a synthetic slot tests its condition once. *)
Lemma resolve_restricted m dup st fuel :
  restricted m = true → fake st = None →
  resolve (S fuel) m dup st
  = Some (if decide (series st ∈ dup) then inl (UnresolvableCollision m) else inr st).
Proof. intros Hm Hfake. simpl. rewrite Hfake, Hm. by destruct (decide _). Qed.

Lemma resolve_unrestricted m dup st fuel :
  restricted m = false → fake st = None →
  resolve (S fuel) m dup st
  = Some (if decide (series st ∈ dup) then inl InvalidTimedeltaUnit else inr st).
Proof. intros Hm Hfake. simpl. rewrite Hfake, Hm. by destruct (decide _). Qed.

(** Every well-formed candidate leaves the loop, within [size dup] retries,
    with the same outcome for every larger amount of fuel. *)
Lemma resolve_terminates m dup st :
  wf_dedup st →
  ∃ d r, d ≤ size dup ∧ ∀ fuel, d < fuel → resolve fuel m dup st = Some r.
Proof.
  intros Hwf. destruct (fake st) as [[f idx]|] eqn:Hfake.
  - destruct (resolve_fake m dup st f idx Hwf Hfake) as (d & Hd & Hr & _).
    by eauto.
  - destruct (restricted m) eqn:Hm.
    + exists 0. eexists. split; [lia|]. intros [|fuel] Hfuel; [lia|].
      by apply resolve_restricted.
    + exists 0. eexists. split; [lia|]. intros [|fuel] Hfuel; [lia|].
      by apply resolve_unrestricted.
Qed.

(** What a successful exit of the loop looks like. *)
Lemma resolve_inr m dup st fuel st' :
  wf_dedup st → resolve fuel m dup st = Some (inr st') →
  (series st' ∉ dup)
  ∧ ((∃ f idx d, fake st = Some (f, idx)
        ∧ st' = mkDedup (fake_key (series st) idx (f + Z.of_nat d))
                        (Some ((f + Z.of_nat d)%Z, idx))
        ∧ ∀ j, j < d → fake_key (series st) idx (f + Z.of_nat j) ∈ dup)
     ∨ (fake st = None ∧ st' = st)).
Proof.
  intros Hwf Hres. destruct (fake st) as [[f idx]|] eqn:Hfake.
  - destruct (resolve_fake m dup st f idx Hwf Hfake) as (d & Hd & Hr & Hfresh & Hbelow).
    specialize (Hr (fuel `max` S d) ltac:(lia)).
    rewrite (resolve_mono fuel _ m dup st _ Hres) in Hr by lia.
    injection Hr as ->. split; [done|]. left. by eauto 10.
  - destruct fuel as [|fuel]; [done|]. destruct (restricted m) eqn:Hm.
    + rewrite resolve_restricted in Hres by done.
      destruct (decide (series st ∈ dup)); [done|]. injection Hres as <-.
      split; [done|]. by right.
    + rewrite resolve_unrestricted in Hres by done.
      destruct (decide (series st ∈ dup)); [done|]. injection Hres as <-.
      split; [done|]. by right.
Qed.

(** ** Classification (lines 138-159) *)

Section Classify.
Context {value fieldval : Type} `{!PyValue value fieldval}.
Implicit Types (pt : RawPoint value) (items : list (string * value)).

Lemma last_raw_Some m k items v :
  last_raw m k items = Some v →
  ∃ pt_k, (pt_k, v) ∈ items ∧ counted pt_k v = true ∧ normalize_key m pt_k = k.
Proof.
  induction items as [|[pt_k w] items IH]; simpl; [done|].
  destruct (last_raw m k items) as [v'|].
  - intros [= ->]. destruct IH as (pt_k' & ? & ?); [done|].
    exists pt_k'. split; [by right|done].
  - destruct (counted pt_k w) eqn:Hc; simpl; [|done].
    case_bool_decide; [|done]. intros [= ->].
    exists pt_k. split; [by left|done].
Qed.

Lemma last_raw_None m k items pt_k v :
  last_raw m k items = None → (pt_k, v) ∈ items →
  counted pt_k v = true → normalize_key m pt_k ≠ k.
Proof.
  induction items as [|[pt_k' w] items IH]; simpl; [by intros _ ?%elem_of_nil|].
  destruct (last_raw m k items) as [v'|]; [done|].
  destruct (counted pt_k' w && bool_decide (normalize_key m pt_k' = k)) eqn:Hc;
    [done|].
  intros _ [[= -> ->]|Hin]%elem_of_cons Hcount; [|by apply IH].
  rewrite Hcount in Hc. simpl in Hc. by apply bool_decide_eq_false in Hc.
Qed.

Lemma last_raw_is_Some m items pt_k v :
  (pt_k, v) ∈ items → counted pt_k v = true →
  is_Some (last_raw m (normalize_key m pt_k) items).
Proof.
  intros Hin Hc.
  destruct (last_raw m (normalize_key m pt_k) items) eqn:Hl; [by eauto|].
  by destruct (last_raw_None _ _ _ _ _ Hl Hin Hc).
Qed.

(** The maps built by a classification that reaches the end of the point. *)
Lemma classify_inr m tks items tags0 fields0 tags1 fields1 k :
  classify m tks items tags0 fields0 = inr (tags1, fields1) →
  match last_raw m k items with
  | None => tags1 !! k = tags0 !! k ∧ fields1 !! k = fields0 !! k
  | Some v =>
      if bool_decide (k ∈ tks)
      then tags1 !! k = Some (py_str v) ∧ fields1 !! k = fields0 !! k
      else tags1 !! k = tags0 !! k
           ∧ ∃ fks ty x, dict_get m field_keys = Some fks
               ∧ dict_get k fks = Some ty ∧ coerce ty v = Some x
               ∧ fields1 !! k = Some x
  end.
Proof.
  revert tags0 fields0.
  induction items as [|[pt_k v] items IH]; intros tags0 fields0; simpl.
  { by intros [= -> ->]. }
  unfold counted.
  destruct (bool_decide (pt_k = "time")) eqn:Ht; simpl.
  { intros Hc. specialize (IH _ _ Hc). by destruct (last_raw m k items). }
  destruct (is_None v) eqn:Hn; simpl.
  { intros Hc. specialize (IH _ _ Hc). by destruct (last_raw m k items). }
  destruct (bool_decide (normalize_key m pt_k ∈ tks)) eqn:Htag.
  - intros Hc. specialize (IH _ _ Hc).
    destruct (decide (normalize_key m pt_k = k)) as [<-|Hne].
    + rewrite bool_decide_eq_true_2 by done. rewrite Htag in *.
      rewrite lookup_insert_eq in IH.
      by destruct (last_raw m (normalize_key m pt_k) items).
    + rewrite (bool_decide_eq_false_2 (normalize_key m pt_k = k)) by done.
      rewrite lookup_insert_ne in IH by done.
      by destruct (last_raw m k items).
  - destruct (dict_get m field_keys) as [fks|] eqn:Hfks; [|done].
    destruct (dict_get (normalize_key m pt_k) fks) as [ty|] eqn:Hty; [|done].
    destruct (coerce ty v) as [x|] eqn:Hx; [|done].
    intros Hc. specialize (IH _ _ Hc).
    destruct (decide (normalize_key m pt_k = k)) as [<-|Hne].
    + rewrite bool_decide_eq_true_2 by done. rewrite Htag in *.
      destruct (last_raw m (normalize_key m pt_k) items); [done|].
      rewrite lookup_insert_eq in IH. destruct IH as [-> ->].
      split; [done|]. by exists fks, ty, x.
    + rewrite (bool_decide_eq_false_2 (normalize_key m pt_k = k)) by done.
      rewrite lookup_insert_ne in IH by done.
      by destruct (last_raw m k items).
Qed.

(** Why a classification stops early. *)
Lemma classify_inl m tks items tags0 fields0 e :
  classify m tks items tags0 fields0 = inl e →
  ∃ pt_k v, (pt_k, v) ∈ items ∧ counted pt_k v = true
    ∧ (normalize_key m pt_k ∉ tks)
    ∧ match dict_get m field_keys with
      | None => e = UnknownMeasurement m
      | Some fks =>
          match dict_get (normalize_key m pt_k) fks with
          | None => e = UnclassifiableKey (normalize_key m pt_k)
          | Some ty => coerce ty v = None
                       ∧ e = TypeCoercionFailure (normalize_key m pt_k)
          end
      end.
Proof.
  revert tags0 fields0.
  induction items as [|[pt_k v] items IH]; intros tags0 fields0; simpl; [done|].
  assert (∀ t f, classify m tks items t f = inl e →
    ∃ pt_k0 v0, (pt_k0, v0) ∈ (pt_k, v) :: items ∧ counted pt_k0 v0 = true
      ∧ (normalize_key m pt_k0 ∉ tks)
      ∧ match dict_get m field_keys with
        | None => e = UnknownMeasurement m
        | Some fks =>
            match dict_get (normalize_key m pt_k0) fks with
            | None => e = UnclassifiableKey (normalize_key m pt_k0)
            | Some ty => coerce ty v0 = None
                         ∧ e = TypeCoercionFailure (normalize_key m pt_k0)
            end
        end) as Hrec.
  { intros t f (pt_k0 & v0 & ? & ?)%IH. exists pt_k0, v0. split; [by right|done]. }
  destruct (bool_decide (pt_k = "time")) eqn:Ht; [by apply Hrec|].
  destruct (is_None v) eqn:Hn; [by apply Hrec|].
  destruct (bool_decide (normalize_key m pt_k ∈ tks)) eqn:Htag; [by apply Hrec|].
  apply bool_decide_eq_false in Htag.
  assert (counted pt_k v = true) as Hc by (unfold counted; by rewrite Ht, Hn).
  destruct (dict_get m field_keys) as [fks|] eqn:Hfks.
  2:{ intros [= <-]. exists pt_k, v. split_and!; [by left|done..]. }
  destruct (dict_get (normalize_key m pt_k) fks) as [ty|] eqn:Hty.
  2:{ intros [= <-]. exists pt_k, v. rewrite Hty. split_and!; [by left|done..]. }
  destruct (coerce ty v) as [x|] eqn:Hx.
  { intros He. destruct (Hrec _ _ He) as (pt_k0 & v0 & ? & ? & ? & Hm).
    exists pt_k0, v0. done. }
  intros [= <-]. exists pt_k, v. rewrite Hty. split_and!; [by left|done..].
Qed.

(** A counted entry whose normalised key is in neither table stops the
    classification. *)
Lemma classify_unclassifiable m tks items tags0 fields0 pt_k v fks :
  (pt_k, v) ∈ items → counted pt_k v = true →
  normalize_key m pt_k ∉ tks →
  dict_get m field_keys = Some fks →
  dict_get (normalize_key m pt_k) fks = None →
  ∃ e, classify m tks items tags0 fields0 = inl e.
Proof.
  intros Hin Hc Htag Hfks Hfld.
  destruct (classify m tks items tags0 fields0) as [e|[tags1 fields1]] eqn:Hcl;
    [by eauto|].
  exfalso.
  pose proof (classify_inr _ _ _ _ _ _ _ (normalize_key m pt_k) Hcl) as Hk.
  destruct (last_raw_is_Some m items pt_k v Hin Hc) as [v' Hv'].
  rewrite Hv', bool_decide_eq_false_2 in Hk by done.
  destruct Hk as (_ & fks' & ty & x & ? & ? & _). congruence.
Qed.

End Classify.

(** ** One point, and the loop over the points *)

Section Run.
Context {value fieldval : Type} `{!PyValue value fieldval}.
Implicit Types (pt : RawPoint value) (pts : list (RawPoint value)).
Implicit Types (st : dedup_state) (dup : gset (list cell)).
Implicit Types (p : ReclassifiedPoint fieldval).

Lemma convert_point_inr m pt dup p dup' :
  convert_point m pt dup = inr (p, dup') →
  ∃ tks st st',
    dict_get m tag_keys = Some tks
    ∧ candidate m pt tks = inr st
    ∧ resolve (S (size dup)) m dup st = Some (inr st')
    ∧ dup' = {[series st']} ∪ dup
    ∧ classify m tks (pt_items pt) (initial_tags st') ∅ = inr (tags p, fields p)
    ∧ time p = series_time (series st')
    ∧ measurement p = m.
Proof.
  unfold convert_point, candidate. intros Hp.
  destruct (dict_get m tag_keys) as [tks|] eqn:Htks; [|done].
  destruct (build_series _ _ _ _) as [e|st] eqn:Hb; [done|].
  destruct (resolve _ _ _ _) as [[e|st']|] eqn:Hr; [done| |done].
  destruct (classify _ _ _ _ _) as [e|[tags1 fields1]] eqn:Hcl; [done|].
  injection Hp as <- <-. by exists tks, st, st'.
Qed.

Lemma convert_point_candidate_inl m pt dup tks e :
  dict_get m tag_keys = Some tks → candidate m pt tks = inl e →
  convert_point m pt dup = inl e.
Proof. unfold convert_point, candidate. by intros -> ->. Qed.

Lemma convert_point_resolved m pt dup tks st :
  dict_get m tag_keys = Some tks → candidate m pt tks = inr st →
  ∃ r, resolve (S (size dup)) m dup st = Some r
    ∧ convert_point m pt dup
      = match r with
        | inl e => inl e
        | inr st' =>
            match classify m tks (pt_items pt) (initial_tags st') ∅ with
            | inl e => inl e
            | inr (tags1, fields1) =>
                inr (mkPoint m (series_time (series st')) tags1 fields1,
                     {[series st']} ∪ dup)
            end
        end.
Proof.
  intros Htks Hc.
  destruct (resolve_terminates m dup st (candidate_wf _ _ _ _ Hc))
    as (d & r & Hd & Hr).
  exists r. rewrite Hr by lia. split; [done|].
  unfold convert_point. unfold candidate in Hc. rewrite Htks, Hc, Hr by lia.
  by destruct r.
Qed.

Lemma convert_point_no_exhaustion m pt dup :
  convert_point m pt dup ≠ inl LoopFuelExhausted.
Proof.
  destruct (dict_get m tag_keys) as [tks|] eqn:Htks.
  2:{ unfold convert_point. by rewrite Htks. }
  destruct (candidate m pt tks) as [e|st] eqn:Hc.
  - rewrite (convert_point_candidate_inl _ _ _ _ _ Htks Hc).
    unfold candidate in Hc.
    by destruct (build_series_inl _ _ _ _ _ Hc) as (k & -> & _).
  - destruct (convert_point_resolved m pt dup tks st Htks Hc) as (r & Hr & ->).
    destruct r as [e|st'].
    + destruct (fake st) as [[f idx]|] eqn:Hfake.
      * destruct (resolve_fake m dup st f idx (candidate_wf _ _ _ _ Hc) Hfake)
          as (d & Hd & Hr' & _).
        rewrite Hr' in Hr by lia. done.
      * simpl in Hr. rewrite Hfake in Hr.
        destruct (decide _); [|done].
        destruct (restricted m); by injection Hr as <-.
    + destruct (classify _ _ _ _ _) as [e|[??]] eqn:Hcl; [|done].
      destruct (classify_inl _ _ _ _ _ _ Hcl) as (pt_k & v & _ & _ & _ & He).
      destruct (dict_get m field_keys) as [fks|]; [|by subst].
      destruct (dict_get _ fks); [by destruct He as [_ ->]|by subst].
Qed.

Lemma convert_loop_app m pts1 pts2 (cs : conv_state) :
  convert_loop m (pts1 ++ pts2) cs
  = match convert_loop m pts1 cs with
    | (cs', None) => convert_loop m pts2 cs'
    | r => r
    end.
Proof.
  revert cs. induction pts1 as [|pt pts1 IH]; intros cs; simpl; [done|].
  destruct (convert_point m pt (dup_check cs)) as [e|[p dup']]; [done|].
  apply IH.
Qed.

Lemma convert_loop_no_exhaustion m pts (cs : conv_state) :
  snd (convert_loop m pts cs) ≠ Some LoopFuelExhausted.
Proof.
  revert cs. induction pts as [|pt pts IH]; intros cs; simpl; [done|].
  destruct (convert_point m pt (dup_check cs)) as [e|[p dup']] eqn:Hp; [|apply IH].
  simpl. intros [= ->]. by apply convert_point_no_exhaustion in Hp.
Qed.

(** A point on which the body always fails makes the run fail. *)
Lemma convert_loop_abort m pts1 pt pts2 (cs : conv_state) :
  (∀ dup, ∃ e, convert_point m pt dup = inl e) →
  is_Some (snd (convert_loop m (pts1 ++ pt :: pts2) cs)).
Proof.
  intros Hfail. rewrite convert_loop_app.
  destruct (convert_loop m pts1 cs) as [cs' [e|]]; simpl; [by eauto|].
  destruct (Hfail (dup_check cs')) as [e ->]. by eauto.
Qed.

Lemma convert_measurement_snd m pts :
  snd (convert_measurement m pts) = snd (convert_loop m pts (mkConv [] ∅ [])).
Proof.
  unfold convert_measurement.
  destruct (convert_loop _ _ _) as [cs [e|]]; [done|]. by case_bool_decide.
Qed.

Lemma convert_measurement_abort m pts1 pt pts2 :
  (∀ dup, ∃ e, convert_point m pt dup = inl e) →
  is_Some (snd (convert_measurement m (pts1 ++ pt :: pts2))).
Proof. rewrite convert_measurement_snd. apply convert_loop_abort. Qed.

Lemma resolve_inl fuel m dup st e :
  resolve fuel m dup st = Some (inl e) →
  e = if restricted m then UnresolvableCollision m else InvalidTimedeltaUnit.
Proof.
  revert st. induction fuel as [|fuel IH]; intros st; simpl; [done|].
  destruct (decide _); [|done]. destruct (fake st) as [[f idx]|]; [by apply IH|].
  destruct (restricted m); by intros [= <-].
Qed.

(** The tags set before the classification loop: only a synthetic
    [server_id], and only when [server_id] is a declared tag key absent
    from the point. *)
Lemma initial_tags_lookup m pt tks st fuel dup st' k s :
  candidate m pt tks = inr st →
  resolve fuel m dup st = Some (inr st') →
  initial_tags st' !! k = Some s →
  k = "server_id" ∧ "server_id" ∈ tks
  ∧ dict_get "server_id" (pt_items pt) = None
  ∧ ∃ f idx, fake st' = Some (f, idx) ∧ s = pretty f.
Proof.
  intros Hc Hr. pose proof (candidate_wf _ _ _ _ Hc) as Hwf.
  destruct (candidate_inr _ _ _ _ Hc) as (_ & _ & Hfk).
  unfold initial_tags.
  destruct (resolve_inr _ _ _ _ _ Hwf Hr)
    as [_ [(f & idx & d & Hfake & -> & _)|(Hfake & ->)]];
    simpl; [|by rewrite Hfake].
  rewrite Hfake in Hfk. destruct Hfk as (_ & _ & Hget & j & _ & Hj).
  intros [<- <-]%lookup_singleton_Some.
  split_and!; [done|by eapply list_elem_of_lookup_2|done|by eauto].
Qed.

End Run.

Lemma normalize_key_inv m pt_k k :
  normalize_key m pt_k = k →
  pt_k = k ∨ (m ≠ "server_info" ∧ pt_k = k +:+ "_1").
Proof.
  unfold normalize_key. case_bool_decide as Hm; [|by left].
  case_bool_decide as Hl; [|by left].
  intros <-. right. split; [done|]. by apply last2_inv.
Qed.

Lemma dict_get_None {A} k (d : list (string * A)) v :
  dict_get k d = None → (k, v) ∉ d.
Proof.
  induction d as [|[k' a] d IH]; unfold dict_get; fold (@dict_get A).
  - intros _ ?%elem_of_nil. done.
  - destruct (decide (k = k')) as [->|Hne]; [done|].
    intros Hn [[= ??]|Hin]%elem_of_cons; [done|]. by apply IH.
Qed.

Lemma dict_get_Some {A} k (d : list (string * A)) v :
  dict_get k d = Some v → (k, v) ∈ d.
Proof.
  induction d as [|[k' a] d IH]; unfold dict_get; fold (@dict_get A); [done|].
  destruct (decide (k = k')) as [->|Hne].
  - intros [= ->]. by left.
  - intros ?%IH. by right.
Qed.

Lemma series_time_fake_key t r idx g :
  0 < idx → series_time (fake_key (CTime t :: r) idx g) = t.
Proof. intros Hidx. destruct idx; [lia|done]. Qed.

Section Synthetic.
Context {value fieldval : Type} `{!PyValue value fieldval}.
Implicit Types (pt : RawPoint value).

(** No counted entry is classified under [k] when neither [k] nor [k_1]
    is a key of the point. *)
Lemma last_raw_absent m k pt :
  dict_get k (pt_items pt) = None →
  dict_get (k +:+ "_1") (pt_items pt) = None →
  last_raw m k (pt_items pt) = None.
Proof.
  intros H0 H1. destruct (last_raw m k (pt_items pt)) as [v|] eqn:Hl; [|done].
  destruct (last_raw_Some _ _ _ _ Hl) as (pt_k & Hin & _ & Hn).
  destruct (normalize_key_inv _ _ _ Hn) as [->|[_ ->]].
  - by destruct (dict_get_None _ _ v H0).
  - by destruct (dict_get_None _ _ v H1).
Qed.


End Synthetic.

(** ** Properties of the conversion *)

Section Claims.
Context {value fieldval : Type} `{!PyValue value fieldval}.
Implicit Types (pt : RawPoint value) (pts : list (RawPoint value)).
Implicit Types (st : dedup_state) (dup : gset (list cell)).
Implicit Types (p : ReclassifiedPoint fieldval).

(** C2. A declared tag key that is absent from a raw point makes the
    conversion fail with [MissingDeclaredTag], at that point and hence for
    the whole run, unless the key is [server_id] and the measurement is
    [client_buffer], [video_sent] or [video_acked]; when every absent
    declared key is of that permitted kind, the candidate dedup key is the
    timestamp followed by one slot per declared tag key, and the slot of an
    absent key holds the synthetic value ["1"], which is recorded as the
    synthetic slot. *)
Theorem missing_declared_tag_policy m tks pt :
  dict_get m tag_keys = Some tks →
  ((∃ k, k ∈ tks ∧ dict_get k (pt_items pt) = None
         ∧ ¬ (k = "server_id"
              ∧ m ∈ ["client_buffer"; "video_sent"; "video_acked"])) →
     ∃ k', k' ∈ tks ∧ dict_get k' (pt_items pt) = None
       ∧ ¬ (k' = "server_id"
            ∧ m ∈ ["client_buffer"; "video_sent"; "video_acked"])
       ∧ (∀ dup, convert_point m pt dup = inl (MissingDeclaredTag k'))
       ∧ ∀ pts1 pts2,
           is_Some (snd (convert_measurement m (pts1 ++ pt :: pts2))))
  ∧ ((∀ k, k ∈ tks → dict_get k (pt_items pt) = None →
           k = "server_id"
           ∧ m ∈ ["client_buffer"; "video_sent"; "video_acked"]) →
     ∃ st, candidate m pt tks = inr st
       ∧ series st = CTime (pt_time pt) :: map (tag_cell pt) tks
       ∧ ∀ i k, tks !! i = Some k → dict_get k (pt_items pt) = None →
           series st !! S i = Some (CStr "1")
           ∧ ∃ j, fake st = Some (1%Z, S j) ∧ tks !! j = Some k).
Proof.
  intros Htks. split.
  - intros (k & Hk & Hget & Hperm).
    assert (missing_is_fatal m k = true) as Hf.
    { destruct (missing_is_fatal m k) eqn:Hf; [done|].
      apply missing_is_fatal_false in Hf as [-> Hm].
      apply restricted_true in Hm. by destruct Hperm. }
    destruct (build_series_err m pt tks (mkDedup [CTime (pt_time pt)] None) k)
      as (k' & Hb & Hk' & Hget' & Hf'); [done..|].
    exists k'. split_and!; [done..| | |].
    + intros [-> Hm%restricted_true].
      assert (missing_is_fatal m "server_id" = false) as Hno
        by by apply missing_is_fatal_false.
      congruence.
    + intros dup. by apply (convert_point_candidate_inl m pt dup tks).
    + intros pts1 pts2. apply convert_measurement_abort. intros dup.
      exists (MissingDeclaredTag k').
      by apply (convert_point_candidate_inl m pt dup tks).
  - intros Hperm.
    destruct (candidate m pt tks) as [e|st] eqn:Hc.
    { unfold candidate in Hc.
      destruct (build_series_inl _ _ _ _ _ Hc) as (k & _ & Hk & Hget & Hf).
      destruct (Hperm k Hk Hget) as [-> Hm%restricted_true].
      assert (missing_is_fatal m "server_id" = false) as Hno
        by by apply missing_is_fatal_false.
      congruence. }
    exists st. destruct (candidate_inr _ _ _ _ Hc) as (Hs & _ & Hfake).
    split_and!; [done..|]. intros i k Hi Hget. split.
    + rewrite Hs. simpl. rewrite list_lookup_fmap, Hi. simpl.
      unfold tag_cell. by rewrite Hget.
    + destruct (fake st) as [[f idx]|].
      * destruct Hfake as (-> & _ & _ & j & -> & Hj).
        destruct (Hperm k (list_elem_of_lookup_2 _ _ _ Hi) Hget) as [-> _].
        by exists j.
      * destruct (Hfake k (list_elem_of_lookup_2 _ _ _ Hi)) as [v Hv]. congruence.
Qed.

(** C6. For every measurement other than [server_info], a raw key whose
    last two characters are ["_1"] is normalised to the key without that
    suffix, and any other raw key to itself; for [server_info] every raw key
    is normalised to itself.  The classification loop looks at a raw key
    other than [time] only through its normalised form: two entries with the
    same value whose keys normalise alike are classified alike.  So [cwnd_1]
    becomes [cwnd] under [video_sent] and [server_id_1] stays [server_id_1]
    under [server_info]. *)
Theorem suffix_stripping m pt_k :
  (m ≠ "server_info" → last2 pt_k = "_1" →
     pt_k = normalize_key m pt_k +:+ "_1"
     ∧ ∀ k, normalize_key m (k +:+ "_1") = k)
  ∧ (m ≠ "server_info" → last2 pt_k ≠ "_1" → normalize_key m pt_k = pt_k)
  ∧ (m = "server_info" → normalize_key m pt_k = pt_k)
  ∧ (∀ pt_k' tks (v : value) items tags0 fields0,
       pt_k ≠ "time" → pt_k' ≠ "time" →
       normalize_key m pt_k = normalize_key m pt_k' →
       classify m tks ((pt_k, v) :: items) tags0 fields0
       = classify m tks ((pt_k', v) :: items) tags0 fields0)
  ∧ normalize_key "video_sent" "cwnd_1" = "cwnd"
  ∧ normalize_key "server_info" "server_id_1" = "server_id_1".
Proof.
  split_and!; [| | | |done..].
  - intros Hm Hl. split; [|intros k; by apply normalize_key_strip].
    unfold normalize_key. rewrite !bool_decide_eq_true_2 by done.
    by apply last2_inv.
  - intros _. apply normalize_key_keep.
  - by intros ->.
  - intros pt_k' tks v items tags0 fields0 Ht Ht' Hn. simpl.
    rewrite (bool_decide_eq_false_2 (pt_k = "time")),
      (bool_decide_eq_false_2 (pt_k' = "time")) by done.
    by rewrite Hn.
Qed.

(** C9. The collision loop, for every candidate key built from a raw
    point and every finite set of keys seen so far.  A key that is not
    seen leaves the loop at once.  With a synthetic slot, incrementing
    reaches a key that is not seen: the loop leaves with the least
    synthetic value whose key is unseen, after as many retries as there are
    smaller values, at most as many as there are seen keys.  Without a
    synthetic slot a seen key is never replaced by an unseen one: the first
    retry ends the run, with [UnresolvableCollision] for the restricted
    measurements and with the [TypeError] of line 129 for the others.  The
    fuel used by [convert_point] is always enough: neither a point nor a
    run ends in [LoopFuelExhausted]. *)
Theorem collision_loop_terminates m tks pt st dup :
  candidate m pt tks = inr st →
  (series st ∉ dup →
   ∀ fuel, 0 < fuel → resolve fuel m dup st = Some (inr st))
  ∧ (∀ f idx, fake st = Some (f, idx) →
       ∃ d, d ≤ size dup
         ∧ (∀ j, j < d → fake_key (series st) idx (f + Z.of_nat j) ∈ dup)
         ∧ (fake_key (series st) idx (f + Z.of_nat d) ∉ dup)
         ∧ ∀ fuel, d < fuel →
             resolve fuel m dup st
             = Some (inr (mkDedup (fake_key (series st) idx (f + Z.of_nat d))
                                  (Some ((f + Z.of_nat d)%Z, idx)))))
  ∧ (fake st = None → series st ∈ dup →
     ∀ fuel, 0 < fuel →
       resolve fuel m dup st
       = Some (inl (if restricted m then UnresolvableCollision m
                    else InvalidTimedeltaUnit)))
  ∧ (∀ pt' dup', convert_point m pt' dup' ≠ inl LoopFuelExhausted)
  ∧ ∀ pts, snd (convert_measurement m pts) ≠ Some LoopFuelExhausted.
Proof.
  intros Hc. pose proof (candidate_wf _ _ _ _ Hc) as Hwf. split_and!.
  - intros Hout [|fuel] Hfuel; [lia|]. by apply resolve_fresh.
  - intros f idx Hfake.
    destruct (resolve_fake m dup st f idx Hwf Hfake)
      as (d & Hd & Hr & Hfresh & Hbelow).
    exists d. by split_and!.
  - intros Hfake Hin [|fuel] Hfuel; [lia|]. destruct (restricted m) eqn:Hm.
    + rewrite resolve_restricted by done. by rewrite decide_True.
    + rewrite resolve_unrestricted by done. by rewrite decide_True.
  - intros pt' dup'. apply convert_point_no_exhaustion.
  - intros pts. rewrite convert_measurement_snd. apply convert_loop_no_exhaustion.
Qed.


(** C4. For [client_buffer], [video_sent] and [video_acked], a point with
    every declared tag key present whose candidate key is already in the
    seen set stops the conversion with [UnresolvableCollision]: the point
    fails and the run ends there, keeping its state.  For these
    measurements no emitted point has a shifted timestamp. *)
Theorem restricted_collision_is_fatal m tks pt dup :
  m ∈ ["client_buffer"; "video_sent"; "video_acked"] →
  dict_get m tag_keys = Some tks →
  ((∀ k, k ∈ tks → is_Some (dict_get k (pt_items pt))) →
   CTime (pt_time pt) :: map (tag_cell pt) tks ∈ dup →
   convert_point m pt dup = inl (UnresolvableCollision m)
   ∧ ∀ pts (cs : conv_state), dup_check cs = dup →
       convert_loop m (pt :: pts) cs = (cs, Some (UnresolvableCollision m)))
  ∧ ∀ p dup', convert_point m pt dup = inr (p, dup') → time p = pt_time pt.
Proof.
  intros Hm%restricted_true Htks. split.
  - intros Hall Hin.
    assert (convert_point m pt dup = inl (UnresolvableCollision m)) as Hp.
    { destruct (candidate m pt tks) as [e|st] eqn:Hc.
      { unfold candidate in Hc.
        destruct (build_series_inl _ _ _ _ _ Hc) as (k & _ & Hk & Hget & _).
        destruct (Hall k Hk) as [v Hv]. congruence. }
      destruct (candidate_inr _ _ _ _ Hc) as (Hs & _ & Hfk).
      destruct (fake st) as [[f idx]|] eqn:Hfake.
      { destruct Hfk as (_ & _ & Hget & j & _ & Hj).
        destruct (Hall "server_id" (list_elem_of_lookup_2 _ _ _ Hj)) as [v Hv].
        congruence. }
      destruct (convert_point_resolved m pt dup tks st Htks Hc) as (r & Hr & ->).
      rewrite resolve_restricted in Hr by done.
      rewrite decide_True in Hr by by rewrite Hs. by injection Hr as <-. }
    split; [done|]. intros pts cs <-. simpl. by rewrite Hp.
  - intros p dup' Hp.
    apply convert_point_inr in Hp
      as (tks' & st & st' & Htks' & Hc & Hr & _ & _ & -> & _).
    pose proof (candidate_wf _ _ _ _ Hc) as Hwf.
    destruct (candidate_inr _ _ _ _ Hc) as (Hs & _).
    destruct (resolve_inr _ _ _ _ _ Hwf Hr)
      as [_ [(f & idx & d & Hfake & -> & _)|(_ & ->)]].
    + destruct Hwf as [_ Hwf]. rewrite Hfake in Hwf. simpl. rewrite Hs.
      apply series_time_fake_key. lia.
    + by rewrite Hs.
Qed.

(** C5. Outside [client_buffer], [video_sent] and [video_acked] a candidate
    key never has a synthetic slot, and a collision is not resolved: line
    129 raises [TypeError] before the timestamp is touched, so the point
    fails and the run ends there, keeping its state.  A point is converted
    only when its key was not seen, and it keeps its raw timestamp. *)
Theorem timestamp_shift_raises m tks pt st dup :
  m ∉ ["client_buffer"; "video_sent"; "video_acked"] →
  dict_get m tag_keys = Some tks →
  candidate m pt tks = inr st →
  fake st = None
  ∧ series st = CTime (pt_time pt) :: map (tag_cell pt) tks
  ∧ (series st ∈ dup →
     convert_point m pt dup = inl InvalidTimedeltaUnit
     ∧ ∀ pts (cs : conv_state), dup_check cs = dup →
         convert_loop m (pt :: pts) cs = (cs, Some InvalidTimedeltaUnit))
  ∧ ∀ p dup', convert_point m pt dup = inr (p, dup') →
      (series st ∉ dup) ∧ time p = pt_time pt ∧ dup' = {[series st]} ∪ dup.
Proof.
  intros Hm Htks Hc.
  assert (restricted m = false) as Hr.
  { destruct (restricted m) eqn:Hr; [|done]. by apply restricted_true in Hr. }
  destruct (candidate_inr _ _ _ _ Hc) as (Hs & _ & Hfk).
  assert (fake st = None) as Hfake.
  { destruct (fake st) as [[f idx]|]; [|done].
    destruct Hfk as (_ & ? & _). congruence. }
  split_and!; [done..| |].
  - intros Hin.
    assert (convert_point m pt dup = inl InvalidTimedeltaUnit) as Hp.
    { destruct (convert_point_resolved m pt dup tks st Htks Hc) as (r & Hres & ->).
      rewrite resolve_unrestricted in Hres by done.
      rewrite decide_True in Hres by done. by injection Hres as <-. }
    split; [done|]. intros pts cs <-. simpl. by rewrite Hp.
  - intros p dup'. destruct (convert_point_resolved m pt dup tks st Htks Hc)
      as (r & Hres & ->).
    rewrite resolve_unrestricted in Hres by done.
    destruct (decide (series st ∈ dup)) as [Hin|Hout]; injection Hres as <-;
      [done|].
    destruct (classify _ _ _ _ _) as [e'|[??]]; [done|].
    intros [= <- <-]. split_and!; [done| |done]. simpl. by rewrite Hs.
Qed.

(** C8, as the code has it.  When a point is converted, every entry other
    than [time] with a non-null value has its normalised key in exactly one
    of the emitted [tags] and [fields], and what is stored there is the
    value of the last entry with a non-null value and that normalised key:
    its string form under a declared tag key, the declared type applied to
    it under a declared field key.  Every key of [tags] or [fields] comes
    from an entry with a non-null value or is the synthetic [server_id].
    An entry whose normalised key is neither a declared tag key nor a
    declared field key makes the point, and the run, fail; and a failure
    with [UnclassifiableKey k] is caused by such an entry. *)
Theorem classification_complete m pt dup :
  (∀ p dup', convert_point m pt dup = inr (p, dup') →
     (∀ pt_k v, (pt_k, v) ∈ pt_items pt → pt_k ≠ "time" → is_None v = false →
        ∃ pt_k' v',
          last_raw m (normalize_key m pt_k) (pt_items pt) = Some v'
          ∧ (pt_k', v') ∈ pt_items pt ∧ pt_k' ≠ "time" ∧ is_None v' = false
          ∧ normalize_key m pt_k' = normalize_key m pt_k
          ∧ ((tags p !! normalize_key m pt_k = Some (py_str v')
              ∧ fields p !! normalize_key m pt_k = None)
             ∨ (tags p !! normalize_key m pt_k = None
                ∧ ∃ fks ty x,
                    dict_get m field_keys = Some fks
                    ∧ dict_get (normalize_key m pt_k) fks = Some ty
                    ∧ coerce ty v' = Some x
                    ∧ fields p !! normalize_key m pt_k = Some x)))
     ∧ ∀ k, is_Some (tags p !! k) ∨ is_Some (fields p !! k) →
         (∃ pt_k v, (pt_k, v) ∈ pt_items pt ∧ pt_k ≠ "time"
                    ∧ is_None v = false ∧ normalize_key m pt_k = k)
         ∨ (k = "server_id" ∧ dict_get "server_id" (pt_items pt) = None))
  ∧ (∀ pt_k v tks fks,
       (pt_k, v) ∈ pt_items pt → pt_k ≠ "time" → is_None v = false →
       dict_get m tag_keys = Some tks → dict_get m field_keys = Some fks →
       normalize_key m pt_k ∉ tks →
       dict_get (normalize_key m pt_k) fks = None →
       (∃ e, convert_point m pt dup = inl e)
       ∧ ∀ pts1 pts2,
           is_Some (snd (convert_measurement m (pts1 ++ pt :: pts2))))
  ∧ ∀ k, convert_point m pt dup = inl (UnclassifiableKey k) →
      ∃ pt_k v tks fks,
        (pt_k, v) ∈ pt_items pt ∧ pt_k ≠ "time" ∧ is_None v = false
        ∧ normalize_key m pt_k = k
        ∧ dict_get m tag_keys = Some tks ∧ dict_get m field_keys = Some fks
        ∧ (k ∉ tks) ∧ dict_get k fks = None.
Proof.
  assert (∀ pt_k v, pt_k ≠ "time" → is_None v = false → counted pt_k v = true)
    as Hcounted.
  { intros pt_k v Ht Hn. unfold counted.
    by rewrite Hn, bool_decide_eq_false_2. }
  assert (∀ pt_k v, counted pt_k v = true → pt_k ≠ "time" ∧ is_None v = false)
    as Hcounted'.
  { intros pt_k v [Ht Hn]%andb_true_iff.
    apply negb_true_iff in Ht, Hn. by apply bool_decide_eq_false in Ht. }
  assert (∀ pt_k v tks fks,
       (pt_k, v) ∈ pt_items pt → pt_k ≠ "time" → is_None v = false →
       dict_get m tag_keys = Some tks → dict_get m field_keys = Some fks →
       normalize_key m pt_k ∉ tks →
       dict_get (normalize_key m pt_k) fks = None →
       ∀ dup0, ∃ e, convert_point m pt dup0 = inl e) as Hfail.
  { intros pt_k v tks fks Hin Ht Hn Htks Hfks Htag Hfld dup0.
    destruct (convert_point m pt dup0) as [e|[p dup']] eqn:Hp; [by eauto|].
    apply convert_point_inr in Hp
      as (tks' & st & st' & Htks' & _ & _ & _ & Hcl & _).
    assert (tks' = tks) as -> by congruence.
    destruct (classify_unclassifiable m tks (pt_items pt) (initial_tags st') ∅
                pt_k v fks) as [e He]; auto.
    congruence. }
  split_and!.
  - intros p dup' Hp.
    apply convert_point_inr in Hp
      as (tks & st & st' & Htks & Hc & Hr & _ & Hcl & _).
    split.
    + intros pt_k v Hin Ht Hn.
      pose proof (classify_inr _ _ _ _ _ _ _ (normalize_key m pt_k) Hcl) as Hk.
      destruct (last_raw_is_Some m (pt_items pt) pt_k v Hin (Hcounted _ _ Ht Hn))
        as [v' Hv'].
      rewrite Hv' in Hk.
      destruct (last_raw_Some _ _ _ _ Hv') as (pt_k' & Hin' & Hcnt' & Hn').
      destruct (Hcounted' _ _ Hcnt') as [Ht' Hnull'].
      exists pt_k', v'. split_and!; [done..|].
      case_bool_decide as Htag.
      * destruct Hk as [-> ->]. left. by rewrite lookup_empty.
      * destruct Hk as (-> & fks & ty & x & ? & ? & ? & ->). right.
        split; [|by exists fks, ty, x].
        destruct (initial_tags st' !! normalize_key m pt_k) as [s|] eqn:Hs;
          [|done].
        destruct (initial_tags_lookup _ _ _ _ _ _ _ _ _ Hc Hr Hs) as (Hk & ? & _).
        by rewrite Hk in Htag.
    + intros k Hsome.
      pose proof (classify_inr _ _ _ _ _ _ _ k Hcl) as Hk.
      destruct (last_raw m k (pt_items pt)) as [v|] eqn:Hl.
      * left. destruct (last_raw_Some _ _ _ _ Hl) as (pt_k & Hin & Hcnt & Hn).
        destruct (Hcounted' _ _ Hcnt). by exists pt_k, v.
      * right. destruct Hk as [Ht Hf]. rewrite Ht, Hf, lookup_empty in Hsome.
        destruct Hsome as [[s Hs]|[? ?]]; [|done].
        by destruct (initial_tags_lookup _ _ _ _ _ _ _ _ _ Hc Hr Hs) as (? & _ & ? & _).
  - intros pt_k v tks fks Hin Ht Hn Htks Hfks Htag Hfld. split.
    + by eapply Hfail.
    + intros pts1 pts2. apply convert_measurement_abort. by eapply Hfail.
  - intros k Hp. unfold convert_point in Hp.
    destruct (dict_get m tag_keys) as [tks|] eqn:Htks; [|done].
    destruct (build_series _ _ _ _) as [e|st] eqn:Hb.
    { by destruct (build_series_inl _ _ _ _ _ Hb) as (? & -> & _). }
    destruct (resolve _ _ _ _) as [[e|st']|] eqn:Hr; [|  |done].
    { apply resolve_inl in Hr. subst. by destruct (restricted m). }
    destruct (classify _ _ _ _ _) as [e|[??]] eqn:Hcl; [|done].
    injection Hp as ->.
    destruct (classify_inl _ _ _ _ _ _ Hcl) as (pt_k & v & Hin & Hcnt & Htag & He).
    destruct (Hcounted' _ _ Hcnt).
    destruct (dict_get m field_keys) as [fks|] eqn:Hfks; [|done].
    destruct (dict_get (normalize_key m pt_k) fks) as [ty|] eqn:Hty.
    { by destruct He. }
    injection He as ->. by exists pt_k, v, tks, fks.
Qed.

(** C10, as the code has it.  When a declared tag key is present in a raw
    point with a null value, the committed key holds the string form of
    that null value in the key's slot (no synthetic value is substituted
    there), and the emitted tags omit the key provided no other entry with
    a non-null value is classified under it; when there is one (an entry
    [k_1] outside [server_info]), the tag is the string form of the last
    such value. *)
Theorem null_tag_value m pt dup tks i k v p dup' :
  dict_get m tag_keys = Some tks →
  tks !! i = Some k →
  dict_get k (pt_items pt) = Some v →
  is_None v = true →
  convert_point m pt dup = inr (p, dup') →
  (∃ key, dup' = {[key]} ∪ dup ∧ (key ∉ dup)
          ∧ key !! S i = Some (CStr (py_str v)))
  ∧ tags p !! k = py_str <$> last_raw m k (pt_items pt)
  ∧ ((∀ pt_k w, (pt_k, w) ∈ pt_items pt → normalize_key m pt_k = k →
        is_None w = true) →
     tags p !! k = None).
Proof.
  intros Htks Hi Hget Hnull Hp.
  apply convert_point_inr in Hp
    as (tks' & st & st' & Htks' & Hc & Hr & -> & Hcl & _).
  assert (tks' = tks) as -> by congruence.
  pose proof (candidate_wf _ _ _ _ Hc) as Hwf.
  destruct (candidate_inr _ _ _ _ Hc) as (Hs & _ & Hfk).
  assert (k ∈ tks) as Htag by by eapply list_elem_of_lookup_2.
  assert (series st !! S i = Some (CStr (py_str v))) as Hslot.
  { rewrite Hs. simpl. rewrite list_lookup_fmap, Hi. simpl.
    unfold tag_cell. by rewrite Hget. }
  assert (initial_tags st' !! k = None) as Hinit.
  { destruct (initial_tags st' !! k) as [s|] eqn:Hs'; [|done].
    destruct (initial_tags_lookup _ _ _ _ _ _ _ _ _ Hc Hr Hs') as (-> & _ & ? & _).
    congruence. }
  pose proof (classify_inr _ _ _ _ _ _ _ k Hcl) as Hk.
  rewrite (bool_decide_eq_true_2 _ Htag) in Hk.
  assert (tags p !! k = py_str <$> last_raw m k (pt_items pt)) as Htags.
  { destruct (last_raw m k (pt_items pt)); simpl; [tauto|].
    destruct Hk as [-> _]. done. }
  split_and!; [|done|].
  - exists (series st'). split; [done|].
    destruct (resolve_inr _ _ _ _ _ Hwf Hr)
      as [Hout [(f & idx & d & Hfake & -> & _)|(_ & ->)]].
    + split; [done|]. simpl. unfold fake_key.
      rewrite Hfake in Hfk. destruct Hfk as (_ & _ & Hget' & j & -> & Hj).
      rewrite list_lookup_insert_ne; [done|].
      intros [= <-]. congruence.
    + by split.
  - intros Hall. rewrite Htags.
    destruct (last_raw m k (pt_items pt)) as [w|] eqn:Hl; [|done].
    destruct (last_raw_Some _ _ _ _ Hl) as (pt_k & Hin & Hcnt & Hnk).
    apply andb_true_iff in Hcnt as [_ Hn%negb_true_iff].
    rewrite (Hall _ _ Hin Hnk) in Hn. done.
Qed.

End Claims.

(** ** Uniqueness of the committed keys, and of the emitted keys *)

Lemma dict_get_cons {A} k k' (a : A) d :
  dict_get k ((k', a) :: d) = if decide (k = k') then Some a else dict_get k d.
Proof. reflexivity. Qed.

(** What the tag table guarantees for every measurement. *)
Lemma tag_keys_wf m tks :
  dict_get m tag_keys = Some tks →
  NoDup tks ∧ ∀ k, k ∈ tks → k ≠ "time" ∧ last2 k ≠ "_1".
Proof.
  unfold tag_keys. rewrite !dict_get_cons.
  repeat (destruct (decide (m = _)) as [_|_];
          [intros [= <-]; split;
           [repeat (apply NoDup_cons; split; [intros Hin; in_list Hin|]);
            apply NoDup_nil_2
           |intros k Hk; in_list Hk; split; discriminate]|]).
  discriminate.
Qed.

Lemma dict_get_unique {A} k (d : list (string * A)) v w :
  NoDup d.*1 → dict_get k d = Some v → (k, w) ∈ d → w = v.
Proof.
  induction d as [|[k' a] d IH]; [by intros _ _ ?%elem_of_nil|].
  rewrite dict_get_cons, fmap_cons, NoDup_cons. simpl. intros [Hk' Hnd].
  destruct (decide (k = k')) as [->|Hne].
  - intros [= ->] [[= ->]|Hin]%elem_of_cons; [done|].
    destruct Hk'. apply list_elem_of_fmap. by exists (k', w).
  - intros Hget [[= ??]|Hin]%elem_of_cons; [done|]. by apply IH.
Qed.

Section Uniqueness.
Context {value fieldval : Type} `{!PyValue value fieldval}.
Implicit Types (pt : RawPoint value) (pts : list (RawPoint value)).
Implicit Types (dup : gset (list cell)) (p : ReclassifiedPoint fieldval).

Lemma all_points_append (cs : conv_state) p dup' :
  all_points (append_point cs p dup') = all_points cs ++ [p]
  ∧ dup_check (append_point cs p dup') = dup'.
Proof.
  unfold append_point, all_points. case_bool_decide; simpl; (split; [|done]).
  - rewrite concat_app. simpl. by rewrite !app_nil_r, app_assoc.
  - by rewrite app_assoc.
Qed.

Lemma last_raw_exact m tks k pt v :
  NoDup (pt_items pt).*1 → no_alias m tks pt →
  k ∈ tks → k ≠ "time" → last2 k ≠ "_1" →
  dict_get k (pt_items pt) = Some v →
  last_raw m k (pt_items pt) = if is_None v then None else Some v.
Proof.
  intros Hnd Hna Hk Htime Hl2 Hget.
  destruct (last_raw m k (pt_items pt)) as [w|] eqn:Hl.
  - destruct (last_raw_Some _ _ _ _ Hl) as (pt_k & Hin & Hcnt & Hnk).
    assert (pt_k = k) as ->.
    { rewrite <- Hnk. symmetry. apply Hna with w; [done..|]. by rewrite Hnk. }
    rewrite (dict_get_unique _ _ _ _ Hnd Hget Hin) in *.
    apply andb_true_iff in Hcnt as [_ Hn%negb_true_iff]. by rewrite Hn.
  - destruct (is_None v) eqn:Hn; [done|].
    destruct (last_raw_None _ _ _ k v Hl (dict_get_Some _ _ _ Hget)).
    + unfold counted. by rewrite Hn, bool_decide_eq_false_2.
    + by apply normalize_key_keep.
Qed.

(** Without aliases, the committed key of a point can be read back from the
    emitted point. *)
Lemma committed_key_of_emitted m tks pt dup p dup' :
  dict_get m tag_keys = Some tks →
  (∀ v, is_None v = true → py_str v = "None") →
  NoDup (pt_items pt).*1 → no_alias m tks pt →
  convert_point m pt dup = inr (p, dup') →
  (key_of_emitted tks p ∉ dup) ∧ dup' = {[key_of_emitted tks p]} ∪ dup.
Proof.
  intros Htks Hnone Hnd Hna Hp.
  destruct (tag_keys_wf _ _ Htks) as [Hndt Hwf].
  apply convert_point_inr in Hp
    as (tks' & st & st' & Htks' & Hc & Hr & -> & Hcl & Htime & _).
  assert (tks' = tks) as -> by congruence.
  pose proof (candidate_wf _ _ _ _ Hc) as Hcwf.
  destruct (candidate_inr _ _ _ _ Hc) as (Hs & _ & Hfk).
  destruct (resolve_inr _ _ _ _ _ Hcwf Hr) as [Hout Hshape].
  assert (∀ k v, k ∈ tks → dict_get k (pt_items pt) = Some v →
            CStr (default "None" (tags p !! k)) = CStr (py_str v)) as Hpresent.
  { intros k v Hk Hget. destruct (Hwf k Hk) as [Ht Hl2].
    pose proof (classify_inr _ _ _ _ _ _ _ k Hcl) as Hcl'.
    rewrite (last_raw_exact m tks k pt v), (bool_decide_eq_true_2 _ Hk) in Hcl'
      by done.
    destruct (is_None v) eqn:Hn.
    - destruct Hcl' as [-> _].
      destruct (initial_tags st' !! k) as [s|] eqn:Hs'.
      + destruct (initial_tags_lookup _ _ _ _ _ _ _ _ _ Hc Hr Hs') as (-> & _ & ? & _).
        congruence.
      + simpl. by rewrite Hnone.
    - by destruct Hcl' as [-> _]. }
  assert (series st' = key_of_emitted tks p) as Hkey.
  { unfold key_of_emitted. rewrite Htime.
    destruct Hshape as [(f & idx & d & Hfake & -> & _)|(Hfake & ->)].
    - rewrite Hfake in Hfk. destruct Hfk as (-> & _ & Hget & j & -> & Hj).
      simpl. rewrite Hs. unfold fake_key. simpl. f_equal.
      apply list_eq. intros i.
      rewrite (list_lookup_fmap (λ k, CStr (default "None" (tags p !! k)))).
      destruct (decide (i = j)) as [->|Hij].
      + rewrite list_lookup_insert_eq
          by (rewrite length_map; by eapply lookup_lt_Some).
        rewrite Hj. simpl. do 2 f_equal.
        pose proof (classify_inr _ _ _ _ _ _ _ "server_id" Hcl) as Hcl'.
        assert (last_raw m "server_id" (pt_items pt) = None) as Hl.
        { destruct (last_raw m "server_id" (pt_items pt)) as [w|] eqn:Hl; [|done].
          destruct (last_raw_Some _ _ _ _ Hl) as (pt_k & Hin & Hcnt & Hnk).
          assert (pt_k = "server_id") as ->.
          { rewrite <- Hnk. symmetry. apply Hna with w; [done..|].
            rewrite Hnk. by eapply list_elem_of_lookup_2. }
          by destruct (dict_get_None _ _ w Hget). }
        rewrite Hl in Hcl'. destruct Hcl' as [-> _]. unfold initial_tags. simpl.
        by rewrite lookup_singleton_eq.
      + rewrite list_lookup_insert_ne by done. rewrite list_lookup_fmap.
        destruct (tks !! i) as [k|] eqn:Hi; [|done]. simpl. f_equal.
        assert (k ∈ tks) as Hk by by eapply list_elem_of_lookup_2.
        destruct (dict_get k (pt_items pt)) as [v|] eqn:Hgetk.
        * unfold tag_cell. rewrite Hgetk. symmetry. by apply Hpresent.
        * destruct (candidate_inr _ _ _ _ Hc) as (_ & Habs & _).
          destruct (Habs k Hk Hgetk) as [-> _].
          destruct Hij. by eapply NoDup_lookup.
    - rewrite Hfake in Hfk. simpl. rewrite Hs. simpl. f_equal.
      apply list_eq. intros i. rewrite !list_lookup_fmap.
      destruct (tks !! i) as [k|] eqn:Hi; [|done]. simpl. f_equal.
      assert (k ∈ tks) as Hk by by eapply list_elem_of_lookup_2.
      destruct (Hfk k Hk) as [v Hgetk].
      unfold tag_cell. rewrite Hgetk. symmetry. by apply Hpresent. }
  by rewrite <- Hkey.
Qed.

(** Each converted point commits one key that was not seen before, and
    that key carries the emitted time. *)
Lemma convert_point_commits m pt dup p dup' :
  convert_point m pt dup = inr (p, dup') →
  ∃ key, (key ∉ dup) ∧ dup' = {[key]} ∪ dup ∧ series_time key = time p.
Proof.
  intros Hp. apply convert_point_inr in Hp
    as (tks & st & st' & _ & Hc & Hr & -> & _ & -> & _).
  exists (series st'). split_and!; [|done..].
  by destruct (resolve_inr _ _ _ _ _ (candidate_wf _ _ _ _ Hc) Hr).
Qed.

Lemma convert_loop_count m pts (cs : conv_state) :
  size (dup_check cs) = length (all_points cs) →
  size (dup_check (convert_loop m pts cs).1)
  = length (all_points (convert_loop m pts cs).1)
  ∧ (snd (convert_loop m pts cs) = None →
     length (all_points (convert_loop m pts cs).1)
     = length (all_points cs) + length pts).
Proof.
  revert cs. induction pts as [|pt pts IH]; intros cs Hsz; simpl.
  { split; [done|]. intros _. lia. }
  destruct (convert_point m pt (dup_check cs)) as [e|[p dup']] eqn:Hp; [done|].
  destruct (convert_point_commits _ _ _ _ _ Hp) as (key & Hout & -> & _).
  destruct (all_points_append cs p ({[key]} ∪ dup_check cs)) as [Hall Hdup].
  destruct (IH (append_point cs p ({[key]} ∪ dup_check cs))) as [IH1 IH2].
  { rewrite Hall, Hdup, length_app, size_union, size_singleton.
    - simpl. lia.
    - intros x Hx%elem_of_singleton. by subst x. }
  split; [done|]. intros Hnone. rewrite IH2, Hall, length_app by done. simpl. lia.
Qed.

Lemma emitted_measurement m pts :
  ∃ rest, all_points (convert_loop m pts (mkConv [] ∅ [])).1
          = emitted (convert_measurement m pts) ++ rest
    ∧ (snd (convert_measurement m pts) = None → rest = []).
Proof.
  unfold convert_measurement, emitted, all_points.
  destruct (convert_loop m pts _) as [cs [e|]]; simpl.
  - by exists (json_body cs).
  - exists []. case_bool_decide as Hj; simpl.
    + by rewrite concat_app, app_nil_r; simpl; rewrite !app_nil_r.
    + by rewrite Hj.
Qed.

Lemma convert_loop_keys m tks pts (cs : conv_state) :
  dict_get m tag_keys = Some tks →
  (∀ v, is_None v = true → py_str v = "None") →
  (∀ pt, pt ∈ pts → NoDup (pt_items pt).*1 ∧ no_alias m tks pt) →
  keys_tracked tks cs → keys_tracked tks (convert_loop m pts cs).1.
Proof.
  intros Htks Hnone. revert cs.
  induction pts as [|pt pts IH]; intros cs Hpts Hinv; simpl; [done|].
  destruct (convert_point m pt (dup_check cs)) as [e|[p dup']] eqn:Hp; [done|].
  destruct (Hpts pt) as [Hnd Hna]; [by left|].
  destruct (committed_key_of_emitted _ _ _ _ _ _ Htks Hnone Hnd Hna Hp)
    as [Hout ->].
  destruct (all_points_append cs p ({[key_of_emitted tks p]} ∪ dup_check cs))
    as [Hall Hdup].
  destruct Hinv as [Hnodup Hseen].
  apply IH; [intros pt' Hin; apply Hpts; by right|].
  unfold keys_tracked. rewrite Hall, Hdup, fmap_app. simpl. split.
  - apply NoDup_app. split_and!; [done| |apply NoDup_singleton].
    intros key Hkey Heq%list_elem_of_singleton. subst key. by apply Hout, Hseen.
  - intros key [Hkey|Hkey]%elem_of_app.
    + apply elem_of_union_r. by apply Hseen.
    + apply list_elem_of_singleton in Hkey. subst key.
      apply elem_of_union_l. by apply elem_of_singleton.
Qed.

End Uniqueness.

(** Every converted point commits exactly one new key: after any run the
    number of keys seen is the number of points appended, and a run without
    error emits one point per raw point. *)
Theorem one_fresh_key_per_point {value fieldval} `{!PyValue value fieldval}
    m (pts : list (RawPoint value)) :
  size (dup_check (convert_loop m pts (mkConv [] ∅ [])).1)
  = length (all_points (convert_loop m pts (mkConv [] ∅ [])).1)
  ∧ (snd (convert_measurement m pts) = None →
     length (emitted (convert_measurement m pts)) = length pts).
Proof.
  destruct (convert_loop_count m pts (mkConv [] ∅ [])) as [Hsz Hlen]; [done|].
  split; [done|]. intros Hnone.
  destruct (emitted_measurement m pts) as (rest & Hall & Hrest).
  rewrite (Hrest Hnone), app_nil_r in Hall. rewrite <- Hall.
  rewrite convert_measurement_snd in Hnone. by rewrite (Hlen Hnone).
Qed.

(** When no raw key of the form [k_1] is classified under a declared tag key
    [k] (and the points are dicts: no key twice), the dedup keys of the
    emitted points, time and tag values in declared order, are pairwise
    distinct. *)
Theorem emitted_keys_distinct {value fieldval} `{!PyValue value fieldval}
    m tks (pts : list (RawPoint value)) :
  dict_get m tag_keys = Some tks →
  (∀ v : value, is_None v = true → py_str v = "None") →
  (∀ pt, pt ∈ pts → NoDup (pt_items pt).*1 ∧ no_alias m tks pt) →
  NoDup (dedup_key tks <$> emitted (convert_measurement m pts)).
Proof.
  intros Htks Hnone Hpts.
  destruct (convert_loop_keys m tks pts (mkConv [] ∅ []) Htks Hnone Hpts)
    as [Hnodup _].
  { split; [apply NoDup_nil_2|]. by intros key ?%elem_of_nil. }
  destruct (emitted_measurement m pts) as (rest & Hall & _).
  rewrite Hall, fmap_app in Hnodup. apply NoDup_app in Hnodup as [Hnodup _].
  apply (NoDup_fmap_1 (λ '(t, vs), CTime t :: map (λ o, CStr (default "None" o)) vs)).
  rewrite <- list_fmap_compose.
  erewrite list_fmap_ext; [exact Hnodup|].
  intros i p _. unfold key_of_emitted, dedup_key. simpl. f_equal.
  by rewrite <- list_fmap_compose.
Qed.

(** ** Batches (lines 168-173) *)

Section Batches.
Context {value fieldval : Type} `{!PyValue value fieldval}.

Lemma convert_loop_batches m (pts : list (RawPoint value)) (cs : conv_state) :
  Forall (λ b, length b = 1000) (written cs) → length (json_body cs) < 1000 →
  Forall (λ b, length b = 1000) (written (convert_loop m pts cs).1)
  ∧ length (json_body (convert_loop m pts cs).1) < 1000.
Proof.
  revert cs. induction pts as [|pt pts IH]; intros cs Hfull Hpend; simpl; [done|].
  destruct (convert_point m pt (dup_check cs)) as [e|[p dup']]; [done|].
  apply IH; unfold append_point; rewrite length_app; simpl;
    case_bool_decide; simpl; rewrite ?length_app; simpl; try done; try lia.
  apply Forall_app. split; [done|]. apply Forall_singleton.
  rewrite length_app. simpl. lia.
Qed.

(** Every batch handed to [write_points] holds between 1 and 1000 points,
    and every batch but the last holds exactly 1000. *)
Theorem batches_of_1000 m (pts : list (RawPoint value)) :
  Forall (λ b, 0 < length b ≤ 1000) (fst (convert_measurement m pts))
  ∧ ∀ i b, fst (convert_measurement m pts) !! i = Some b →
      S i < length (fst (convert_measurement m pts)) → length b = 1000.
Proof.
  destruct (convert_loop_batches m pts (mkConv [] ∅ [])) as [Hfull Hpend];
    [by apply Forall_nil|simpl; lia|].
  unfold convert_measurement.
  destruct (convert_loop m pts _) as [cs [e|]]; simpl in *.
  - split.
    + eapply Forall_impl; [exact Hfull|]. intros b Hb. simpl in Hb. lia.
    + intros i b Hi _. by eapply (Forall_lookup_1 _ _ _ _ Hfull).
  - case_bool_decide as Hj; simpl.
    + split.
      * apply Forall_app. split.
        -- eapply Forall_impl; [exact Hfull|]. intros b Hb. simpl in Hb. lia.
        -- apply Forall_singleton. destruct (json_body cs); [done|simpl in *; lia].
      * intros i b Hi Hlt. rewrite length_app in Hlt. simpl in Hlt.
        rewrite lookup_app_l in Hi by lia.
        by eapply (Forall_lookup_1 _ _ _ _ Hfull).
    + split.
      * eapply Forall_impl; [exact Hfull|]. intros b Hb. simpl in Hb. lia.
      * intros i b Hi _. by eapply (Forall_lookup_1 _ _ _ _ Hfull).
Qed.

End Batches.

(** ** Concrete runs *)

(** C7, at the failing input.  Two [client_buffer] rows of the same
    instant and channel, without [server_id] and with [server_id_1] = 7.
    The duplicate check gives them the synthetic values 1 and 2 and commits
    the keys that hold them, but both emitted points carry the tag
    [server_id] = 7 of the raw column, not the synthetic value: their
    dedup keys are equal, and the second overwrites the first in the
    destination. *)
Theorem synthetic_server_id_overwritten :
  snd (convert_measurement "client_buffer" [cb_alias_row; cb_alias_row]) = None
  ∧ candidate "client_buffer" cb_alias_row ["channel"; "server_id"]
    = inr (cb_state 1)
  ∧ resolve 2 "client_buffer" {[cb_key "1"]} (cb_state 1)
    = Some (inr (cb_state 2))
  ∧ dup_check (convert_loop (fieldval := pyfield) "client_buffer"
                 [cb_alias_row; cb_alias_row] (mkConv [] ∅ [])).1
    = {[cb_key "2"]} ∪ ({[cb_key "1"]} ∪ ∅)
  ∧ (λ p, tags p !! "server_id")
      <$> emitted (convert_measurement "client_buffer" [cb_alias_row; cb_alias_row])
    = [Some "7"; Some "7"]
  ∧ dedup_key ["channel"; "server_id"]
      <$> emitted (convert_measurement "client_buffer" [cb_alias_row; cb_alias_row])
    = [(0%Z, [Some "nbc"; Some "7"]); (0%Z, [Some "nbc"; Some "7"])]
  ∧ ¬ NoDup (dedup_key ["channel"; "server_id"]
      <$> emitted (convert_measurement "client_buffer" [cb_alias_row; cb_alias_row])).
Proof.
  assert (dedup_key ["channel"; "server_id"]
      <$> emitted (convert_measurement "client_buffer" [cb_alias_row; cb_alias_row])
    = [(0%Z, [Some "nbc"; Some "7"]); (0%Z, [Some "nbc"; Some "7"])])
    as Hkeys by vm_refl.
  split_and!; [vm_refl|vm_refl|vm_refl|vm_refl|vm_refl|done|].
  rewrite Hkeys. intros Hnd. apply NoDup_cons in Hnd as [Hnotin _].
  apply Hnotin. by left.
Qed.

(** C8, counterexample.  In [backlog_both_row] the entry [channel] = abc
    is not placed: the emitted tag [channel] holds nbc, the value of
    [channel_1], and abc is nowhere, without an error.  In
    [backlog_tag_row] the key [channel] has a null value and is in the
    emitted tags all the same. *)
Lemma entry_not_placed :
  ¬ every_entry_placed "backlog" backlog_both_row ∅
  ∧ ¬ every_entry_placed "backlog" backlog_tag_row ∅.
Proof.
  split.
  - intros Hplaced.
    assert (convert_point "backlog" backlog_both_row ∅
            = inr (mkPoint "backlog" 0 {["channel" := "nbc"]}
                     {["working_cnt" := FInt 1]},
                   {[[CTime 0; CStr "abc"]]} ∪ ∅)) as Hp by vm_refl.
    specialize (Hplaced _ _ "channel" (PStr "abc") Hp ltac:(by left)
                  ltac:(discriminate)).
    simpl in Hplaced. destruct Hplaced as [Htag|(ty & Hsome & Hfield)].
    + rewrite lookup_singleton_eq in Htag. discriminate Htag.
    + rewrite lookup_singleton_ne in Hfield by discriminate.
      rewrite <- Hfield in Hsome. destruct Hsome as [x Hx]. discriminate Hx.
  - intros Hplaced.
    assert (convert_point "backlog" backlog_tag_row ∅
            = inr (mkPoint "backlog" 0 {["channel" := "nbc"]}
                     {["working_cnt" := FInt 1]},
                   {[[CTime 0; CStr "None"]]} ∪ ∅)) as Hp by vm_refl.
    specialize (Hplaced _ _ "channel" PNone Hp ltac:(by left)
                  ltac:(discriminate)).
    simpl in Hplaced. destruct Hplaced as [Htag _].
    rewrite lookup_singleton_eq in Htag. discriminate Htag.
Qed.

(** C10, counterexample.  In [backlog_tag_row] the declared tag key
    [channel] is present with a null value, and the emitted tags map
    [channel] to ["nbc"]. *)
Lemma null_tag_not_omitted :
  ¬ null_tag_omitted "backlog" backlog_tag_row ∅.
Proof.
  intros Homit.
  assert (convert_point "backlog" backlog_tag_row ∅
          = inr (mkPoint "backlog" 0 {["channel" := "nbc"]}
                   {["working_cnt" := FInt 1]},
                 {[[CTime 0; CStr "None"]]} ∪ ∅)) as Hp by vm_refl.
  specialize (Homit ["channel"] "channel" PNone _ _
                eq_refl ltac:(by left) eq_refl eq_refl Hp).
  simpl in Homit. rewrite lookup_singleton_eq in Homit. done.
Qed.

(** C1, at the failing input.  The two [backlog] rows are both converted;
    their internal keys differ ([None] against [nbc]), so no collision is
    seen, yet the emitted points have the same time and the same tags: their
    dedup keys are equal, and the second overwrites the first in the
    destination. *)
Theorem emitted_keys_collide :
  snd (convert_measurement "backlog" [backlog_tag_row; backlog_field_row]) = None
  ∧ dedup_key ["channel"]
      <$> emitted (convert_measurement "backlog" [backlog_tag_row; backlog_field_row])
    = [(0%Z, [Some "nbc"]); (0%Z, [Some "nbc"])]
  ∧ (λ p, fields p !! "working_cnt")
      <$> emitted (convert_measurement "backlog" [backlog_tag_row; backlog_field_row])
    = [Some (FInt 1); Some (FInt 2)]
  ∧ ¬ NoDup (dedup_key ["channel"]
      <$> emitted (convert_measurement "backlog" [backlog_tag_row; backlog_field_row])).
Proof.
  assert (dedup_key ["channel"]
      <$> emitted (convert_measurement "backlog" [backlog_tag_row; backlog_field_row])
    = [(0%Z, [Some "nbc"]); (0%Z, [Some "nbc"])]) as Hkeys by vm_refl.
  split_and!; [vm_refl|done|vm_refl|].
  rewrite Hkeys. intros Hnd. apply NoDup_cons in Hnd as [Hnotin _].
  apply Hnotin. by left.
Qed.

(** ** The theorems at concrete points *)

Lemma missing_declared_tag_policy_witness :
  dict_get "ssim" tag_keys = Some ["channel"; "format"]
  ∧ convert_point "ssim" ssim_no_format ∅ = inl (MissingDeclaredTag "format")
  ∧ ∃ st, candidate "client_buffer" cb_row ["channel"; "server_id"] = inr st
          ∧ series st = cb_key "1".
Proof.
  split; [reflexivity|]. split.
  - destruct (missing_declared_tag_policy "ssim" ["channel"; "format"]
                ssim_no_format eq_refl) as [Hfatal _].
    destruct Hfatal as (k' & Hk' & Hget & _ & Hp & _).
    { exists "format". split_and!; [by right; left|reflexivity|].
      by intros [_ Hm%restricted_true]. }
    rewrite Hp. in_list Hk'; [discriminate Hget|reflexivity].
  - destruct (missing_declared_tag_policy "client_buffer" ["channel"; "server_id"]
                cb_row eq_refl) as [_ Hok].
    destruct Hok as (st & Hc & Hs & _).
    { intros k Hk Hget. in_list Hk; [discriminate Hget|].
      split; [reflexivity|by left]. }
    exists st. split; [exact Hc|]. rewrite Hs. reflexivity.
Defined.


Lemma restricted_collision_is_fatal_witness :
  "video_sent" ∈ ["client_buffer"; "video_sent"; "video_acked"]
  ∧ convert_point "video_sent" vs_row {[cb_key "1"]}
    = inl (UnresolvableCollision "video_sent").
Proof.
  assert ("video_sent" ∈ ["client_buffer"; "video_sent"; "video_acked"]) as Hm
    by (right; left).
  split; [exact Hm|].
  destruct (restricted_collision_is_fatal "video_sent" ["channel"; "server_id"]
              vs_row {[cb_key "1"]} Hm eq_refl) as [Hfatal _].
  apply Hfatal.
  - intros k Hk. in_list Hk; by eexists.
  - apply elem_of_singleton. reflexivity.
Defined.

Lemma timestamp_shift_raises_witness :
  ("ssim" ∉ ["client_buffer"; "video_sent"; "video_acked"])
  ∧ candidate "ssim" ssim_row ["channel"; "format"] = inr (mkDedup (ssim_key 5) None)
  ∧ convert_point (fieldval := pyfield) "ssim" ssim_row {[ssim_key 5]}
    = inl InvalidTimedeltaUnit
  ∧ convert_measurement (fieldval := pyfield) "ssim" [ssim_row; ssim_row]
    = ([], Some InvalidTimedeltaUnit).
Proof.
  assert ("ssim" ∉ ["client_buffer"; "video_sent"; "video_acked"]) as Hm.
  { intros H. in_list H; discriminate. }
  assert (candidate "ssim" ssim_row ["channel"; "format"]
          = inr (mkDedup (ssim_key 5) None)) as Hc by vm_refl.
  assert (convert_measurement (fieldval := pyfield) "ssim" [ssim_row; ssim_row]
          = ([], Some InvalidTimedeltaUnit)) as Hrun by vm_refl.
  split; [exact Hm|]. split; [exact Hc|]. split; [|exact Hrun].
  destruct (timestamp_shift_raises (fieldval := pyfield) "ssim"
              ["channel"; "format"] ssim_row
              (mkDedup (ssim_key 5) None) {[ssim_key 5]} Hm eq_refl Hc)
    as (_ & _ & Hraise & _).
  refine (proj1 (Hraise _)). apply elem_of_singleton. reflexivity.
Defined.

Lemma suffix_stripping_witness :
  "video_sent" ≠ "server_info" ∧ last2 "cwnd_1" = "_1"
  ∧ "cwnd_1" = normalize_key "video_sent" "cwnd_1" +:+ "_1".
Proof.
  split; [discriminate|]. split; [reflexivity|].
  destruct (suffix_stripping (value := pyval) "video_sent" "cwnd_1")
    as [Hstrip _].
  apply Hstrip; [discriminate|reflexivity].
Defined.

Lemma collision_loop_terminates_witness :
  candidate "client_buffer" cb_row ["channel"; "server_id"] = inr (cb_state 1)
  ∧ (∃ d, d ≤ 1
       ∧ (fake_key (cb_key "1") 2 (1 + Z.of_nat d) ∉ ({[cb_key "1"]} : gset _))
       ∧ resolve 2 "client_buffer" {[cb_key "1"]} (cb_state 1)
         = Some (inr (mkDedup (fake_key (cb_key "1") 2 (1 + Z.of_nat d))
                              (Some ((1 + Z.of_nat d)%Z, 2)))))
  ∧ candidate "ssim" ssim_row ["channel"; "format"] = inr (mkDedup (ssim_key 5) None)
  ∧ resolve 2 "ssim" {[ssim_key 5]} (mkDedup (ssim_key 5) None)
    = Some (inl InvalidTimedeltaUnit).
Proof.
  assert (candidate "client_buffer" cb_row ["channel"; "server_id"]
          = inr (cb_state 1)) as Hc by vm_refl.
  assert (candidate "ssim" ssim_row ["channel"; "format"]
          = inr (mkDedup (ssim_key 5) None)) as Hs by vm_refl.
  split; [exact Hc|].
  destruct (collision_loop_terminates "client_buffer" ["channel"; "server_id"]
              cb_row (cb_state 1) {[cb_key "1"]} Hc)
    as (_ & Hfake & _).
  destruct (Hfake 1%Z 2 eq_refl) as (d & Hd & _ & Hfresh & Hr).
  rewrite size_singleton in Hd.
  split; [exists d; split; [exact Hd|split; [exact Hfresh|apply Hr; lia]]|].
  split; [exact Hs|].
  destruct (collision_loop_terminates "ssim" ["channel"; "format"]
              ssim_row (mkDedup (ssim_key 5) None) {[ssim_key 5]} Hs)
    as (_ & _ & Hnone & _).
  refine (Hnone eq_refl _ 2 _); [|lia].
  apply elem_of_singleton. reflexivity.
Defined.

Lemma classification_complete_witness :
  convert_point "video_sent" vs_row ∅
  = inr (mkPoint "video_sent" 0 {["server_id" := "1"; "channel" := "nbc"]}
           {["cwnd" := FInt 10]},
         {[cb_key "1"]} ∪ ∅)
  ∧ (∃ pt_k' v',
       last_raw "video_sent" (normalize_key "video_sent" "cwnd_1")
         (pt_items vs_row) = Some v'
       ∧ (pt_k', v') ∈ pt_items vs_row
       ∧ ((({["server_id" := "1"; "channel" := "nbc"]} : gmap string string)
             !! normalize_key "video_sent" "cwnd_1" = Some (py_str v')
           ∧ ({["cwnd" := FInt 10]} : gmap string pyfield)
               !! normalize_key "video_sent" "cwnd_1" = None)
          ∨ (({["server_id" := "1"; "channel" := "nbc"]} : gmap string string)
               !! normalize_key "video_sent" "cwnd_1" = None
             ∧ ∃ fks ty x,
                 dict_get "video_sent" field_keys = Some fks
                 ∧ dict_get (normalize_key "video_sent" "cwnd_1") fks = Some ty
                 ∧ coerce ty v' = Some x
                 ∧ ({["cwnd" := FInt 10]} : gmap string pyfield)
                     !! normalize_key "video_sent" "cwnd_1" = Some x)))
  ∧ ∃ e, convert_point "video_sent" vs_unknown ∅ = inl e.
Proof.
  assert (convert_point "video_sent" vs_row ∅
          = inr (mkPoint "video_sent" 0 {["server_id" := "1"; "channel" := "nbc"]}
                   {["cwnd" := FInt 10]},
                 {[cb_key "1"]} ∪ ∅)) as Hp by vm_refl.
  split; [exact Hp|].
  destruct (classification_complete "video_sent" vs_row ∅) as (Hok & _ & _).
  destruct (classification_complete "video_sent" vs_unknown ∅) as (_ & Hbad & _).
  split.
  - destruct (Hok _ _ Hp) as [Hin _].
    destruct (Hin "cwnd_1" (PInt 10)) as (pt_k' & v' & Hlast & Hin' & _ & _ & _ & Hpl);
      [|discriminate|reflexivity|].
    + right; right; left.
    + exists pt_k', v'. split; [exact Hlast|]. split; [exact Hin'|exact Hpl].
  - eapply (Hbad "bogus" (PInt 10)); [|discriminate|reflexivity|reflexivity
                                      |reflexivity| |reflexivity].
    + right; right; left.
    + intros H. in_list H; discriminate.
Defined.

Lemma null_tag_value_witness :
  convert_point "backlog" backlog_null_row ∅
  = inr (backlog_null_point, {[[CTime 0; CStr "None"]]} ∪ ∅)
  ∧ tags backlog_null_point !! "channel" = None.
Proof.
  assert (convert_point "backlog" backlog_null_row ∅
          = inr (backlog_null_point, {[[CTime 0; CStr "None"]]} ∪ ∅))
    as Hp by vm_refl.
  assert (is_None PNone = true) as Hn by reflexivity.
  split; [exact Hp|].
  destruct (null_tag_value "backlog" backlog_null_row ∅ ["channel"] 0 "channel"
              PNone backlog_null_point ({[[CTime 0; CStr "None"]]} ∪ ∅)
              eq_refl eq_refl eq_refl Hn Hp) as (_ & _ & Homit).
  refine (Homit _). intros pt_k w Hin Hk. in_list Hin; [reflexivity|discriminate Hk].
Defined.

Lemma emitted_keys_distinct_witness :
  dict_get "client_buffer" tag_keys = Some ["channel"; "server_id"]
  ∧ length (emitted (convert_measurement "client_buffer" [cb_row; cb_row])) = 2
  ∧ NoDup (dedup_key ["channel"; "server_id"]
      <$> emitted (convert_measurement "client_buffer" [cb_row; cb_row])).
Proof.
  split; [reflexivity|]. split; [vm_refl|].
  apply (emitted_keys_distinct "client_buffer" ["channel"; "server_id"]
           [cb_row; cb_row] eq_refl).
  - intros v Hv. destruct v; [reflexivity|discriminate Hv..].
  - intros pt Hpt.
    assert (pt = cb_row) as ->.
    { apply elem_of_cons in Hpt as [->|Hpt]; [reflexivity|].
      apply elem_of_cons in Hpt as [->|Hpt]; [reflexivity|].
      exfalso. exact (proj1 (elem_of_nil _) Hpt). }
    split.
    + repeat (apply NoDup_cons; split; [intros Hin; in_list Hin|]).
      apply NoDup_nil_2.
    + intros pt_k v Hin _ Hnk. in_list Hin; [reflexivity|].
      vm_compute in Hnk. in_list Hnk.
Defined.

(** ** Provenance, order and bounds of the emitted points *)

Section Provenance.
Context {value fieldval : Type} `{!PyValue value fieldval}.
Implicit Types (pt : RawPoint value) (pts : list (RawPoint value)).
Implicit Types (st : dedup_state) (dup : gset (list cell)).
Implicit Types (p : ReclassifiedPoint fieldval).

Lemma convert_point_size m pt dup p dup' :
  convert_point m pt dup = inr (p, dup') → size dup' = S (size dup).
Proof.
  intros (key & Hout & -> & _)%convert_point_commits.
  rewrite size_union, size_singleton; [done|].
  intros x Hx%elem_of_singleton. by subst x.
Qed.

(** The points appended by the loop are, in order, the conversions of the
    raw points, the [i]-th one against [i] more seen keys than at the start. *)
Lemma convert_loop_steps m pts (cs : conv_state) :
  ∃ ps, all_points (convert_loop m pts cs).1 = all_points cs ++ ps
    ∧ (snd (convert_loop m pts cs) = None → length ps = length pts)
    ∧ ∀ i p, ps !! i = Some p →
        ∃ pt dup dup', pts !! i = Some pt
          ∧ size dup = size (dup_check cs) + i
          ∧ convert_point m pt dup = inr (p, dup').
Proof.
  revert cs. induction pts as [|pt pts IH]; intros cs; simpl.
  { exists []. rewrite app_nil_r. split_and!; [done..|].
    intros i p Hi. by rewrite lookup_nil in Hi. }
  destruct (convert_point m pt (dup_check cs)) as [e|[p dup']] eqn:Hp; simpl.
  { exists []. rewrite app_nil_r. split_and!; [done..|].
    intros i p Hi. by rewrite lookup_nil in Hi. }
  destruct (IH (append_point cs p dup')) as (ps & Hall & Hlen & Hsteps).
  destruct (all_points_append cs p dup') as [Ha Hd].
  exists (p :: ps). rewrite Hall, Ha, <- app_assoc. split_and!; [done| |].
  { intros Hnone. simpl. f_equal. by apply Hlen. }
  intros [|i] q Hi; simpl in *.
  - injection Hi as <-. exists pt, (dup_check cs), dup'.
    split_and!; [done|lia|done].
  - destruct (Hsteps i q Hi) as (pt' & dup & dup'' & Hpt & Hsz & Hcp).
    exists pt', dup, dup''. split_and!; [done| |done].
    rewrite Hsz, Hd, (convert_point_size _ _ _ _ _ Hp). lia.
Qed.

(** The same for a whole run, failed or not. *)
Lemma emitted_steps m pts i p :
  emitted (convert_measurement m pts) !! i = Some p →
  ∃ pt dup dup', pts !! i = Some pt ∧ size dup = i
    ∧ convert_point m pt dup = inr (p, dup').
Proof.
  intros Hi.
  destruct (emitted_measurement m pts) as (rest & Hall & _).
  destruct (convert_loop_steps m pts (mkConv [] ∅ [])) as (ps & Hps & _ & Hsteps).
  rewrite Hall in Hps. unfold all_points in Hps at 1. simpl in Hps. subst ps.
  destruct (Hsteps i p) as (pt & dup & dup' & Hpt & Hsz & Hcp).
  { by apply lookup_app_l_Some. }
  exists pt, dup, dup'. split_and!; [done| |done].
  simpl in Hsz. rewrite ?size_empty in Hsz. exact Hsz.
Qed.

(** No converted point has its timestamp changed. *)
Lemma convert_point_time m pt dup p dup' :
  convert_point m pt dup = inr (p, dup') → time p = pt_time pt.
Proof.
  intros Hp. apply convert_point_inr in Hp
    as (tks & st & st' & _ & Hc & Hr & _ & _ & -> & _).
  pose proof (candidate_wf _ _ _ _ Hc) as Hwf.
  destruct (candidate_inr _ _ _ _ Hc) as (Hs & _).
  destruct (resolve_inr _ _ _ _ _ Hwf Hr)
    as [_ [(f & idx & d & Hfake & -> & _)|(_ & ->)]].
  - destruct Hwf as [_ Hwf]. rewrite Hfake in Hwf. simpl. rewrite Hs.
    apply series_time_fake_key. lia.
  - by rewrite Hs.
Qed.

(** Outside the restricted measurements the committed key is the candidate
    key. *)
Lemma convert_point_unrestricted m tks pt dup p dup' :
  restricted m = false → dict_get m tag_keys = Some tks →
  convert_point m pt dup = inr (p, dup') →
  (candidate_key tks pt ∉ dup) ∧ dup' = {[candidate_key tks pt]} ∪ dup.
Proof.
  intros Hm Htks Hp. apply convert_point_inr in Hp
    as (tks' & st & st' & Htks' & Hc & Hr & -> & _).
  assert (tks' = tks) as -> by congruence.
  pose proof (candidate_wf _ _ _ _ Hc) as Hwf.
  destruct (candidate_inr _ _ _ _ Hc) as (Hs & _ & Hfk).
  fold (candidate_key tks pt) in Hs.
  destruct (resolve_inr _ _ _ _ _ Hwf Hr)
    as [Hout [(f & idx & d & Hfake & _)|(_ & ->)]].
  - rewrite Hfake in Hfk. destruct Hfk as (_ & ? & _). congruence.
  - by rewrite Hs in *.
Qed.

Lemma convert_point_conforms m tks pt dup p dup' :
  dict_get m tag_keys = Some tks →
  convert_point m pt dup = inr (p, dup') →
  measurement p = m
  ∧ (∀ k s, tags p !! k = Some s → k ∈ tks)
  ∧ ∀ k x, fields p !! k = Some x →
      (k ∉ tks)
      ∧ ∃ fks ty pt_k v, dict_get m field_keys = Some fks
          ∧ dict_get k fks = Some ty ∧ (pt_k, v) ∈ pt_items pt
          ∧ pt_k ≠ "time" ∧ is_None v = false
          ∧ normalize_key m pt_k = k ∧ coerce ty v = Some x.
Proof.
  intros Htks Hp. apply convert_point_inr in Hp
    as (tks' & st & st' & Htks' & Hc & Hr & _ & Hcl & _ & Hm).
  assert (tks' = tks) as -> by congruence.
  split_and!; [done| |].
  - intros k s Hk.
    pose proof (classify_inr _ _ _ _ _ _ _ k Hcl) as Hcl'.
    destruct (last_raw m k (pt_items pt)) as [v|].
    + case_bool_decide as Htag; [done|]. destruct Hcl' as [Hcl' _].
      rewrite Hk in Hcl'. symmetry in Hcl'.
      by destruct (initial_tags_lookup _ _ _ _ _ _ _ _ _ Hc Hr Hcl') as (-> & ? & _).
    + destruct Hcl' as [Hcl' _]. rewrite Hk in Hcl'. symmetry in Hcl'.
      by destruct (initial_tags_lookup _ _ _ _ _ _ _ _ _ Hc Hr Hcl') as (-> & ? & _).
  - intros k x Hk.
    pose proof (classify_inr _ _ _ _ _ _ _ k Hcl) as Hcl'.
    destruct (last_raw m k (pt_items pt)) as [v|] eqn:Hl.
    + case_bool_decide as Htag.
      * destruct Hcl' as [_ Hcl']. by rewrite Hk, lookup_empty in Hcl'.
      * split; [done|].
        destruct Hcl' as (_ & fks & ty & x' & Hfks & Hty & Hx & Hf).
        destruct (last_raw_Some _ _ _ _ Hl) as (pt_k & Hin & Hcnt & Hn).
        apply andb_true_iff in Hcnt as [Ht%negb_true_iff Hnull%negb_true_iff].
        apply bool_decide_eq_false in Ht.
        exists fks, ty, pt_k, v. split_and!; try done. congruence.
    + destruct Hcl' as [_ Hcl']. by rewrite Hk, lookup_empty in Hcl'.
Qed.

End Provenance.

Section Preservation.
Context {value fieldval : Type} `{!PyValue value fieldval}.
Implicit Types (pt : RawPoint value) (pts : list (RawPoint value)).
Implicit Types (st : dedup_state) (dup : gset (list cell)).
Implicit Types (p : ReclassifiedPoint fieldval).

Lemma convert_point_value m tks pt dup p dup' pt_k v :
  dict_get m tag_keys = Some tks →
  convert_point m pt dup = inr (p, dup') →
  (pt_k, v) ∈ pt_items pt → pt_k ≠ "time" → is_None v = false →
  (∀ pt_k' v', (pt_k', v') ∈ pt_items pt → pt_k' ≠ "time" →
     is_None v' = false → normalize_key m pt_k' = normalize_key m pt_k →
     v' = v) →
  (normalize_key m pt_k ∈ tks
   ∧ tags p !! normalize_key m pt_k = Some (py_str v)
   ∧ fields p !! normalize_key m pt_k = None)
  ∨ ((normalize_key m pt_k ∉ tks)
     ∧ tags p !! normalize_key m pt_k = None
     ∧ ∃ fks ty x, dict_get m field_keys = Some fks
         ∧ dict_get (normalize_key m pt_k) fks = Some ty
         ∧ coerce ty v = Some x
         ∧ fields p !! normalize_key m pt_k = Some x).
Proof.
  intros Htks Hp Hin Ht Hn Huniq.
  apply convert_point_inr in Hp
    as (tks' & st & st' & Htks' & Hc & Hr & _ & Hcl & _).
  assert (tks' = tks) as -> by congruence.
  assert (counted pt_k v = true) as Hcnt.
  { unfold counted. by rewrite Hn, bool_decide_eq_false_2. }
  pose proof (classify_inr _ _ _ _ _ _ _ (normalize_key m pt_k) Hcl) as Hk.
  destruct (last_raw_is_Some m (pt_items pt) pt_k v Hin Hcnt) as [v' Hv'].
  rewrite Hv' in Hk.
  destruct (last_raw_Some _ _ _ _ Hv') as (pt_k' & Hin' & Hcnt' & Hn').
  apply andb_true_iff in Hcnt' as [Ht'%negb_true_iff Hnull'%negb_true_iff].
  apply bool_decide_eq_false in Ht'.
  rewrite (Huniq pt_k' v' Hin' Ht' Hnull' Hn') in Hk.
  case_bool_decide as Htag.
  - left. destruct Hk as [-> ->]. by rewrite lookup_empty.
  - right. destruct Hk as (-> & fks & ty & x & ? & ? & ? & ->).
    split_and!; [done| |by exists fks, ty, x].
    destruct (initial_tags st' !! normalize_key m pt_k) as [s|] eqn:Hs; [|done].
    destruct (initial_tags_lookup _ _ _ _ _ _ _ _ _ Hc Hr Hs) as (Hk & ? & _).
    by rewrite Hk in Htag.
Qed.

(** A point whose candidate key is not yet seen is converted as if it were
    the first point of the measurement. *)
Lemma convert_point_fresh m tks pt dup :
  dict_get m tag_keys = Some tks →
  candidate_key tks pt ∉ dup →
  convert_point m pt dup
  = match convert_point m pt ∅ with
    | inl e => inl e
    | inr (p, _) => inr (p, {[candidate_key tks pt]} ∪ dup)
    end.
Proof.
  intros Htks Hout. unfold convert_point. rewrite Htks.
  destruct (build_series m pt tks _) as [e|st] eqn:Hb; [done|].
  destruct (candidate_inr m pt tks st Hb) as (Hs & _).
  fold (candidate_key tks pt) in Hs.
  rewrite !resolve_fresh by (rewrite Hs; set_solver).
  destruct (classify _ _ _ _ _) as [e|[??]]; [done|]. by rewrite Hs.
Qed.

Lemma convert_loop_fresh m tks pts (cs : conv_state) :
  dict_get m tag_keys = Some tks →
  NoDup (candidate_key tks <$> pts) →
  (∀ pt, pt ∈ pts → candidate_key tks pt ∉ dup_check cs) →
  ∃ ps, all_points (convert_loop m pts cs).1 = all_points cs ++ ps
    ∧ (∀ i p, ps !! i = Some p →
         ∃ pt dup', pts !! i = Some pt ∧ convert_point m pt ∅ = inr (p, dup'))
    ∧ ∀ e, snd (convert_loop m pts cs) = Some e →
        ∃ pt, pt ∈ pts ∧ convert_point m pt ∅ = inl e.
Proof.
  intros Htks. revert cs.
  induction pts as [|pt pts IH]; intros cs Hnd Hout; simpl.
  { exists []. rewrite app_nil_r. split_and!; [done| |done].
    intros i p Hi. by rewrite lookup_nil in Hi. }
  apply NoDup_cons in Hnd as [Hpt Hnd].
  rewrite (convert_point_fresh m tks pt) by (done || apply Hout; by left).
  destruct (convert_point m pt ∅) as [e|[p dup0]] eqn:Hp; simpl.
  { exists []. rewrite app_nil_r. split_and!; [done| |].
    - intros i p Hi. by rewrite lookup_nil in Hi.
    - intros e' [= <-]. exists pt. split; [by left|done]. }
  destruct (all_points_append cs p ({[candidate_key tks pt]} ∪ dup_check cs))
    as [Ha Hd].
  destruct (IH (append_point cs p ({[candidate_key tks pt]} ∪ dup_check cs)))
    as (ps & Hall & Hsteps & Herr); [done| |].
  { intros pt' Hin. rewrite Hd. intros [Heq%elem_of_singleton|Hold]%elem_of_union.
    - apply Hpt. rewrite <- Heq. apply list_elem_of_fmap. by exists pt'.
    - by apply (Hout pt'); [right|]. }
  exists (p :: ps). rewrite Hall, Ha, <- app_assoc. split_and!; [done| |].
  - intros [|i] q Hi; simpl in *.
    + injection Hi as <-. by exists pt, dup0.
    + by apply Hsteps.
  - intros e He. destruct (Herr e He) as (pt' & Hin & Hpe).
    exists pt'. split; [by right|done].
Qed.

Lemma emitted_length m pts :
  snd (convert_measurement m pts) = None →
  length (emitted (convert_measurement m pts)) = length pts.
Proof.
  intros Hnone.
  destruct (convert_loop_count m pts (mkConv [] ∅ [])) as [_ Hlen]; [done|].
  destruct (emitted_measurement m pts) as (rest & Hall & Hrest).
  rewrite (Hrest Hnone), app_nil_r in Hall. rewrite <- Hall.
  rewrite convert_measurement_snd in Hnone. by rewrite (Hlen Hnone).
Qed.

End Preservation.

(** ** Points that collide *)

Section Colliding.
Context {value fieldval : Type} `{!PyValue value fieldval}.
Implicit Types (pt : RawPoint value) (pts : list (RawPoint value)).
Implicit Types (st : dedup_state) (dup : gset (list cell)).
Implicit Types (p : ReclassifiedPoint fieldval).

(** The tags written by the loop over the entries are laid over the
    initial ones. *)
Lemma classify_initial m tks (items : list (string * value))
    (tags0 : gmap string string) (fields0 : gmap string fieldval) :
  classify m tks items tags0 fields0
  = match classify m tks items ∅ fields0 with
    | inl e => inl e
    | inr (tags1, fields1) => inr (tags1 ∪ tags0, fields1)
    end.
Proof.
  revert tags0 fields0.
  induction items as [|[pt_k v] items IH]; intros tags0 fields0; simpl.
  { by rewrite (left_id_L ∅ (∪)). }
  destruct (bool_decide (pt_k = "time")); [apply IH|].
  destruct (is_None v); [apply IH|].
  destruct (bool_decide (normalize_key m pt_k ∈ tks)).
  - rewrite (IH (<[normalize_key m pt_k := py_str v]> tags0)).
    rewrite (IH (<[normalize_key m pt_k := py_str v]> ∅)).
    destruct (classify m tks items ∅ fields0) as [e|[tags1 fields1]]; [done|].
    do 2 f_equal. rewrite <- (assoc_L (∪)). f_equal.
    by rewrite <- insert_union_l, (left_id_L ∅ (∪)).
  - destruct (dict_get m field_keys) as [fks|]; [|done].
    destruct (dict_get (normalize_key m pt_k) fks) as [ty|]; [|done].
    destruct (coerce ty v) as [x|]; [|done]. apply IH.
Qed.

Lemma first_keys_fresh key k dup d :
  Inj (=) (=) key → first_keys key k dup →
  key d ∉ dup → (∀ j, j < d → key j ∈ dup) → d = k.
Proof.
  intros Hinj Hdup Hout Hbelow.
  destruct (decide (d < k)) as [Hlt|Hge].
  { destruct Hout. apply Hdup. by exists d. }
  destruct (decide (k < d)) as [Hgt|?]; [|lia].
  apply Hbelow, Hdup in Hgt as (j & Hj & Heq). apply Hinj in Heq. lia.
Qed.

Lemma first_keys_S key k dup :
  first_keys key k dup → first_keys key (S k) ({[key k]} ∪ dup).
Proof.
  intros Hdup x. rewrite elem_of_union, elem_of_singleton, (Hdup x). split.
  - intros [->|(j & Hj & ->)]; [exists k|exists j]; split; (lia || done).
  - intros (j & Hj & ->). destruct (decide (j = k)) as [->|Hne]; [by left|].
    right. exists j. split; [lia|done].
Qed.

(** A loop over points that all walk the same enumeration of keys. *)
Lemma convert_loop_enumerated m pts key
    (out : nat → ReclassifiedPoint fieldval → ReclassifiedPoint fieldval)
    (cs : conv_state) k :
  (∀ pt dup k, pt ∈ pts → first_keys key k dup →
     convert_point m pt dup
     = match convert_point m pt ∅ with
       | inl e => inl e
       | inr (p0, _) => inr (out k p0, {[key k]} ∪ dup)
       end) →
  first_keys key k (dup_check cs) →
  ∃ ps, all_points (convert_loop m pts cs).1 = all_points cs ++ ps
    ∧ (∀ i p, ps !! i = Some p →
         ∃ pt p0 dup0, pts !! i = Some pt
           ∧ convert_point m pt ∅ = inr (p0, dup0) ∧ p = out (k + i) p0)
    ∧ ∀ e, snd (convert_loop m pts cs) = Some e →
        ∃ pt, pt ∈ pts ∧ convert_point m pt ∅ = inl e.
Proof.
  revert cs k. induction pts as [|pt pts IH]; intros cs k Hstep Hdup; simpl.
  { exists []. rewrite app_nil_r. split_and!; [done| |done].
    intros i p Hi. by rewrite lookup_nil in Hi. }
  rewrite (Hstep pt (dup_check cs) k) by (done || by left).
  destruct (convert_point m pt ∅) as [e|[p0 dup0]] eqn:Hp; simpl.
  { exists []. rewrite app_nil_r. split_and!; [done| |].
    - intros i p Hi. by rewrite lookup_nil in Hi.
    - intros e' [= <-]. exists pt. split; [by left|done]. }
  destruct (all_points_append cs (out k p0) ({[key k]} ∪ dup_check cs))
    as [Ha Hd].
  destruct (IH (append_point cs (out k p0) ({[key k]} ∪ dup_check cs)) (S k))
    as (ps & Hall & Hsteps & Herr).
  { intros pt' dup' k' Hin. apply Hstep. by right. }
  { rewrite Hd. by apply first_keys_S. }
  exists (out k p0 :: ps). rewrite Hall, Ha, <- app_assoc. split_and!; [done| |].
  - intros [|i] q Hi; simpl in *.
    + injection Hi as <-. exists pt, p0, dup0. by rewrite Nat.add_0_r.
    + destruct (Hsteps i q Hi) as (pt' & p' & dup' & ? & ? & ->).
      exists pt', p', dup'. split_and!; [done..|]. f_equal. lia.
  - intros e He. destruct (Herr e He) as (pt' & Hin & Hpe).
    exists pt'. split; [by right|done].
Qed.

(** In the three restricted measurements, a point without [server_id] and
    without a non-null [server_id_1], whose key is taken for the synthetic
    values 1 to [k], is written with the synthetic value [k + 1], at its own
    time and with the other tags and the fields it has on its own. *)
Lemma convert_point_numbered m tks pt dup k idx :
  dict_get m tag_keys = Some tks →
  (∃ st, candidate m pt tks = inr st ∧ fake st = Some (1%Z, idx)) →
  last_raw m "server_id" (pt_items pt) = None →
  first_keys
    (λ j, fake_key (candidate_key tks pt) idx (1 + Z.of_nat j)) k dup →
  convert_point m pt dup
  = match convert_point m pt ∅ with
    | inl e => inl e
    | inr (p0, _) =>
        inr (mkPoint m (pt_time pt)
               (<["server_id" := pretty (1 + Z.of_nat k)%Z]> (tags p0))
               (fields p0),
             {[fake_key (candidate_key tks pt) idx (1 + Z.of_nat k)]} ∪ dup)
    end.
Proof.
  intros Htks (st & Hc & Hfake) Hlast Hdup. unfold convert_point. rewrite Htks.
  pose proof (candidate_wf _ _ _ _ Hc) as Hwf.
  destruct (candidate_inr m pt tks st Hc) as (Hs & _).
  fold (candidate_key tks pt) in Hs.
  unfold candidate in Hc. rewrite Hc.
  rewrite (resolve_fresh _ m ∅ st) by set_solver.
  destruct (resolve_fake m dup st _ _ Hwf Hfake) as (d & Hd & Hr & Hout & Hbelow).
  rewrite Hr by lia. rewrite Hs in *.
  assert (d = k) as ->.
  { eapply (first_keys_fresh _ _ dup d); [|exact Hdup|exact Hout|exact Hbelow].
    intros a b Hab. destruct Hwf as [_ Hwf]. rewrite Hfake, Hs in Hwf.
    apply fake_key_inj in Hab; [lia|]. by destruct Hwf as [[_ ?] _]. }
  unfold initial_tags. simpl. rewrite Hfake.
  rewrite (classify_initial _ _ _ {["server_id" := pretty (1 + Z.of_nat k)%Z]}).
  rewrite (classify_initial _ _ _ {["server_id" := pretty 1%Z]}).
  destruct (classify m tks (pt_items pt) ∅ ∅) as [e|[tags1 fields1]] eqn:Hcl;
    [done|].
  pose proof (classify_inr _ _ _ _ _ _ _ "server_id" Hcl) as Hsid.
  rewrite Hlast, lookup_empty in Hsid. destruct Hsid as [Hsid _].
  simpl. do 2 f_equal.
  - f_equal.
    + unfold candidate_key, fake_key. destruct Hwf as [_ Hwf].
      rewrite Hfake, Hs in Hwf. destruct Hwf as [[Hpos _] _].
      unfold candidate_key. destruct idx; [lia|done].
    + apply map_eq. intros key.
      destruct (decide (key = "server_id")) as [->|Hne].
      * rewrite lookup_insert_eq, lookup_union_r by done.
        by rewrite lookup_singleton_eq.
      * rewrite lookup_insert_ne by done.
        rewrite !lookup_union, !lookup_singleton_ne by done. done.
Qed.

End Colliding.

(** The [i]-th point written by a run, failed or not, is the conversion of
    the [i]-th raw point against exactly [i] previously seen keys: points
    are written in input order, none twice and none out of turn; and a run
    without error writes a point for every raw point. *)
Theorem emitted_point_provenance {value fieldval} `{!PyValue value fieldval}
    m (pts : list (RawPoint value)) :
  (∀ i (p : ReclassifiedPoint fieldval),
     emitted (convert_measurement m pts) !! i = Some p →
     ∃ pt dup dup', pts !! i = Some pt ∧ size dup = i
       ∧ convert_point m pt dup = inr (p, dup'))
  ∧ length (emitted (convert_measurement m pts)) ≤ length pts
  ∧ (snd (convert_measurement m pts) = None →
     ∀ i pt, pts !! i = Some pt →
       is_Some (emitted (convert_measurement m pts) !! i)).
Proof.
  assert (length (emitted (convert_measurement m pts)) ≤ length pts) as Hle.
  { destruct (decide (length (emitted (convert_measurement m pts)) ≤ length pts))
      as [|Hgt]; [done|].
    destruct (lookup_lt_is_Some_2 (emitted (convert_measurement m pts)) (length pts))
      as [p Hp]; [lia|].
    destruct (emitted_steps m pts _ p Hp) as (pt & _ & _ & Hpt & _).
    apply lookup_lt_Some in Hpt. lia. }
  split_and!; [apply emitted_steps|done|].
  intros Hnone i pt Hpt. apply lookup_lt_is_Some_2.
  rewrite (emitted_length m pts Hnone). by eapply lookup_lt_Some.
Qed.

(** Every written point carries the timestamp of its raw point: the code
    never changes a timestamp, for any measurement. *)
Theorem timestamp_never_shifted {value fieldval} `{!PyValue value fieldval}
    m (pts : list (RawPoint value)) i pt (p : ReclassifiedPoint fieldval) :
  pts !! i = Some pt →
  emitted (convert_measurement m pts) !! i = Some p →
  time p = pt_time pt.
Proof.
  intros Hpt Hp.
  destruct (emitted_steps m pts i p Hp) as (pt' & dup & dup' & Hpt' & _ & Hconv).
  assert (pt' = pt) as -> by congruence.
  by apply convert_point_time in Hconv.
Qed.

(** Every written point conforms to the schema tables: it carries the
    measurement's name, its tag keys are declared tag keys, and each of its
    fields is a declared field key, not a tag key, whose value is the
    declared type's conversion of a non-null entry of the raw point filed
    under that key. *)
Theorem emitted_points_conform {value fieldval} `{!PyValue value fieldval}
    m tks (pts : list (RawPoint value)) i (p : ReclassifiedPoint fieldval) :
  dict_get m tag_keys = Some tks →
  emitted (convert_measurement m pts) !! i = Some p →
  measurement p = m
  ∧ (∀ k s, tags p !! k = Some s → k ∈ tks)
  ∧ ∀ k x, fields p !! k = Some x →
      (k ∉ tks)
      ∧ ∃ pt fks ty pt_k v,
          pts !! i = Some pt
          ∧ dict_get m field_keys = Some fks ∧ dict_get k fks = Some ty
          ∧ (pt_k, v) ∈ pt_items pt ∧ pt_k ≠ "time" ∧ is_None v = false
          ∧ normalize_key m pt_k = k ∧ coerce ty v = Some x.
Proof.
  intros Htks Hp.
  destruct (emitted_steps m pts i p Hp) as (pt & dup & dup' & Hpt & _ & Hconv).
  destruct (convert_point_conforms _ _ _ _ _ _ Htks Hconv) as (Hm & Htags & Hfields).
  split_and!; [done..|]. intros k x Hk.
  destruct (Hfields k x Hk) as (Hnot & fks & ty & pt_k & v & ?).
  split; [done|]. by exists pt, fks, ty, pt_k, v.
Qed.

(** A non-null entry of a raw point whose normalised key is shared by no
    other non-null entry with a different value is written with its value:
    as a tag, the value's string form; as a field, the value converted to
    the declared type; and in exactly one of the two. *)
Theorem raw_value_preserved {value fieldval} `{!PyValue value fieldval}
    m tks (pts : list (RawPoint value)) i pt (p : ReclassifiedPoint fieldval)
    pt_k v :
  dict_get m tag_keys = Some tks →
  pts !! i = Some pt →
  emitted (convert_measurement m pts) !! i = Some p →
  (pt_k, v) ∈ pt_items pt → pt_k ≠ "time" → is_None v = false →
  (∀ pt_k' v', (pt_k', v') ∈ pt_items pt → pt_k' ≠ "time" →
     is_None v' = false → normalize_key m pt_k' = normalize_key m pt_k →
     v' = v) →
  (normalize_key m pt_k ∈ tks
   ∧ tags p !! normalize_key m pt_k = Some (py_str v)
   ∧ fields p !! normalize_key m pt_k = None)
  ∨ ((normalize_key m pt_k ∉ tks)
     ∧ tags p !! normalize_key m pt_k = None
     ∧ ∃ fks ty x, dict_get m field_keys = Some fks
         ∧ dict_get (normalize_key m pt_k) fks = Some ty
         ∧ coerce ty v = Some x
         ∧ fields p !! normalize_key m pt_k = Some x).
Proof.
  intros Htks Hpt Hp Hin Ht Hn Huniq.
  destruct (emitted_steps m pts i p Hp) as (pt' & dup & dup' & Hpt' & _ & Hconv).
  assert (pt' = pt) as -> by congruence.
  by eapply convert_point_value.
Qed.

(** When the candidate keys of the raw points (time and declared tag
    values, [1] for an absent [server_id]) are pairwise distinct, no point
    is adjusted: each written point is what its raw point converts to on
    its own, with the raw timestamp; and if the run fails, it fails with an
    error that some raw point raises on its own. *)
Theorem distinct_input_untouched {value fieldval} `{!PyValue value fieldval}
    m tks (pts : list (RawPoint value)) :
  dict_get m tag_keys = Some tks →
  NoDup (candidate_key tks <$> pts) →
  (∀ i (p : ReclassifiedPoint fieldval),
     emitted (convert_measurement m pts) !! i = Some p →
     ∃ pt dup', pts !! i = Some pt ∧ convert_point m pt ∅ = inr (p, dup')
       ∧ time p = pt_time pt)
  ∧ ∀ e, snd (convert_measurement m pts) = Some e →
      ∃ pt, pt ∈ pts ∧ convert_point m pt ∅ = inl e.
Proof.
  intros Htks Hnd.
  destruct (convert_loop_fresh m tks pts (mkConv [] ∅ []) Htks Hnd)
    as (ps & Hall & Hsteps & Herr).
  { intros pt _. simpl. set_solver. }
  destruct (emitted_measurement m pts) as (rest & Hem & _).
  rewrite Hem in Hall. change (all_points (mkConv [] ∅ [])) with
    (@nil (ReclassifiedPoint fieldval)) in Hall. simpl in Hall. subst ps.
  split.
  - intros i p Hp.
    destruct (Hsteps i p) as (pt & dup' & Hpt & Hconv).
    { by apply lookup_app_l_Some. }
    exists pt, dup'. split_and!; [done..|].
    by apply convert_point_time in Hconv.
  - intros e He. rewrite convert_measurement_snd in He. by apply Herr.
Qed.

(** In [client_buffer], [video_sent] and [video_acked]: when all raw points
    have the same time and channel, no [server_id] and no [server_id_1],
    the [i]-th point is written at that time with the synthetic
    [server_id] [i + 1], and otherwise with the tags and fields it has when
    converted on its own; and if the run fails, it fails with an error that
    some raw point raises on its own. *)
Theorem colliding_points_numbered {value fieldval} `{!PyValue value fieldval}
    m tks (pts : list (RawPoint value)) s :
  m ∈ ["client_buffer"; "video_sent"; "video_acked"] →
  dict_get m tag_keys = Some tks →
  (∀ pt, pt ∈ pts →
     candidate_key tks pt = s
     ∧ dict_get "server_id" (pt_items pt) = None
     ∧ dict_get "server_id_1" (pt_items pt) = None) →
  (∀ i (p : ReclassifiedPoint fieldval),
     emitted (convert_measurement m pts) !! i = Some p →
     ∃ pt p0 dup0, pts !! i = Some pt
       ∧ convert_point m pt ∅ = inr (p0, dup0)
       ∧ p = mkPoint m (pt_time pt)
               (<["server_id" := pretty (1 + Z.of_nat i)%Z]> (tags p0))
               (fields p0))
  ∧ ∀ e, snd (convert_measurement m pts) = Some e →
      ∃ pt, pt ∈ pts ∧ convert_point m pt ∅ = inl e.
Proof.
  intros Hm Htks Hkey.
  assert (tks = ["channel"; "server_id"]) as ->.
  { in_list Hm; vm_compute in Htks; congruence. }
  destruct (convert_loop_enumerated m pts
              (λ j, fake_key s 2 (1 + Z.of_nat j))
              (λ k p0, mkPoint m (time p0)
                 (<["server_id" := pretty (1 + Z.of_nat k)%Z]> (tags p0))
                 (fields p0))
              (mkConv [] ∅ []) 0) as (ps & Hall & Hsteps & Herr).
  { intros pt dup k Hin Hdup. destruct (Hkey pt Hin) as (Hs & Hsid & Hsid1).
    destruct (candidate m pt ["channel"; "server_id"]) as [e|st] eqn:Hc.
    { by rewrite !(convert_point_candidate_inl _ _ _ _ _ Htks Hc). }
    destruct (candidate_inr _ _ _ _ Hc) as (_ & _ & Hfk).
    assert (fake st = Some (1%Z, 2)) as Hfake.
    { destruct (fake st) as [[f idx]|].
      - destruct Hfk as (-> & _ & _ & j & -> & Hj).
        destruct j as [|[|j]]; [done|done|]. by destruct j.
      - destruct (Hfk "server_id") as [v Hv]; [by right; left|]. congruence. }
    rewrite (convert_point_numbered m _ pt dup k 2 Htks).
    - destruct (convert_point m pt ∅) as [e|[p0 dup0]] eqn:Hp; [done|].
      apply convert_point_time in Hp. rewrite Hs. do 3 f_equal. done.
    - by exists st.
    - by apply last_raw_absent.
    - by rewrite Hs. }
  { intros x. simpl. split; [set_solver|]. intros (j & Hj & _). lia. }
  destruct (emitted_measurement m pts) as (rest & Hem & _).
  rewrite Hem in Hall. change (all_points (mkConv [] ∅ [])) with
    (@nil (ReclassifiedPoint fieldval)) in Hall. simpl in Hall. subst ps.
  split.
  - intros i p Hp.
    destruct (Hsteps i p) as (pt & p0 & dup0 & Hpt & Hconv & ->).
    { by apply lookup_app_l_Some. }
    exists pt, p0, dup0. split_and!; [done..|].
    apply convert_point_time in Hconv. f_equal. done.
  - intros e He. rewrite convert_measurement_snd in He. by apply Herr.
Qed.

(** ** Failed runs *)

Section Failure.
Context {value fieldval : Type} `{!PyValue value fieldval}.
Implicit Types (pt : RawPoint value) (pts : list (RawPoint value)).
Implicit Types (st : dedup_state) (dup : gset (list cell)).
Implicit Types (p : ReclassifiedPoint fieldval).

(** A failed loop stopped at the first point that the body rejects. *)
Lemma convert_loop_failure m pts (cs cs' : conv_state) e :
  convert_loop m pts cs = (cs', Some e) →
  ∃ pts1 pt pts2, pts = pts1 ++ pt :: pts2
    ∧ convert_loop m pts1 cs = (cs', None)
    ∧ convert_point m pt (dup_check cs') = inl e.
Proof.
  revert cs. induction pts as [|pt pts IH]; intros cs; simpl; [done|].
  destruct (convert_point m pt (dup_check cs)) as [e'|[p dup']] eqn:Hp.
  - intros [= <- <-]. by exists [], pt, pts.
  - intros (pts1 & pt' & pts2 & -> & Hl & Hpt)%IH.
    exists (pt :: pts1), pt', pts2. simpl. by rewrite Hp.
Qed.

Lemma length_concat_full {A} (n : nat) (l : list (list A)) :
  Forall (λ b, length b = n) l → length (concat l) = n * length l.
Proof.
  induction 1 as [|b l Hb _ IH]; simpl; [lia|]. rewrite length_app, IH, Hb. lia.
Qed.

End Failure.

(** The schema tables fit together: they declare the same measurements;
    within a measurement no key is declared twice, or both as a tag and as a
    field; and every declared key is its own normalised form and is not
    [time], so that a raw entry can be filed under it. *)
Theorem schema_tables_consistent m :
  (is_Some (dict_get m tag_keys) ↔ is_Some (dict_get m field_keys))
  ∧ ∀ tks fks,
      dict_get m tag_keys = Some tks → dict_get m field_keys = Some fks →
      NoDup tks ∧ NoDup fks.*1
      ∧ (∀ k, k ∈ tks → dict_get k fks = None)
      ∧ ∀ k, k ∈ tks ∨ is_Some (dict_get k fks) →
          k ≠ "time" ∧ normalize_key m k = k.
Proof.
  unfold tag_keys, field_keys. rewrite !dict_get_cons.
  repeat (destruct (decide (m = _)) as [->|?];
    [split; [split; intros _; by eexists|];
     intros tks fks [= <-] [= <-]; split_and!;
     [repeat (apply NoDup_cons; split; [intros Hin; in_list Hin|]);
      apply NoDup_nil_2
     |simpl; repeat (apply NoDup_cons; split; [intros Hin; in_list Hin|]);
      apply NoDup_nil_2
     |intros k Hk; in_list Hk; reflexivity
     |intros k [Hk|[ty Hk]];
      [in_list Hk; (split; [discriminate|reflexivity])
      |apply dict_get_Some in Hk; in_list Hk;
       (split; [discriminate|reflexivity])]]|]).
  split; [split; intros [? [=]]|]. intros tks fks [=].
Qed.

Section Errors.
Context {value fieldval : Type} `{!PyValue value fieldval}.
Implicit Types (pt : RawPoint value) (pts : list (RawPoint value)).
Implicit Types (dup : gset (list cell)).



(** Outside the restricted measurements the keys seen are the candidate
    keys of the points converted. *)
Lemma convert_loop_unrestricted m tks pts (cs cs' : conv_state) :
  restricted m = false → dict_get m tag_keys = Some tks →
  convert_loop m pts cs = (cs', None) →
  ∀ key, key ∈ dup_check cs'
         ↔ key ∈ dup_check cs ∨ key ∈ candidate_key tks <$> pts.
Proof.
  intros Hm Htks. revert cs.
  induction pts as [|pt pts IH]; intros cs; simpl.
  { intros [= <-] key. split; [by left|]. by intros [?|?%elem_of_nil]. }
  destruct (convert_point m pt (dup_check cs)) as [e|[p dup']] eqn:Hp; [done|].
  destruct (convert_point_unrestricted _ _ _ _ _ _ Hm Htks Hp) as [_ ->].
  intros Hl key. rewrite (IH _ Hl).
  rewrite (proj2 (all_points_append cs p _)).
  rewrite elem_of_union, elem_of_singleton, elem_of_cons. tauto.
Qed.

(** Fewer than 1000 points fill no batch. *)
Lemma written_nil m pts (cs' : conv_state) :
  convert_loop m pts (mkConv [] ∅ []) = (cs', None) →
  length pts < 1000 → written cs' = [].
Proof.
  intros Hl Hlt.
  destruct (convert_loop_batches m pts (mkConv [] ∅ [])) as [Hfull _];
    [by apply Forall_nil|simpl; lia|].
  destruct (convert_loop_count m pts (mkConv [] ∅ [])) as [_ Hlen]; [done|].
  rewrite Hl in Hfull, Hlen. cbn [fst snd] in *.
  specialize (Hlen eq_refl). unfold all_points in Hlen.
  rewrite length_app, (length_concat_full 1000) in Hlen by done.
  cbn [length Nat.add json_body written concat app] in Hlen.
  apply nil_length_inv. lia.
Qed.

End Errors.


(** A failed run has written the full batches of the points before the
    failing one and nothing else: with [n] points converted before the
    failure, the first [1000 * (n / 1000)] are written and the remaining
    [n mod 1000] are lost with the pending batch. *)
Theorem failed_run_keeps_full_batches {value fieldval}
    `{!PyValue value fieldval} m (pts : list (RawPoint value)) e :
  snd (convert_measurement (fieldval := fieldval) m pts) = Some e →
  ∃ pts1 pt pts2, pts = pts1 ++ pt :: pts2
    ∧ snd (convert_measurement (fieldval := fieldval) m pts1) = None
    ∧ (∃ dup, size dup = length pts1
         ∧ convert_point (fieldval := fieldval) m pt dup = inl e)
    ∧ emitted (convert_measurement (fieldval := fieldval) m pts)
      = take (1000 * (length pts1 / 1000))
          (emitted (convert_measurement m pts1)).
Proof.
  intros He. rewrite convert_measurement_snd in He.
  destruct (convert_loop m pts (mkConv [] ∅ [])) as [cs' [e'|]] eqn:Hl; [|done].
  simpl in He. injection He as ->.
  destruct (convert_loop_failure _ _ _ _ _ Hl) as (pts1 & pt & pts2 & -> & Hl1 & Hpt).
  exists pts1, pt, pts2. split; [done|].
  destruct (convert_loop_batches m pts1 (mkConv [] ∅ [])) as [Hfull Hpend];
    [by apply Forall_nil|simpl; lia|].
  destruct (convert_loop_count m pts1 (mkConv [] ∅ [])) as [Hsz Hlen]; [done|].
  rewrite Hl1 in Hfull, Hpend, Hsz, Hlen. cbn [fst snd] in *.
  specialize (Hlen eq_refl). unfold all_points in Hlen, Hsz.
  rewrite length_app, (length_concat_full 1000) in Hlen, Hsz by done.
  cbn [length Nat.add json_body written concat app] in Hlen.
  assert (length pts1 / 1000 = length (written cs')) as Hdiv.
  { symmetry. apply (Nat.div_unique _ _ _ (length (json_body cs'))); lia. }
  split_and!.
  - by rewrite convert_measurement_snd, Hl1.
  - exists (dup_check cs'). split; [lia|done].
  - rewrite Hdiv. unfold emitted, convert_measurement. rewrite Hl, Hl1.
    cbn [fst snd].
    assert (concat (if bool_decide (json_body cs' ≠ [])
                    then (written cs' ++ [json_body cs'], None)
                    else (written cs', @None error)).1
            = concat (written cs') ++ json_body cs') as ->.
    { case_bool_decide as Hj; cbn [fst].
      - by rewrite concat_app; cbn [concat]; rewrite app_nil_r.
      - by rewrite Hj, app_nil_r. }
    rewrite take_app_length'; [done|]. by rewrite (length_concat_full 1000).
Qed.

Section Seen.
Context {value fieldval : Type} `{!PyValue value fieldval}.
Implicit Types (pt : RawPoint value) (dup : gset (list cell)).

(** A point of a restricted measurement with all its tag keys present is
    rejected when its key was seen. *)
Lemma convert_point_seen m tks pt dup :
  restricted m = true → dict_get m tag_keys = Some tks →
  (∀ k, k ∈ tks → is_Some (dict_get k (pt_items pt))) →
  candidate_key tks pt ∈ dup →
  convert_point (fieldval := fieldval) m pt dup = inl (UnresolvableCollision m).
Proof.
  intros Hm Htks Hall Hin.
  destruct (candidate m pt tks) as [e|st] eqn:Hc.
  { unfold candidate in Hc.
    destruct (build_series_inl _ _ _ _ _ Hc) as (k & _ & Hk & Hget & _).
    destruct (Hall k Hk) as [v Hv]. congruence. }
  destruct (candidate_inr _ _ _ _ Hc) as (Hs & _ & Hfk).
  destruct (fake st) as [[f idx]|] eqn:Hfake.
  { destruct Hfk as (_ & _ & Hget & j & _ & Hj).
    destruct (Hall "server_id" (list_elem_of_lookup_2 _ _ _ Hj)) as [v Hv].
    congruence. }
  destruct (convert_point_resolved m pt dup tks st Htks Hc) as (r & Hr & ->).
  rewrite resolve_restricted in Hr by done.
  rewrite decide_True in Hr by by rewrite Hs. by injection Hr as <-.
Qed.

(** The synthetic slot of a restricted measurement: slot 2 of the key. *)
Lemma candidate_synthetic m pt st :
  restricted m = true →
  dict_get "server_id" (pt_items pt) = None →
  candidate m pt ["channel"; "server_id"] = inr st →
  fake st = Some (1%Z, 2)
  ∧ series st = candidate_key ["channel"; "server_id"] pt
  ∧ fake_key (series st) 2 1 = series st.
Proof.
  intros Hm Hsid Hc.
  pose proof (candidate_wf _ _ _ _ Hc) as [_ Hwf].
  destruct (candidate_inr _ _ _ _ Hc) as (Hs & _ & Hfk).
  assert (fake st = Some (1%Z, 2)) as Hfake.
  { destruct (fake st) as [[f idx]|].
    - destruct Hfk as (-> & _ & _ & j & -> & Hj).
      destruct j as [|[|j]]; [done|done|]. by destruct j.
    - destruct (Hfk "server_id") as [v Hv]; [by right; left|]. congruence. }
  split_and!; [done..|]. rewrite Hfake in Hwf. destruct Hwf as [_ Hslot].
  unfold fake_key. by apply list_insert_id.
Qed.

(** A point of another measurement is rejected at line 129 when its key
    was seen. *)
Lemma convert_point_seen_unrestricted m tks pt dup :
  restricted m = false → dict_get m tag_keys = Some tks →
  (∀ k, k ∈ tks → is_Some (dict_get k (pt_items pt))) →
  candidate_key tks pt ∈ dup →
  convert_point (fieldval := fieldval) m pt dup = inl InvalidTimedeltaUnit.
Proof.
  intros Hm Htks Hall Hin.
  destruct (candidate m pt tks) as [e|st] eqn:Hc.
  { unfold candidate in Hc.
    destruct (build_series_inl _ _ _ _ _ Hc) as (k & _ & Hk & Hget & _).
    destruct (Hall k Hk) as [v Hv]. congruence. }
  destruct (candidate_inr _ _ _ _ Hc) as (Hs & _ & Hfk).
  destruct (fake st) as [[f idx]|] eqn:Hfake.
  { destruct Hfk as (_ & ? & _). congruence. }
  destruct (convert_point_resolved m pt dup tks st Htks Hc) as (r & Hr & ->).
  rewrite resolve_unrestricted in Hr by done.
  rewrite decide_True in Hr by by rewrite Hs. by injection Hr as <-.
Qed.

End Seen.

(** Outside [client_buffer], [video_sent] and [video_acked], a second point
    with the time and the declared tag values of an earlier one ends the
    run: when the points before it are converted without error, the run
    fails at that point with the [TypeError] of line 129, and when fewer
    than 1000 points came before it, nothing at all is written. *)
Theorem seen_key_raises {value fieldval} `{!PyValue value fieldval}
    m tks (pts1 : list (RawPoint value)) pt pts2 :
  m ∉ ["client_buffer"; "video_sent"; "video_acked"] →
  dict_get m tag_keys = Some tks →
  snd (convert_measurement (fieldval := fieldval) m pts1) = None →
  (∀ k, k ∈ tks → is_Some (dict_get k (pt_items pt))) →
  candidate_key tks pt ∈ candidate_key tks <$> pts1 →
  snd (convert_measurement (fieldval := fieldval) m (pts1 ++ pt :: pts2))
  = Some InvalidTimedeltaUnit
  ∧ (length pts1 < 1000 →
     convert_measurement (fieldval := fieldval) m (pts1 ++ pt :: pts2)
     = ([], Some InvalidTimedeltaUnit)).
Proof.
  intros Hm Htks Hnone Hall Hin.
  assert (restricted m = false) as Hr.
  { destruct (restricted m) eqn:Hr; [|done]. by apply restricted_true in Hr. }
  rewrite convert_measurement_snd in Hnone.
  destruct (convert_loop m pts1 (mkConv [] ∅ [])) as [cs1 [e|]] eqn:Hl1; [done|].
  assert (convert_loop m (pts1 ++ pt :: pts2) (mkConv [] ∅ [])
          = (cs1, Some InvalidTimedeltaUnit)) as Hl.
  { rewrite convert_loop_app, Hl1. cbn [convert_loop].
    rewrite (convert_point_seen_unrestricted m tks pt _ Hr Htks Hall); [done|].
    apply (convert_loop_unrestricted m tks pts1 _ _ Hr Htks Hl1). by right. }
  split.
  - by rewrite convert_measurement_snd, Hl.
  - intros Hlt. unfold convert_measurement. rewrite Hl.
    by rewrite (written_nil m pts1 cs1 Hl1 Hlt).
Qed.

(** In [client_buffer], [video_sent] and [video_acked], the synthetic
    [server_id] of a point can take the place of a genuine one.  Let [pt1]
    lack [server_id] and [pt2] carry the [server_id] 1 at the same time and
    channel.  Then the run on [pt1; pt2] fails at [pt2] with nothing written,
    while the run on [pt2; pt1] writes both points, [pt1] with [server_id]
    2. *)
Theorem synthetic_id_order_dependence {value fieldval} `{!PyValue value fieldval}
    m tks (pt1 pt2 : RawPoint value) (p1 p2 : ReclassifiedPoint fieldval)
    dup1 dup2 :
  m ∈ ["client_buffer"; "video_sent"; "video_acked"] →
  dict_get m tag_keys = Some tks →
  dict_get "server_id" (pt_items pt1) = None →
  dict_get "server_id_1" (pt_items pt1) = None →
  (∀ k, k ∈ tks → is_Some (dict_get k (pt_items pt2))) →
  candidate_key tks pt1 = candidate_key tks pt2 →
  convert_point m pt1 ∅ = inr (p1, dup1) →
  convert_point m pt2 ∅ = inr (p2, dup2) →
  convert_measurement m [pt1; pt2] = ([], Some (UnresolvableCollision m))
  ∧ convert_measurement m [pt2; pt1]
    = ([[p2; mkPoint m (pt_time pt1) (<["server_id" := "2"]> (tags p1))
               (fields p1)]], None).
Proof.
  intros Hm%restricted_true Htks Hsid Hsid1 Hall Hkey Hp1 Hp2.
  assert (tks = ["channel"; "server_id"]) as ->.
  { apply restricted_true in Hm. in_list Hm; vm_compute in Htks; congruence. }
  assert (candidate_key ["channel"; "server_id"] pt1 ∉ (∅ : gset (list cell)))
    as Hfresh1 by set_solver.
  assert (candidate_key ["channel"; "server_id"] pt2 ∉ (∅ : gset (list cell)))
    as Hfresh2 by set_solver.
  pose proof (convert_point_fresh m _ pt1 ∅ Htks Hfresh1) as Hd1.
  pose proof (convert_point_fresh m _ pt2 ∅ Htks Hfresh2) as Hd2.
  rewrite Hp1 in Hd1. rewrite Hp2 in Hd2.
  injection Hd1 as ->. injection Hd2 as ->.
  assert (∀ (p : ReclassifiedPoint fieldval) dup',
            append_point (mkConv [] ∅ []) p dup' = mkConv [p] dup' []) as Hone'.
  { intros p dup'. unfold append_point. by rewrite bool_decide_eq_false_2
      by (cbn [json_body app length]; lia). }
  assert (∀ (p q : ReclassifiedPoint fieldval) dup dup',
            append_point (mkConv [p] dup []) q dup' = mkConv [p; q] dup' [])
    as Htwo.
  { intros p q dup dup'. unfold append_point. by rewrite bool_decide_eq_false_2
      by (cbn [json_body app length]; lia). }
  split.
  - unfold convert_measurement. cbn [convert_loop dup_check].
    rewrite Hp1, Hone'. cbn [dup_check].
    rewrite (convert_point_seen m _ pt2 _ Hm Htks Hall); [done|].
    rewrite <- Hkey. set_solver.
  - destruct (candidate m pt1 ["channel"; "server_id"]) as [e|st] eqn:Hc.
    { by rewrite (convert_point_candidate_inl _ _ _ _ _ Htks Hc) in Hp1. }
    destruct (candidate_synthetic m pt1 st Hm Hsid Hc) as (Hfake & Hs & Hone).
    unfold convert_measurement. cbn [convert_loop dup_check].
    rewrite Hp2, Hone'. cbn [dup_check].
    rewrite (convert_point_numbered m _ pt1 _ 1 2 Htks).
    + rewrite Hp1, Htwo. cbn [json_body written].
      by rewrite bool_decide_eq_true_2.
    + by exists st.
    + by apply last_raw_absent.
    + intros x. rewrite <- Hkey, <- Hs. split.
      * intros [->%elem_of_singleton|[]%elem_of_empty]%elem_of_union.
        exists 0. split; [lia|].
        change (1 + Z.of_nat 0)%Z with 1%Z. by rewrite Hone.
      * intros (j & Hj & ->). assert (j = 0) as -> by lia.
        change (1 + Z.of_nat 0)%Z with 1%Z. rewrite Hone.
        apply elem_of_union_l. by apply elem_of_singleton.
Qed.

(** ** The driver *)

Lemma downloads_app {fieldval} (a b : list (event fieldval)) :
  downloads (a ++ b) = downloads a ++ downloads b.
Proof. apply omap_app. Qed.

Lemma uploads_app {fieldval} (a b : list (event fieldval)) :
  uploads (a ++ b) = uploads a ++ uploads b.
Proof. apply omap_app. Qed.

Lemma points_written_app {fieldval} (a b : list (event fieldval)) :
  points_written (a ++ b) = points_written a + points_written b.
Proof. apply sum_list_with_app. Qed.

Section DriverFacts.
Context {value fieldval : Type} `{!PyValue value fieldval}.
Variable w : world value fieldval.
Variable strptime : string → string → option Z.
Variable strftime : Z → string → string.
Implicit Types (tr evs : list (event fieldval)).

Lemma points_read_app tr a b :
  points_read w tr (a ++ b) = points_read w tr a + points_read w (tr ++ a) b.
Proof.
  revert tr. induction a as [|ev a IH]; intros tr; simpl.
  { by rewrite app_nil_r. }
  rewrite IH, <- app_assoc. simpl. lia.
Qed.

(** Running a computation step by step. *)
Lemma runs_ret {A} (a : A) tr P : P [] (inr a) → runs (io_ret a) tr P.
Proof. done. Qed.

Lemma runs_raise {A} e tr (P : _ → failure fieldval + A → Prop) :
  P [] (inl e) → runs (raise e) tr P.
Proof. done. Qed.

Lemma runs_call ev tr P :
  (raises w tr ev = true → P [ev] (inl (Raised ev))) →
  (raises w tr ev = false → P [ev] (inr ())) →
  runs (call w ev) tr P.
Proof. unfold runs, call. simpl. destruct (raises w tr ev); auto. Qed.

Lemma runs_bind {A B} (c : io A) (k : A → io B) tr P :
  runs c tr (λ evs r,
    match r with
    | inl e => P evs (inl e)
    | inr a => runs (k a) (tr ++ evs) (λ evs' r', P (evs ++ evs') r')
    end) →
  runs (io_bind c k) tr P.
Proof.
  unfold runs, io_bind. destruct (c tr) as [evs [e|a]]; simpl; [done|].
  by destruct (k a (tr ++ evs)).
Qed.

Lemma runs_bind_call {B} ev (k : unit → io B) tr P :
  (raises w tr ev = true → P [ev] (inl (Raised ev))) →
  (raises w tr ev = false →
   runs (k ()) (tr ++ [ev]) (λ evs r, P (ev :: evs) r)) →
  runs (io_bind (call w ev) k) tr P.
Proof. intros Hfail Hok. apply runs_bind. by apply runs_call. Qed.

Lemma runs_bind_answer {A B} (f : list (event fieldval) → A) (k : A → io B) tr P :
  runs (k (f tr)) tr P → runs (io_bind (answer f) k) tr P.
Proof.
  intros Hk. apply runs_bind. unfold runs at 1. simpl. by rewrite app_nil_r.
Qed.

Lemma runs_impl {A} (c : io A) tr (P Q : _ → _ → Prop) :
  runs c tr P → (∀ evs r, P evs r → Q evs r) → runs c tr Q.
Proof. unfold runs. auto. Qed.

Lemma convert_measurement_batches m (pts : list (RawPoint value)) :
  Forall (λ b, 0 < length b ≤ 1000)
    (fst (convert_measurement (fieldval := fieldval) m pts)).
Proof.
  destruct (convert_loop_batches m pts (mkConv [] ∅ [])) as [Hfull Hpend];
    [by apply Forall_nil|simpl; lia|].
  assert (Forall (λ b : list (ReclassifiedPoint fieldval), 0 < length b ≤ 1000)
            (written (convert_loop m pts (mkConv [] ∅ [])).1)) as Hw.
  { eapply Forall_impl; [exact Hfull|]. intros b Hb. simpl in Hb. lia. }
  unfold convert_measurement.
  destruct (convert_loop m pts _) as [cs [e|]]; cbn [fst snd] in *; [done|].
  case_bool_decide as Hj; cbn [fst]; [|done].
  apply Forall_app. split; [done|]. apply Forall_singleton.
  destruct (json_body cs); [done|]. cbn [length] in *. lia.
Qed.

Lemma for_each_write_points (batches : list (list (ReclassifiedPoint fieldval))) tr :
  Forall (λ b, 0 < length b ≤ 1000) batches →
  runs (for_each batches (λ json_body, call w (write_points json_body DST_DB))) tr
    (λ evs r,
       downloads evs = [] ∧ uploads evs = [] ∧ Forall writes_ok evs
       ∧ points_read w tr evs = 0
       ∧ match r with
         | inr _ => points_written evs = length (concat batches)
         | inl (Raised _) => True
         | inl _ => False
         end).
Proof.
  intros Hb. revert tr. induction Hb as [|b batches Hlen _ IH]; intros tr.
  { apply runs_ret. split_and!; try done. }
  cbn [for_each]. apply runs_bind_call.
  - intros _. split_and!; try done. by apply Forall_singleton.
  - intros Hok. eapply runs_impl; [apply IH|].
    intros evs r (Hd & Hu & Hw & Hr & Hres). split_and!; try done.
    + by apply Forall_cons.
    + destruct r as [[]|[]]; try done. cbn [concat]. rewrite length_app.
      unfold points_written in *. cbn [sum_list_with]. by rewrite Hres.
Qed.

Lemma conversion_outcome_nil tr : conversion_outcome w tr [] (inr ()).
Proof. split_and!; done. Qed.

Lemma convert_measurement_calls_outcome m tr :
  runs (convert_measurement_calls w m) tr (conversion_outcome w tr).
Proof.
  unfold convert_measurement_calls. apply runs_bind_call.
  { intros _. split_and!; try done. by apply Forall_singleton. }
  intros Hq. apply runs_bind_answer.
  set (pts := results w (tr ++ [query ("SELECT * FROM " +:+ m)])).
  apply runs_bind.
  eapply runs_impl;
    [apply for_each_write_points, (convert_measurement_batches m pts)|].
  intros evs r (Hd & Hu & Hw & Hr & Hres).
  assert (Forall writes_ok (query ("SELECT * FROM " +:+ m) :: evs)) as Hw'
    by by apply Forall_cons.
  destruct r as [f|[]].
  { by destruct f. }
  destruct (snd (convert_measurement m pts)) as [e|] eqn:He.
  - apply runs_raise. rewrite app_nil_r. split_and!; done.
  - apply runs_ret. rewrite app_nil_r. split_and!; try done.
    cbn [points_read]. fold pts. rewrite Hr.
    change (points_written (query ("SELECT * FROM " +:+ m) :: evs))
      with (points_written evs).
    rewrite Hres. fold (emitted (convert_measurement m pts)).
    rewrite (emitted_length m pts He). lia.
Qed.

Lemma conversion_outcome_app tr evs evs' r :
  conversion_outcome w tr evs (inr ()) →
  conversion_outcome w (tr ++ evs) evs' r →
  conversion_outcome w tr (evs ++ evs') r.
Proof.
  intros (Hd & Hu & Hw & Hr) (Hd' & Hu' & Hw' & Hr').
  split_and!.
  - by rewrite downloads_app, Hd, Hd'.
  - by rewrite uploads_app, Hu, Hu'.
  - by apply Forall_app.
  - destruct r as [f|[]]; [done|].
    by rewrite points_written_app, points_read_app, Hr, Hr'.
Qed.

Lemma for_each_measurement ms tr :
  runs (for_each ms (convert_measurement_calls w)) tr (conversion_outcome w tr).
Proof.
  revert tr. induction ms as [|m ms IH]; intros tr.
  { apply runs_ret, conversion_outcome_nil. }
  cbn [for_each]. apply runs_bind.
  eapply runs_impl; [apply convert_measurement_calls_outcome|].
  intros evs r Hout. destruct r as [f|[]]; [done|].
  eapply runs_impl; [apply IH|].
  intros evs' r' Hout'. by apply conversion_outcome_app.
Qed.

Lemma day_outcome_parts d tr mid tl r :
  conversion_outcome w (tr ++ restore_calls d) mid (inr ()) →
  downloads tl = [] → Forall writes_ok tl → points_written tl = 0 →
  (∀ tr', points_read w tr' tl = 0) →
  match r with
  | inr _ =>
      uploads tl = [upload_cmd d]
      ∧ last tl = Some (check_call (upload_cmd d) (Some "complete"))
  | inl (Raised ev) =>
      uploads tl = []
      ∨ (ev = check_call (upload_cmd d) (Some "complete")
         ∧ uploads tl = [upload_cmd d])
  | inl (Exit _) => uploads tl = []
  | inl _ => False
  end →
  day_outcome w d tr (restore_calls d ++ mid ++ tl) r.
Proof.
  intros (Hd & Hu & Hw & Hr) Hdl Hwl Hpl Hrl Hres.
  split_and!.
  - done.
  - rewrite !downloads_app, Hd, Hdl. done.
  - apply Forall_app. split; [repeat constructor|]. by apply Forall_app.
  - assert (uploads (restore_calls d ++ mid ++ tl) = uploads tl) as Hup.
    { by rewrite !uploads_app, Hu. }
    assert (points_written (restore_calls d ++ mid ++ tl)
            = points_read w tr (restore_calls d ++ mid ++ tl)) as Hpts.
    { rewrite !points_written_app, !points_read_app, Hr, Hpl, Hrl.
      cbn [restore_calls points_read points_written sum_list_with]. lia. }
    rewrite Hup. destruct r as [f|[]].
    + by destruct f.
    + destruct Hres as [Hres Hlast]. split_and!; [done| |done].
      rewrite !app_assoc. destruct tl as [|ev tl] using rev_ind; [done|].
      rewrite last_snoc in Hlast. by rewrite app_assoc, last_snoc.
Qed.

Lemma day_outcome_mid d tr mid f :
  conversion_outcome w (tr ++ restore_calls d) mid (inl f) →
  day_outcome w d tr (restore_calls d ++ mid) (inl f).
Proof.
  intros (Hd & Hu & Hw & Hr).
  split_and!.
  - done.
  - rewrite !downloads_app, Hd. done.
  - apply Forall_app. split; [repeat constructor|done].
  - rewrite uploads_app, Hu. destruct f; try done. by left.
Qed.

Lemma convert_outcome s_str e_str tr :
  runs (convert w s_str e_str) tr (day_outcome w (s_str +:+ "_" +:+ e_str) tr).
Proof.
  unfold convert. cbv zeta.
  set (d := s_str +:+ "_" +:+ e_str).
  do 8 (apply runs_bind_call;
        [intros _; split_and!;
         [reflexivity|reflexivity|repeat constructor|left; reflexivity]
        |intros _]).
  apply runs_bind_answer. apply runs_bind.
  eapply runs_impl; [apply for_each_measurement|].
  intros mid r Hmid. rewrite <- !app_assoc in Hmid. cbn [app] in Hmid.
  fold (restore_calls (fieldval := fieldval) d) in Hmid.
  destruct r as [f|[]].
  { by apply day_outcome_mid. }
  apply runs_bind_answer.
  assert (∀ tl r,
    downloads tl = [] → Forall writes_ok tl → points_written tl = 0 →
    (∀ tr', points_read w tr' tl = 0) →
    match r with
    | inr _ =>
        uploads tl = [upload_cmd d]
        ∧ last tl = Some (check_call (upload_cmd d) (Some "complete"))
    | inl (Raised ev) =>
        uploads tl = []
        ∨ (ev = check_call (upload_cmd d) (Some "complete")
           ∧ uploads tl = [upload_cmd d])
    | inl (Exit _) => uploads tl = []
    | inl _ => False
    end →
    day_outcome w d tr (restore_calls d ++ mid ++ tl) r) as Htail.
  { intros tl r. by apply day_outcome_parts. }
  destruct (isdir w _ "complete").
  - apply runs_bind, runs_ret. cbn [app].
    do 2 (apply runs_bind_call;
          [intros _; apply Htail;
           [reflexivity|repeat constructor|reflexivity|intros; reflexivity
           |left; reflexivity]
          |intros _]).
    apply runs_call; intros _;
      (apply Htail;
       [reflexivity|repeat constructor|reflexivity|intros; reflexivity|]).
    + right. split; reflexivity.
    + split; reflexivity.
  - do 3 (apply runs_bind_call;
          [intros _; apply Htail;
           [reflexivity|repeat constructor|reflexivity|intros; reflexivity
           |left; reflexivity]
          |intros _]).
    apply runs_call; intros _;
      (apply Htail;
       [reflexivity|repeat constructor|reflexivity|intros; reflexivity|]).
    + right. split; reflexivity.
    + split; reflexivity.
Qed.

Lemma day_dir_0 s :
  day_dir strftime s 0
  = strftime s date_format +:+ "_" +:+ strftime (s + 24)%Z date_format.
Proof.
  unfold day_dir.
  replace (s + 24 * Z.of_nat 0)%Z with s by lia.
  by replace (s + 24 * (Z.of_nat 0 + 1))%Z with (s + 24)%Z by lia.
Qed.

Lemma day_dir_shift s i :
  day_dir strftime (s + 24) i = day_dir strftime s (S i).
Proof.
  unfold day_dir.
  replace (s + 24 + 24 * Z.of_nat i)%Z with (s + 24 * Z.of_nat (S i))%Z by lia.
  by replace (s + 24 + 24 * (Z.of_nat i + 1))%Z
    with (s + 24 * (Z.of_nat (S i) + 1))%Z by lia.
Qed.

Lemma days_shift (f : string → string) s k :
  f (day_dir strftime s 0) :: ((λ i, f (day_dir strftime (s + 24) i)) <$> seq 0 k)
  = (λ i, f (day_dir strftime s i)) <$> seq 0 (S k).
Proof.
  cbn [seq fmap list_fmap]. f_equal. rewrite <- fmap_S_seq, <- list_fmap_compose.
  apply list_fmap_ext. intros i j _. simpl. by rewrite day_dir_shift.
Qed.

Lemma whole_days_0 (s e : Z) : (e < s + 24)%Z → Z.to_nat ((e - s) / 24) = 0.
Proof.
  intros Hlt. destruct (decide (e - s < 0)%Z) as [Hneg|Hpos].
  - pose proof (Z.div_lt_upper_bound (e - s) 24 0 ltac:(lia) ltac:(lia)). lia.
  - rewrite Z.div_small by lia. done.
Qed.

Lemma whole_days_S (s e : Z) :
  (s + 24 ≤ e)%Z →
  Z.to_nat ((e - s) / 24) = S (Z.to_nat ((e - (s + 24)) / 24)).
Proof.
  intros Hle. replace (e - s)%Z with ((e - (s + 24)) + 1 * 24)%Z by lia.
  rewrite Z.div_add by lia.
  pose proof (Z.div_pos (e - (s + 24)) 24 ltac:(lia) ltac:(lia)). lia.
Qed.

Lemma main_loop_outcome fuel (s end_date : Z) tr :
  Z.to_nat ((end_date - s) / 24) < fuel →
  runs (main_loop w strftime fuel s end_date) tr
    (days_outcome strftime s (Z.to_nat ((end_date - s) / 24))).
Proof.
  revert s tr. induction fuel as [|fuel IH]; intros s tr Hfuel; [lia|].
  cbn [main_loop]. unfold add_day.
  destruct (s + 24 <=? datetime_max)%Z eqn:Hmax.
  2:{ apply runs_raise. exists 0. split; [lia|].
      apply Z.leb_gt in Hmax. split_and!; [lia|done..]. }
  destruct (end_date <? s + 24)%Z eqn:Hlt.
  { apply Z.ltb_lt in Hlt. apply Z.leb_le in Hmax. apply runs_ret.
    rewrite whole_days_0 by done. exists 0. split_and!; [done..|lia|done|done]. }
  apply Z.ltb_ge in Hlt. rewrite whole_days_S in * by done.
  apply runs_bind. eapply runs_impl; [apply convert_outcome|].
  rewrite <- day_dir_0.
  intros evs r (Hhead & Hd & Hw & Hres). destruct r as [f|[]].
  - exists 0. split; [lia|]. destruct f; try done.
    + split; [lia|]. split; [done|]. destruct Hres as [Hu|[-> Hu]]; [by left|].
      right. done.
    + split; [lia|]. done.
  - destruct Hres as (Hu & _ & _).
    eapply runs_impl; [apply IH; lia|].
    intros evs' r' (k & Hk & Hres').
    assert (downloads (evs ++ evs')
            = archive (day_dir strftime s 0) :: downloads evs') as Hda
      by by rewrite downloads_app, Hd.
    assert (uploads (evs ++ evs')
            = upload_cmd (day_dir strftime s 0) :: uploads evs') as Hua
      by by rewrite uploads_app, Hu.
    pose proof (days_shift archive s) as Ha.
    pose proof (days_shift upload_cmd s) as Hup.
    exists (S k). split; [lia|]. rewrite Hda, Hua.
    destruct r' as [f|[]].
    + destruct f; try done.
      * destruct Hres' as (Hlt' & Hd' & Hu'). split; [lia|].
        rewrite Hd', Ha. split; [done|].
        destruct Hu' as [Hu'|[-> Hu']]; rewrite Hu', Hup.
        -- by left.
        -- right. by rewrite day_dir_shift.
      * destruct Hres' as (Hlt' & Hd' & Hu'). split; [lia|].
        by rewrite Hd', Hu', Ha, Hup.
      * destruct Hres' as (Hlt' & Hd' & Hu'). split; [lia|].
        by rewrite Hd', Hu', Ha, Hup.
    + destruct Hres' as (-> & Hmax' & Hd' & Hu'). split; [done|].
      split; [lia|]. by rewrite Hd', Hu', Ha, Hup.
Qed.

End DriverFacts.

(** One day.  [convert] downloads the archive of its day, first, and no
    other.  It issues the upload command once, as its last call, when
    every call and every measurement before went through.  It fails only
    by a call that raises or by [convert_measurement] ending early (a
    [sys.exit] or the [TypeError] of line 129), and then no upload command
    was issued, unless the upload is the call that raised: a day that was
    not converted entirely is never uploaded. *)
Theorem day_uploaded_only_if_converted {value fieldval}
    `{!PyValue value fieldval} (w : world value fieldval) s_str e_str tr :
  head (convert w s_str e_str tr).1
  = Some (download_untar (archive (s_str +:+ "_" +:+ e_str)))
  ∧ downloads (convert w s_str e_str tr).1
    = [archive (s_str +:+ "_" +:+ e_str)]
  ∧ match (convert w s_str e_str tr).2 with
    | inr _ =>
        uploads (convert w s_str e_str tr).1
        = [upload_cmd (s_str +:+ "_" +:+ e_str)]
        ∧ last (convert w s_str e_str tr).1
          = Some (check_call (upload_cmd (s_str +:+ "_" +:+ e_str))
                    (Some "complete"))
    | inl (Raised ev) =>
        uploads (convert w s_str e_str tr).1 = []
        ∨ (ev = check_call (upload_cmd (s_str +:+ "_" +:+ e_str))
                  (Some "complete")
           ∧ uploads (convert w s_str e_str tr).1
             = [upload_cmd (s_str +:+ "_" +:+ e_str)])
    | inl (Exit _) => uploads (convert w s_str e_str tr).1 = []
    | inl _ => False
    end.
Proof.
  destruct (convert_outcome w s_str e_str tr) as (Hhead & Hd & _ & Hres).
  split; [exact Hhead|]. split; [exact Hd|].
  destruct (convert w s_str e_str tr).2 as [f|[]]; [exact Hres|].
  destruct Hres as (Hu & Hlast & _). by split.
Qed.

(** One day.  Every batch that [convert] writes goes to the database
    [puffer] and holds between 1 and 1000 points; and when [convert]
    returns, it has written as many points as its queries returned. *)
Theorem day_conserves_points {value fieldval} `{!PyValue value fieldval}
    (w : world value fieldval) s_str e_str tr :
  Forall (λ ev, match ev with
                | write_points points database =>
                    database = "puffer" ∧ 0 < length points ≤ 1000
                | _ => True
                end) (convert w s_str e_str tr).1
  ∧ ((convert w s_str e_str tr).2 = inr () →
     points_written (convert w s_str e_str tr).1
     = points_read w tr (convert w s_str e_str tr).1).
Proof.
  destruct (convert_outcome w s_str e_str tr) as (_ & _ & Hw & Hres).
  split; [exact Hw|]. intros Hr. rewrite Hr in Hres.
  by destruct Hres as (_ & _ & Hpts).
Qed.

(** The days of a range.  For dates that parse, with the start before the
    end, [main] converts the whole days of the range in order, the [i]-th
    day from [start + i] days to [start + i + 1] days: when it returns, it
    has downloaded and uploaded every day, and the day after the last
    one is within [datetime.max]; when a day fails, the days
    before it are uploaded, the failing day is downloaded and not uploaded
    (unless its upload raised), and no later day is touched.  The loop
    needs no more steps than the range has days, and when the day after
    the end is within [datetime.max], adding a day never overflows. *)
Theorem main_converts_whole_days {value fieldval} `{!PyValue value fieldval}
    (w : world value fieldval) (strptime : string → string → option Z)
    (strftime : Z → string → string) args_start_date args_end_date
    (start_date end_date : Z) tr :
  strptime (args_start_date +:+ "T11") "%Y-%m-%dT%H" = Some start_date →
  strptime (args_end_date +:+ "T11") "%Y-%m-%dT%H" = Some end_date →
  (start_date < end_date)%Z →
  days_outcome strftime start_date (Z.to_nat ((end_date - start_date) / 24))
    (main w strptime strftime args_start_date args_end_date tr).1
    (main w strptime strftime args_start_date args_end_date tr).2
  ∧ ((end_date + 24 ≤ datetime_max)%Z →
     (main w strptime strftime args_start_date args_end_date tr).2
     ≠ inl OverflowError).
Proof.
  intros Hs He Hlt.
  assert (main w strptime strftime args_start_date args_end_date tr
          = main_loop w strftime (S (Z.to_nat ((end_date - start_date) / 24)))
              start_date end_date tr) as ->.
  { unfold main.
    change (args_start_date +:+ "T" +:+ pretty backup_hour)
      with (args_start_date +:+ "T11").
    change (args_end_date +:+ "T" +:+ pretty backup_hour)
      with (args_end_date +:+ "T11").
    change date_format with "%Y-%m-%dT%H". rewrite Hs, He.
    by rewrite (proj2 (Z.leb_gt end_date start_date)) by lia. }
  pose proof (main_loop_outcome w strftime
                (S (Z.to_nat ((end_date - start_date) / 24)))
                start_date end_date tr ltac:(lia)) as Hout.
  split; [exact Hout|].
  intros Hmax Hover. unfold runs in Hout. rewrite Hover in Hout.
  destruct Hout as (k & Hk & Hbeyond & _).
  pose proof (Z.mul_div_le (end_date - start_date) 24 ltac:(lia)).
  pose proof (Z.div_pos (end_date - start_date) 24 ltac:(lia) ltac:(lia)).
  lia.
Qed.

(** Before the first day.  [main] makes a call only when both dates parse
    and the range holds a whole day that does not pass [datetime.max]; its
    first call is then the download of the first day's archive.  When the
    end is not after the start, equal dates included, it stops with
    [END_DATE precedes START_DATE] before any call. *)
Theorem main_before_first_day {value fieldval} `{!PyValue value fieldval}
    (w : world value fieldval) (strptime : string → string → option Z)
    (strftime : Z → string → string) args_start_date args_end_date tr :
  ((main w strptime strftime args_start_date args_end_date tr).1 ≠ [] →
   ∃ start_date end_date,
     strptime (args_start_date +:+ "T11") "%Y-%m-%dT%H" = Some start_date
     ∧ strptime (args_end_date +:+ "T11") "%Y-%m-%dT%H" = Some end_date
     ∧ (start_date + 24 ≤ end_date)%Z
     ∧ (start_date + 24 ≤ datetime_max)%Z
     ∧ head (main w strptime strftime args_start_date args_end_date tr).1
       = Some (download_untar
                 (archive (strftime start_date "%Y-%m-%dT%H" +:+ "_"
                           +:+ strftime (start_date + 24)%Z "%Y-%m-%dT%H"))))
  ∧ ∀ start_date end_date,
      strptime (args_start_date +:+ "T11") "%Y-%m-%dT%H" = Some start_date →
      strptime (args_end_date +:+ "T11") "%Y-%m-%dT%H" = Some end_date →
      (end_date ≤ start_date)%Z →
      main w strptime strftime args_start_date args_end_date tr
      = ([], inl EndPrecedesStart).
Proof.
  unfold main.
  change (args_start_date +:+ "T" +:+ pretty backup_hour)
    with (args_start_date +:+ "T11").
  change (args_end_date +:+ "T" +:+ pretty backup_hour)
    with (args_end_date +:+ "T11").
  change date_format with "%Y-%m-%dT%H".
  split.
  - destruct (strptime (args_start_date +:+ "T11") _) as [s|]; [|done].
    destruct (strptime (args_end_date +:+ "T11") _) as [e|]; [|done].
    destruct (e <=? s)%Z eqn:Hle; [done|]. apply Z.leb_gt in Hle.
    cbn [main_loop]. unfold add_day.
    destruct (s + 24 <=? datetime_max)%Z eqn:Hmax; [|done].
    apply Z.leb_le in Hmax.
    destruct (e <? s + 24)%Z eqn:Hlt; [done|]. apply Z.ltb_ge in Hlt.
    intros _. exists s, e. split_and!; [done..|].
    destruct (convert_outcome w (strftime s "%Y-%m-%dT%H")
                (strftime (s + 24)%Z "%Y-%m-%dT%H") (tr)) as (Hhead & _).
    change date_format with "%Y-%m-%dT%H".
    unfold io_bind.
    destruct (convert w _ _ tr) as [evs [f|[]]]; cbn [fst snd] in *; [done|].
    destruct (main_loop _ _ _ _ _ _) as [evs' r]. cbn [fst].
    by destruct evs.
  - intros s e -> -> Hle. by rewrite (proj2 (Z.leb_le e s)) by done.
Qed.

(** ** What the output of a point depends on *)

Section Dependence.
Context {value fieldval : Type} `{!PyValue value fieldval}.
Implicit Types (pt : RawPoint value) (pts : list (RawPoint value)).
Implicit Types (dup : gset (list cell)) (p : ReclassifiedPoint fieldval).

(** The keys seen decide the time and the synthetic [server_id] of a point,
    and nothing else. *)
Lemma convert_point_data m pt dup p dup' :
  convert_point m pt dup = inr (p, dup') →
  ∃ p0 dup0, convert_point m pt ∅ = inr (p0, dup0)
    ∧ fields p = fields p0
    ∧ ∀ k, k ≠ "server_id" → tags p !! k = tags p0 !! k.
Proof.
  unfold convert_point.
  destruct (dict_get m tag_keys) as [tks|]; [|done].
  destruct (build_series m pt tks _) as [e|st] eqn:Hb; [done|].
  rewrite (resolve_fresh _ m ∅ st) by set_solver.
  destruct (resolve _ m dup st) as [[e|st']|]; [done| |done].
  rewrite (classify_initial _ _ _ (initial_tags st')).
  rewrite (classify_initial _ _ _ (initial_tags st)).
  destruct (classify m tks (pt_items pt) ∅ ∅) as [e|[tags1 fields1]]; [done|].
  intros [= <- <-]. eexists _, _. split; [done|]. split; [done|].
  intros k Hk. cbn [tags]. rewrite !lookup_union.
  assert (∀ s : dedup_state, initial_tags s !! k = None) as Hinit.
  { intros s. unfold initial_tags. destruct (fake s) as [[f idx]|]; [|done].
    by rewrite lookup_singleton_ne. }
  by rewrite !Hinit.
Qed.

End Dependence.

(** The points after a point have no part in what is written for it: a
    run that fails on [pts1] fails in the same way, with the same batches
    written, whatever follows [pts1]; and when the run on [pts1] goes
    through, whatever a run on [pts1 ++ pts2] writes for one of the first
    points is what the run on [pts1] writes for it. *)
Theorem later_points_irrelevant {value fieldval} `{!PyValue value fieldval}
    m (pts1 pts2 : list (RawPoint value)) :
  (∀ e, snd (convert_measurement (fieldval := fieldval) m pts1) = Some e →
     convert_measurement (fieldval := fieldval) m (pts1 ++ pts2)
     = convert_measurement m pts1)
  ∧ (snd (convert_measurement (fieldval := fieldval) m pts1) = None →
     ∀ i (p : ReclassifiedPoint fieldval), i < length pts1 →
       emitted (convert_measurement m (pts1 ++ pts2)) !! i = Some p →
       emitted (convert_measurement m pts1) !! i = Some p).
Proof.
  split.
  - intros e He. rewrite convert_measurement_snd in He.
    unfold convert_measurement. rewrite convert_loop_app.
    by destruct (convert_loop m pts1 _) as [cs [e'|]].
  - intros Hnone i p Hi Hp.
    destruct (emitted_measurement m pts1) as (rest1 & Hall1 & Hrest1).
    destruct (emitted_measurement m (pts1 ++ pts2)) as (rest & Hall & _).
    rewrite (Hrest1 Hnone), app_nil_r in Hall1.
    pose proof (emitted_length m pts1 Hnone) as Hlen.
    rewrite convert_loop_app in Hall.
    rewrite convert_measurement_snd in Hnone.
    destruct (convert_loop m pts1 (mkConv [] ∅ [])) as [cs1 [e|]] eqn:Hl1;
      [done|]. cbn [fst] in Hall1.
    destruct (convert_loop_steps m pts2 cs1) as (ps & Hsteps & _).
    rewrite Hsteps, Hall1 in Hall.
    assert ((emitted (convert_measurement m (pts1 ++ pts2)) ++ rest) !! i
            = Some p) as Hp' by by apply lookup_app_l_Some.
    rewrite <- Hall in Hp'. rewrite lookup_app_l in Hp' by lia. done.
Qed.

(** Collisions change the synthetic [server_id] of a point and nothing
    else: the [i]-th written point has the fields, under every other key
    the tags, and the time that its raw point gets when it is converted on
    its own, which then succeeds. *)
Theorem collisions_preserve_data {value fieldval} `{!PyValue value fieldval}
    m (pts : list (RawPoint value)) i pt (p : ReclassifiedPoint fieldval) :
  pts !! i = Some pt →
  emitted (convert_measurement m pts) !! i = Some p →
  ∃ p0 dup0, convert_point m pt ∅ = inr (p0, dup0)
    ∧ measurement p = measurement p0
    ∧ fields p = fields p0
    ∧ (∀ k, k ≠ "server_id" → tags p !! k = tags p0 !! k)
    ∧ time p = time p0.
Proof.
  intros Hpt Hp.
  destruct (emitted_steps m pts i p Hp) as (pt' & dup & dup' & Hpt' & _ & Hconv).
  assert (pt' = pt) as -> by congruence.
  destruct (convert_point_data _ _ _ _ _ Hconv) as (p0 & dup0 & Hp0 & Hf & Ht).
  exists p0, dup0. split_and!; [done| |done..|].
  2: { rewrite (convert_point_time _ _ _ _ _ Hconv).
       by rewrite (convert_point_time _ _ _ _ _ Hp0). }
  apply convert_point_inr in Hconv as (_ & _ & _ & _ & _ & _ & _ & _ & _ & ->).
  by apply convert_point_inr in Hp0 as (_ & _ & _ & _ & _ & _ & _ & _ & _ & ->).
Qed.

(** ** The further theorems at concrete points *)

Lemma timestamp_never_shifted_witness :
  emitted (convert_measurement "client_buffer" [cb_row; cb_row]) !! 1
  = Some cb_point2
  ∧ time cb_point2 = 0%Z.
Proof.
  assert (emitted (convert_measurement "client_buffer" [cb_row; cb_row]) !! 1
          = Some cb_point2) as Hp by vm_refl.
  split; [exact Hp|].
  exact (timestamp_never_shifted "client_buffer" [cb_row; cb_row] 1 cb_row
           cb_point2 eq_refl Hp).
Defined.

Lemma emitted_points_conform_witness :
  emitted (convert_measurement "ssim" [ssim_row]) !! 0 = Some ssim_point5
  ∧ measurement ssim_point5 = "ssim"
  ∧ ∀ k s, tags ssim_point5 !! k = Some s → k ∈ ["channel"; "format"].
Proof.
  assert (emitted (convert_measurement "ssim" [ssim_row]) !! 0
          = Some ssim_point5) as Hp by vm_refl.
  split; [exact Hp|].
  destruct (emitted_points_conform "ssim" ["channel"; "format"] [ssim_row] 0
              ssim_point5 eq_refl Hp) as (Hm & Htags & _).
  split; [exact Hm|exact Htags].
Defined.

Lemma raw_value_preserved_witness :
  emitted (convert_measurement "ssim" [ssim_row]) !! 0 = Some ssim_point5
  ∧ tags ssim_point5 !! "timestamp" = None
  ∧ fields ssim_point5 !! "timestamp" = Some (FInt 90000).
Proof.
  assert (emitted (convert_measurement "ssim" [ssim_row]) !! 0
          = Some ssim_point5) as Hp by vm_refl.
  assert (is_None (PInt 90000) = false) as Hn by reflexivity.
  split; [exact Hp|].
  destruct (raw_value_preserved "ssim" ["channel"; "format"] [ssim_row] 0
              ssim_row ssim_point5 "timestamp" (PInt 90000)
              eq_refl eq_refl Hp) as [(Htag & _)|(_ & Htags & Hfields)].
  - right; right; left.
  - discriminate.
  - exact Hn.
  - intros pt_k' v' Hin _ _ Hk.
    in_list Hin; [discriminate Hk|discriminate Hk|reflexivity].
  - exfalso. vm_compute in Htag. in_list Htag.
  - split; [exact Htags|].
    destruct Hfields as (fks & ty & x & Hfks & Hty & Hx & Hf).
    vm_compute in Hfks. injection Hfks as <-.
    vm_compute in Hty. injection Hty as <-.
    injection Hx as <-. exact Hf.
Defined.

Lemma distinct_input_untouched_witness :
  NoDup (candidate_key ["channel"; "format"] <$> [ssim_row; ssim_no_format])
  ∧ ∃ pt, pt ∈ [ssim_row; ssim_no_format]
      ∧ convert_point (fieldval := pyfield) "ssim" pt ∅
        = inl (MissingDeclaredTag "format").
Proof.
  assert (NoDup (candidate_key ["channel"; "format"]
                   <$> [ssim_row; ssim_no_format])) as Hnd.
  { apply NoDup_cons. split; [intros Hin; in_list Hin|].
    apply NoDup_cons. split; [intros Hin; in_list Hin|]. apply NoDup_nil_2. }
  assert (snd (convert_measurement (fieldval := pyfield) "ssim"
                 [ssim_row; ssim_no_format])
          = Some (MissingDeclaredTag "format")) as He by vm_refl.
  split; [exact Hnd|].
  destruct (distinct_input_untouched "ssim" ["channel"; "format"]
              [ssim_row; ssim_no_format] eq_refl Hnd) as [_ Herr].
  exact (Herr _ He).
Defined.

Lemma seen_key_raises_witness :
  ("ssim" ∉ ["client_buffer"; "video_sent"; "video_acked"])
  ∧ snd (convert_measurement (fieldval := pyfield) "ssim" [ssim_row]) = None
  ∧ candidate_key ["channel"; "format"] ssim_row
    ∈ candidate_key ["channel"; "format"] <$> [ssim_row]
  ∧ convert_measurement (fieldval := pyfield) "ssim" ([ssim_row] ++ [ssim_row])
    = ([], Some InvalidTimedeltaUnit).
Proof.
  assert ("ssim" ∉ ["client_buffer"; "video_sent"; "video_acked"]) as Hm.
  { intros H. in_list H; discriminate. }
  assert (snd (convert_measurement (fieldval := pyfield) "ssim" [ssim_row])
          = None) as Hnone by vm_refl.
  assert (candidate_key ["channel"; "format"] ssim_row
          ∈ candidate_key ["channel"; "format"] <$> [ssim_row]) as Hin.
  { cbn [fmap list_fmap]. left. }
  split; [exact Hm|]. split; [exact Hnone|]. split; [exact Hin|].
  destruct (seen_key_raises "ssim" ["channel"; "format"] [ssim_row] ssim_row []
              Hm eq_refl Hnone) as [_ Hw]; [|exact Hin|].
  - intros k Hk. in_list Hk; eexists; reflexivity.
  - apply Hw. cbn [length]. lia.
Defined.

Lemma colliding_points_numbered_witness :
  "client_buffer" ∈ ["client_buffer"; "video_sent"; "video_acked"]
  ∧ emitted (convert_measurement "client_buffer" [cb_row; cb_row]) !! 1
    = Some cb_point2
  ∧ ∃ p0, cb_point2
          = mkPoint "client_buffer" 0
              (<["server_id" := pretty (1 + Z.of_nat 1)%Z]> (tags p0))
              (fields p0).
Proof.
  assert ("client_buffer" ∈ ["client_buffer"; "video_sent"; "video_acked"])
    as Hm by left.
  assert (emitted (convert_measurement "client_buffer" [cb_row; cb_row]) !! 1
          = Some cb_point2) as Hp by vm_refl.
  split; [exact Hm|]. split; [exact Hp|].
  destruct (colliding_points_numbered "client_buffer" ["channel"; "server_id"]
              [cb_row; cb_row] (cb_key "1") Hm eq_refl) as [Hpts _].
  { intros pt Hpt. in_list Hpt; split_and!; reflexivity. }
  destruct (Hpts 1 cb_point2 Hp) as (pt & p0 & _ & Hpt & _ & Heq).
  injection Hpt as <-. exists p0. exact Heq.
Defined.


Lemma failed_run_keeps_full_batches_witness :
  snd (convert_measurement (fieldval := pyfield) "ssim" [ssim_row; ssim_no_format])
  = Some (MissingDeclaredTag "format")
  ∧ ∃ pts1, snd (convert_measurement (fieldval := pyfield) "ssim" pts1) = None
      ∧ emitted (convert_measurement (fieldval := pyfield) "ssim"
                   [ssim_row; ssim_no_format])
        = take (1000 * (length pts1 / 1000))
            (emitted (convert_measurement "ssim" pts1)).
Proof.
  assert (snd (convert_measurement (fieldval := pyfield) "ssim"
                 [ssim_row; ssim_no_format])
          = Some (MissingDeclaredTag "format")) as He by vm_refl.
  split; [exact He|].
  destruct (failed_run_keeps_full_batches "ssim" [ssim_row; ssim_no_format] _ He)
    as (pts1 & pt & pts2 & _ & Hnone & _ & Hem).
  exists pts1. split; [exact Hnone|exact Hem].
Defined.

Lemma synthetic_id_order_dependence_witness :
  convert_measurement "client_buffer" [cb_row; cb_row_id1]
  = ([], Some (UnresolvableCollision "client_buffer"))
  ∧ snd (convert_measurement (fieldval := pyfield) "client_buffer"
           [cb_row_id1; cb_row]) = None.
Proof.
  assert ("client_buffer" ∈ ["client_buffer"; "video_sent"; "video_acked"])
    as Hm by left.
  assert (convert_point "client_buffer" cb_row ∅
          = inr (cb_point1, {[cb_key "1"]} ∪ ∅)) as Hp1 by vm_refl.
  assert (convert_point "client_buffer" cb_row_id1 ∅
          = inr (cb_point1, {[cb_key "1"]} ∪ ∅)) as Hp2 by vm_refl.
  destruct (synthetic_id_order_dependence "client_buffer"
              ["channel"; "server_id"] cb_row cb_row_id1 cb_point1 cb_point1
              ({[cb_key "1"]} ∪ ∅) ({[cb_key "1"]} ∪ ∅)
              Hm eq_refl eq_refl eq_refl) as [Hfail Hok];
    [|reflexivity|exact Hp1|exact Hp2|].
  - intros k Hk. in_list Hk; eexists; reflexivity.
  - split; [exact Hfail|]. rewrite Hok. reflexivity.
Defined.

Lemma main_converts_whole_days_witness :
  (main calm_world strptime_hours strftime_hours "2019-04-03" "2019-04-05" []).2
  = inr ()
  ∧ downloads
      (main calm_world strptime_hours strftime_hours "2019-04-03" "2019-04-05" []).1
    = ["2019-04-03T11_2019-04-04T11.tar.gz";
       "2019-04-04T11_2019-04-05T11.tar.gz"]
  ∧ uploads
      (main calm_world strptime_hours strftime_hours "2019-04-03" "2019-04-05" []).1
    = ["gsutil cp 2019-04-03T11_2019-04-04T11.tar.gz gs://puffer-influxdb-analytics";
       "gsutil cp 2019-04-04T11_2019-04-05T11.tar.gz gs://puffer-influxdb-analytics"].
Proof.
  assert (strptime_hours ("2019-04-03" +:+ "T11") "%Y-%m-%dT%H"
          = Some 17691635%Z) as Hs by vm_refl.
  assert (strptime_hours ("2019-04-05" +:+ "T11") "%Y-%m-%dT%H"
          = Some 17691683%Z) as He by vm_refl.
  assert ((main calm_world strptime_hours strftime_hours
             "2019-04-03" "2019-04-05" []).2 = inr ()) as Hr by vm_refl.
  destruct (main_converts_whole_days calm_world strptime_hours strftime_hours
              "2019-04-03" "2019-04-05" 17691635 17691683 [] Hs He eq_refl)
    as [(k & _ & Hout) _].
  rewrite Hr in Hout. destruct Hout as (-> & _ & Hd & Hu).
  split; [exact Hr|]. split.
  - rewrite Hd. vm_refl.
  - rewrite Hu. vm_refl.
Defined.

Lemma collisions_preserve_data_witness :
  emitted (convert_measurement "client_buffer" [cb_row; cb_row]) !! 1
  = Some cb_point2
  ∧ ∃ p0 dup0, convert_point "client_buffer" cb_row ∅ = inr (p0, dup0)
      ∧ fields cb_point2 = fields p0.
Proof.
  assert (emitted (convert_measurement "client_buffer" [cb_row; cb_row]) !! 1
          = Some cb_point2) as Hp by vm_refl.
  split; [exact Hp|].
  destruct (collisions_preserve_data "client_buffer" [cb_row; cb_row] 1 cb_row
              cb_point2 eq_refl Hp) as (p0 & dup0 & Hp0 & _ & Hf & _).
  exists p0, dup0. split; [exact Hp0|exact Hf].
Defined.
